(** * adbconnection: the JDWP connection broker of the ART runtime

    A shallow embedding of [adbconnection/adbconnection.cc]: the DDM packet
    framer ([PublishDdmData], [NextDdmId]), the control-socket client
    ([SetupAdbConnection]), the agent argument string ([MakeAgentArg]) and the
    poll loop ([RunPollLoop]) with the helpers it calls ([SendAgentFds],
    [ReadFdFromAdb], [CloseFds]).

    File descriptors are integers as in the source, [-1] meaning "none"
    ([android::base::unique_fd]).  System calls are answered by an explicit
    environment argument; what the code does to the outside world (locks
    taken, descriptors closed, bytes written, messages logged) is returned as
    a list of [Event]s in program order. *)

From Stdlib Require Import ZArith List String Ascii Bool Lia.
From Stdlib Require Import DecimalString.
Import ListNotations.
Open Scope Z_scope.

(** ** Machine integers and bytes *)

Definition uint32 (z : Z) : Z := z mod 2 ^ 32.
Definition size_t (z : Z) : Z := z mod 2 ^ 64.

(** [static_cast<char>(x)] / a [uint8_t] store: the low eight bits. *)
Definition uint8 (z : Z) : Z := Z.land z 255.

(** [*reinterpret_cast<uint32_t*>(p) = htonl(v)]: the four bytes left at [p]
    are [v] in network (big-endian) order, whatever the host order is. *)
Definition htonl_bytes (v : Z) : list Z :=
  [ uint8 (Z.shiftr v 24); uint8 (Z.shiftr v 16); uint8 (Z.shiftr v 8); uint8 v ].

(** Reading a big-endian 32-bit field back, as the debugger does. *)
Definition be32_at (off : nat) (pkt : list Z) : Z :=
  nth off pkt 0 * 2 ^ 24 + nth (off + 1) pkt 0 * 2 ^ 16
  + nth (off + 2) pkt 0 * 2 ^ 8 + nth (off + 3) pkt 0.

(** Writing [bytes] into a buffer at byte offset [off]; [None] when the write
    would leave the buffer (undefined behaviour in the source). *)
Definition store_bytes (buf : list Z) (off : nat) (bytes : list Z) : option (list Z) :=
  if (off + List.length bytes <=? List.length buf)%nat
  then Some (firstn off buf ++ bytes ++ skipn (off + List.length bytes) buf)
  else None.

Definition zlen {A} (l : list A) : Z := Z.of_nat (List.length l).

(** ** Observable actions *)

Inductive LogSeverity := INFO | WARNING | ERROR | FATAL.

Inductive Event :=
| EvLockAcquire (fd : Z)                 (* ScopedEventFdLock(): read(fd) *)
| EvLockRelease (fd : Z)                 (* ~ScopedEventFdLock(): write(fd) *)
| EvClose (fd : Z)                       (* unique_fd closing its descriptor *)
| EvWritev (fd : Z) (iovs : list (list Z))
| EvSendFds (sock : Z) (read_fd write_fd write_lock_fd : Z)
| EvUsleep (usec : Z)
| EvWake (fd : Z)                        (* write(fd, 1) on an eventfd *)
| EvShutdown (fd : Z)
| EvSendPid (fd : Z)
| EvAttachAgent (arg : string)
| EvLog (sev : LogSeverity) (msg : string)
| EvDcheckFailed (what : string).

(** ** Constants *)

(** Modelled from the spec: [jdwp/jdwp_priv.h] is not among the sources.  The
    packet layout puts the id at offset 4, the flags at 8, the command set at
    9, the command at 10 and the chunk type right after at 11, so the JDWP
    command header that [kJDWPHeaderLen] measures is 11 bytes; the command set
    is 0xC7 and the command is 1. *)
Definition kJDWPHeaderLen : Z := 11.
Definition kJDWPDdmCmdSet : Z := 0xC7.
Definition kJDWPDdmCmd : Z := 1.

Definition kEventfdLocked : Z := 0.
Definition kEventfdUnlocked : Z := 1.
Definition kControlSockSendTimeout : Z := 10.

(** <poll.h> on Linux. *)
Definition POLLIN : Z := 0x0001.
Definition POLLRDHUP : Z := 0x2000.

(** ** The broker state *)

Record AdbConnectionState := mkState {
  agent_name_ : string;
  sleep_event_fd_ : Z;
  control_sock_ : Z;
  local_agent_control_sock_ : Z;
  remote_agent_control_sock_ : Z;
  adb_connection_socket_ : Z;
  adb_write_event_fd_ : Z;
  shutting_down_ : bool;
  agent_loaded_ : bool;
  agent_listening_ : bool;
  agent_has_socket_ : bool;
  sent_agent_fds_ : bool;
  next_ddm_id_ : Z                       (* uint32_t counter *)
}.

Definition set_control_sock (st : AdbConnectionState) (v : Z) :=
  mkState (agent_name_ st) (sleep_event_fd_ st) v
          (local_agent_control_sock_ st) (remote_agent_control_sock_ st)
          (adb_connection_socket_ st) (adb_write_event_fd_ st)
          (shutting_down_ st) (agent_loaded_ st) (agent_listening_ st)
          (agent_has_socket_ st) (sent_agent_fds_ st) (next_ddm_id_ st).

Definition set_adb_connection_socket (st : AdbConnectionState) (v : Z) :=
  mkState (agent_name_ st) (sleep_event_fd_ st) (control_sock_ st)
          (local_agent_control_sock_ st) (remote_agent_control_sock_ st)
          v (adb_write_event_fd_ st)
          (shutting_down_ st) (agent_loaded_ st) (agent_listening_ st)
          (agent_has_socket_ st) (sent_agent_fds_ st) (next_ddm_id_ st).

Definition set_shutting_down (st : AdbConnectionState) (v : bool) :=
  mkState (agent_name_ st) (sleep_event_fd_ st) (control_sock_ st)
          (local_agent_control_sock_ st) (remote_agent_control_sock_ st)
          (adb_connection_socket_ st) (adb_write_event_fd_ st)
          v (agent_loaded_ st) (agent_listening_ st)
          (agent_has_socket_ st) (sent_agent_fds_ st) (next_ddm_id_ st).

Definition set_agent_loaded (st : AdbConnectionState) (v : bool) :=
  mkState (agent_name_ st) (sleep_event_fd_ st) (control_sock_ st)
          (local_agent_control_sock_ st) (remote_agent_control_sock_ st)
          (adb_connection_socket_ st) (adb_write_event_fd_ st)
          (shutting_down_ st) v (agent_listening_ st)
          (agent_has_socket_ st) (sent_agent_fds_ st) (next_ddm_id_ st).

Definition set_agent_listening (st : AdbConnectionState) (v : bool) :=
  mkState (agent_name_ st) (sleep_event_fd_ st) (control_sock_ st)
          (local_agent_control_sock_ st) (remote_agent_control_sock_ st)
          (adb_connection_socket_ st) (adb_write_event_fd_ st)
          (shutting_down_ st) (agent_loaded_ st) v
          (agent_has_socket_ st) (sent_agent_fds_ st) (next_ddm_id_ st).

Definition set_agent_has_socket (st : AdbConnectionState) (v : bool) :=
  mkState (agent_name_ st) (sleep_event_fd_ st) (control_sock_ st)
          (local_agent_control_sock_ st) (remote_agent_control_sock_ st)
          (adb_connection_socket_ st) (adb_write_event_fd_ st)
          (shutting_down_ st) (agent_loaded_ st) (agent_listening_ st)
          v (sent_agent_fds_ st) (next_ddm_id_ st).

Definition set_sent_agent_fds (st : AdbConnectionState) (v : bool) :=
  mkState (agent_name_ st) (sleep_event_fd_ st) (control_sock_ st)
          (local_agent_control_sock_ st) (remote_agent_control_sock_ st)
          (adb_connection_socket_ st) (adb_write_event_fd_ st)
          (shutting_down_ st) (agent_loaded_ st) (agent_listening_ st)
          (agent_has_socket_ st) v (next_ddm_id_ st).

Definition set_next_ddm_id (st : AdbConnectionState) (v : Z) :=
  mkState (agent_name_ st) (sleep_event_fd_ st) (control_sock_ st)
          (local_agent_control_sock_ st) (remote_agent_control_sock_ st)
          (adb_connection_socket_ st) (adb_write_event_fd_ st)
          (shutting_down_ st) (agent_loaded_ st) (agent_listening_ st)
          (agent_has_socket_ st) (sent_agent_fds_ st) v.

(** [AdbConnectionState::AdbConnectionState(agent_name)].  The initialiser
    list names every descriptor, [shutting_down_], [agent_loaded_],
    [agent_listening_] and [next_ddm_id_].

    Modelled from the spec: the class declaration ([adbconnection.h]) is not
    among the sources and the initialiser list does not mention
    [agent_has_socket_] and [sent_agent_fds_]; the fresh-start state of the
    spec has both [false]. *)
Definition AdbConnectionState_new (agent_name : string) : AdbConnectionState :=
  {| agent_name_ := agent_name;
     sleep_event_fd_ := -1;
     control_sock_ := -1;
     local_agent_control_sock_ := -1;
     remote_agent_control_sock_ := -1;
     adb_connection_socket_ := -1;
     adb_write_event_fd_ := -1;
     shutting_down_ := false;
     agent_loaded_ := false;
     agent_listening_ := false;
     agent_has_socket_ := false;
     sent_agent_fds_ := false;
     next_ddm_id_ := 1 |}.

(** ** DDM packet framer *)

(** [uint32_t NextDdmId() { return (next_ddm_id_++) | 0x80000000; }] *)
Definition NextDdmId (st : AdbConnectionState) : Z * AdbConnectionState :=
  (uint32 (Z.lor (next_ddm_id_ st) 0x80000000),
   set_next_ddm_id st (uint32 (next_ddm_id_ st + 1))).

(** [StringPrintf("%c%c%c%c", type >> 24, type >> 16, type >> 8, type)] *)
Definition type_chars (type : Z) : string :=
  let c (z : Z) := ascii_of_N (Z.to_N (uint8 z)) in
  String (c (Z.shiftr type 24)) (String (c (Z.shiftr type 16))
    (String (c (Z.shiftr type 8)) (String (c type) EmptyString))).

Definition kDdmPacketHeaderSize : Z := kJDWPHeaderLen + 4 + 4.

(** The header writes of [PublishDdmData] through the moving pointer
    [pkt_data], into the array [pkt] whose bytes start out as [pkt0]. *)
Definition ddm_header (pkt0 : list Z) (id type : Z) (data_size : Z) : option (list Z) :=
  let pkt_data := 0%nat in
  match store_bytes pkt0 pkt_data (htonl_bytes (uint32 (size_t (kDdmPacketHeaderSize + data_size)))) with
  | None => None
  | Some pkt =>
  let pkt_data := (pkt_data + 4)%nat in
  match store_bytes pkt pkt_data (htonl_bytes id) with
  | None => None
  | Some pkt =>
  let pkt_data := (pkt_data + 4)%nat in
  match store_bytes pkt pkt_data [0] with
  | None => None
  | Some pkt =>
  let pkt_data := (pkt_data + 1)%nat in
  match store_bytes pkt pkt_data [kJDWPDdmCmdSet] with
  | None => None
  | Some pkt =>
  let pkt_data := (pkt_data + 1)%nat in
  match store_bytes pkt pkt_data [kJDWPDdmCmd] with
  | None => None
  | Some pkt =>
  let pkt_data := (pkt_data + 1)%nat in
  match store_bytes pkt pkt_data (htonl_bytes (uint32 type)) with
  | None => None
  | Some pkt =>
  let pkt_data := (pkt_data + 4)%nat in
  store_bytes pkt pkt_data (htonl_bytes (uint32 data_size))
  end end end end end end.

(** The uninitialised [std::array<uint8_t, kDdmPacketHeaderSize> pkt]: any
    bytes, exactly [kDdmPacketHeaderSize] of them. *)
Definition array_of (n : Z) (stale : list Z) : list Z :=
  firstn (Z.to_nat n) (stale ++ repeat 0 (Z.to_nat n)).

Inductive PublishResult :=
| PublishReturned (st : AdbConnectionState) (evs : list Event)
| PublishUndefined.

(** [void PublishDdmData(uint32_t type, const ArrayRef<const uint8_t>& data)].
    [stale] is what the stack holds where [pkt] is placed and [writev_res] is
    what [writev] returns. *)
Definition PublishDdmData (st : AdbConnectionState) (type : Z) (data : list Z)
           (stale : list Z) (writev_res : Z) : PublishResult :=
  let lk := adb_write_event_fd_ st in
  if adb_connection_socket_ st =? -1 then
    PublishReturned st
      [ EvLockAcquire lk;
        EvLog WARNING ("Not sending ddms data of type " ++ type_chars type
                       ++ " due to no connection!")%string;
        EvLockRelease lk ]
  else
    let pkt0 := array_of kDdmPacketHeaderSize stale in
    let (id, st1) := NextDdmId st in
    match ddm_header pkt0 id type (zlen data) with
    | None => PublishUndefined
    | Some pkt =>
      let iovs := [ pkt; data ] in
      PublishReturned st1
        ([ EvLockAcquire lk; EvWritev (adb_connection_socket_ st) iovs ]
         ++ (if size_t writev_res =? size_t (kDdmPacketHeaderSize + zlen data)
             then []
             else [ EvLog ERROR ("Failed to send DDMS packet " ++ type_chars type
                                 ++ " to debugger")%string ])
         ++ [ EvLockRelease lk ])
    end.

(** The bytes a DDM publish hands to [writev], header then payload. *)
Definition emitted_packet (r : PublishResult) : option (list Z) :=
  match r with
  | PublishReturned _ evs =>
    match evs with
    | _ :: EvWritev _ iovs :: _ => Some (List.concat iovs)
    | _ => None
    end
  | PublishUndefined => None
  end.

(** ** Agent argument string *)

(** [std::to_string(int)] *)
Definition to_string (z : Z) : string := NilZero.string_of_int (Z.to_int z).

(** [std::string MakeAgentArg()]; [opts] is [Runtime::GetJdwpOptions()]. *)
Definition MakeAgentArg (st : AdbConnectionState) (opts : string) : string :=
  ((((agent_name_ st ++ "=") ++ opts)
     ++ (if (String.length opts =? 0)%nat then "" else ","))
     ++ "transport=dt_fd_forward,address=")
     ++ to_string (remote_agent_control_sock_ st).

(** ** Control-socket client *)

(** One pass through the [while (!shutting_down_)] loop of
    [SetupAdbConnection], as the outside world answers it. *)
Record ConnectAttempt := {
  ca_stop_requested : bool;   (* StopDebuggerThreads() ran before the loop test *)
  ca_connect_ret : Z;         (* connect() *)
  ca_peer_trusted : bool;     (* socket_peer_is_trusted(); true off-device *)
  ca_shutdown_ret : Z;        (* shutdown(), asked only for an untrusted peer *)
  ca_send_ret : Z             (* send() of the pid *)
}.

Inductive SetupResult :=
| SetupReturned (ok : bool) (st : AdbConnectionState) (evs : list Event)
| SetupRetrying (st : AdbConnectionState) (evs : list Event) (sleep_ms : Z).

Definition sleep_max_ms : Z := 2 * 1000.
Definition sizeof_pid_t : Z := 4.

(** The assignment [dst = std::move(src)] / [dst.reset()] of a [unique_fd]
    closes what [dst] held. *)
Definition unique_fd_release (held : Z) : list Event :=
  if held =? -1 then [] else [ EvClose held ].

(** The back-off update at the end of a failed attempt. *)
Definition next_sleep_ms (sleep_ms : Z) : Z :=
  let sleep_ms := sleep_ms + Z.shiftr sleep_ms 1 in
  if sleep_ms >? sleep_max_ms then sleep_max_ms else sleep_ms.

Fixpoint connect_loop (attempts : list ConnectAttempt) (st : AdbConnectionState)
         (sock : Z) (sleep_ms : Z) (evs : list Event) : SetupResult :=
  match attempts with
  | [] => SetupRetrying st evs sleep_ms
  | a :: attempts =>
    let st := if ca_stop_requested a then set_shutting_down st true else st in
    if shutting_down_ st then
      SetupReturned false st (evs ++ unique_fd_release sock)
    else if ca_connect_ret a =? 0 then
      let trusted := (sock >=? 0) && ca_peer_trusted a in
      if negb trusted then
        SetupReturned false st
          (evs ++ [ EvLog ERROR "adb socket is not trusted. Aborting connection." ]
               ++ (if sock >=? 0
                   then EvShutdown sock ::
                        (if ca_shutdown_ret a =? 0 then []
                         else [ EvLog ERROR "trouble shutting down socket" ])
                   else [])
               ++ unique_fd_release sock)
      else if ca_send_ret a =? sizeof_pid_t then
        SetupReturned true (set_control_sock st sock)
          (evs ++ [ EvSendPid sock; EvLog INFO "PID send to adb" ]
               ++ unique_fd_release (control_sock_ st))
      else
        SetupReturned false st
          (evs ++ [ EvSendPid sock;
                    EvLog ERROR "Weird, can't send JDWP process pid to ADB. Aborting connection." ]
               ++ unique_fd_release sock)
    else
      connect_loop attempts st sock (next_sleep_ms sleep_ms)
        (evs ++ [ EvLog ERROR "Can't connect to ADB control socket. Will retry.";
                  EvUsleep (sleep_ms * 1000) ])
  end.

(** [bool SetupAdbConnection()]; [sock] is what [socket()] returned. *)
Definition SetupAdbConnection (st : AdbConnectionState) (sock : Z)
           (attempts : list ConnectAttempt) : SetupResult :=
  let sleep_ms := 500 in
  if sock <? 0 then
    SetupReturned false st
      ([ EvLog ERROR "Could not create ADB control socket" ] ++ unique_fd_release sock)
  else
    connect_loop attempts st sock sleep_ms [].

(** The arguments of the [usleep] calls of a run, in milliseconds. *)
Fixpoint sleeps_ms (evs : list Event) : list Z :=
  match evs with
  | [] => []
  | EvUsleep us :: evs => us / 1000 :: sleeps_ms evs
  | _ :: evs => sleeps_ms evs
  end.

Definition setup_events (r : SetupResult) : list Event :=
  match r with
  | SetupReturned _ _ evs => evs
  | SetupRetrying _ evs _ => evs
  end.

(** ** Agent control messages *)

(** The four [constexpr char k...Message[]] arrays of [fd_transport.h], which
    is not among the sources: each field is the whole array, all
    [sizeof(k...Message)] bytes of it. *)
Record fd_transport := {
  kListenStartMessage : list Z;
  kListenEndMessage : list Z;
  kAcceptMessage : list Z;
  kCloseMessage : list Z
}.

Fixpoint bytes_of_string (s : string) : list Z :=
  match s with
  | EmptyString => []
  | String c s => Z.of_N (N_of_ascii c) :: bytes_of_string s
  end.

(** A [char] array initialised from a string literal: its characters and the
    terminating NUL. *)
Definition char_array (s : string) : list Z := bytes_of_string s ++ [0].

(** Modelled from the spec: the four token names of the agent control
    channel, as character arrays. *)
Definition spec_messages : fd_transport :=
  {| kListenStartMessage := char_array "ds-listen-start";
     kListenEndMessage := char_array "ds-listen-end";
     kAcceptMessage := char_array "ds-accept";
     kCloseMessage := char_array "ds-close" |}.

Fixpoint bytes_eqb (a b : list Z) : bool :=
  match a, b with
  | [], [] => true
  | x :: a, y :: b => (x =? y) && bytes_eqb a b
  | _, _ => false
  end.

(** [memcmp(msg, buf, sizeof(msg)) == 0] *)
Definition memcmp_eq (msg buf : list Z) : bool :=
  bytes_eqb msg (firstn (List.length msg) buf).

(** ** Poll loop helpers *)

Inductive Flow := Continue | Break | Return | Abort | Undefined.

(** [DCHECK(cond)]: compiled out of release builds; a failure is recorded. *)
Definition DCHECK (cond : bool) (what : string) : list Event :=
  if cond then [] else [ EvDcheckFailed what ].

(** [static bool FlagsSet(int16_t data, int16_t flags)] *)
Definition FlagsSet (data flags : Z) : bool := Z.land data flags =? flags.

(** [void CloseFds()] *)
Definition CloseFds (st : AdbConnectionState) : AdbConnectionState * list Event :=
  (set_adb_connection_socket st (-1),
   [ EvLockAcquire (adb_write_event_fd_ st) ]
   ++ unique_fd_release (adb_connection_socket_ st)
   ++ [ EvLockRelease (adb_write_event_fd_ st) ]).

(** What the system answers during one pass of the inner loop. *)
Record PollEnv := {
  pe_poll_res : Z;                 (* poll() *)
  pe_agent_revents : Z;            (* revents of a watched slot A *)
  pe_control_revents : Z;          (* ... slot D *)
  pe_adb_revents : Z;              (* ... slot C *)
  pe_recv : option (list Z);       (* recv(): a datagram, or an error *)
  pe_stack_buf : list Z;           (* what the stack holds where buf is *)
  pe_recvmsg_rc : Z;               (* recvmsg() in ReadFdFromAdb *)
  pe_cmsg_fd : Z;                  (* the int in the control buffer afterwards *)
  pe_dup_read : Z;                 (* the three dup() calls of SendAgentFds *)
  pe_dup_write : Z;
  pe_dup_write_lock : Z;
  pe_sendmsg_res : Z;              (* sendmsg() in SendAgentFds *)
  pe_jdwp_options : string;        (* Runtime::GetJdwpOptions() *)
  pe_attach_exception : bool       (* exception pending after AttachAgent *)
}.

(** [void SendAgentFds()] *)
Definition SendAgentFds (st : AdbConnectionState) (env : PollEnv)
  : Flow * AdbConnectionState * list Event :=
  let chk := DCHECK (negb (sent_agent_fds_ st)) "!sent_agent_fds_" in
  let read_fd := pe_dup_read env in
  if read_fd =? -1 then
    (Abort, st, chk ++ [ EvLog FATAL "Failed to dup read_fd_" ])
  else
  let write_fd := pe_dup_write env in
  if write_fd =? -1 then
    (Abort, st, chk ++ [ EvLog FATAL "Failed to dup write_fd" ])
  else
  let write_lock_fd := pe_dup_write_lock env in
  if write_lock_fd =? -1 then
    (Abort, st, chk ++ [ EvLog FATAL "Failed to dup write_lock_fd" ])
  else
  let sent := [ EvSendFds (local_agent_control_sock_ st) read_fd write_fd write_lock_fd ] in
  let closes := [ EvClose write_lock_fd; EvClose write_fd; EvClose read_fd ] in
  if pe_sendmsg_res env <? 0 then
    (Continue, st,
     chk ++ sent ++ [ EvLog ERROR "Failed to send agent adb connection fds." ] ++ closes)
  else
    (Continue, set_sent_agent_fds st true, chk ++ sent ++ closes).

(** [android::base::unique_fd ReadFdFromAdb()] *)
Definition ReadFdFromAdb (env : PollEnv) : Z * list Event :=
  if pe_recvmsg_rc env <=? 0 then
    (-1, [ EvLog WARNING "Receiving file descriptor from ADB failed" ])
  else
    (pe_cmsg_fd env, []).

(** ** The poll loop *)

Definition sizeof_buf : Z := 257.

Inductive Received :=
| RecvFailed                    (* recv() returned a negative value *)
| RecvOverrun                   (* the terminator store left the buffer *)
| RecvBuffer (buf : list Z).    (* the 257 bytes of buf afterwards *)

(** The head of the agent branch:
    [char buf[257];
     res = recv(local_agent_control_sock_, buf, sizeof(buf) - 1, 0);
     if (res < 0) ... else buf[res + 1] = 0;]
    The datagram is cut to the 256 bytes asked for; the bytes of [buf] that
    [recv] does not write keep what the stack held. *)
Definition recv_agent_message (env : PollEnv) : Received :=
  let buf := array_of sizeof_buf (pe_stack_buf env) in
  match pe_recv env with
  | None => RecvFailed
  | Some datagram =>
    let received := firstn (Z.to_nat (sizeof_buf - 1)) datagram in
    let res := zlen received in
    let buf := received ++ skipn (List.length received) buf in
    match store_bytes buf (Z.to_nat (res + 1)) [0] with
    | None => RecvOverrun
    | Some buf => RecvBuffer buf
    end
  end.

Section PollLoop.

Variable M : fd_transport.

(** Branch 1 of the dispatch: slot A has POLLIN. *)
Definition agent_branch (st : AdbConnectionState) (env : PollEnv)
  : Flow * AdbConnectionState * list Event :=
  let chk := DCHECK (agent_loaded_ st) "agent_loaded_" in
  match recv_agent_message env with
  | RecvFailed =>
    (Continue, st,
     chk ++ [ EvLog ERROR "Failed to read message from agent control socket! Retrying" ])
  | RecvOverrun => (Undefined, st, chk)
  | RecvBuffer buf =>
    if memcmp_eq (kListenStartMessage M) buf then
      let st := set_agent_listening st true in
      if negb (adb_connection_socket_ st =? -1) then
        let '(flow, st, evs) := SendAgentFds st env in (flow, st, chk ++ evs)
      else (Continue, st, chk)
    else if memcmp_eq (kListenEndMessage M) buf then
      (Continue, set_agent_listening st false, chk)
    else if memcmp_eq (kCloseMessage M) buf then
      let (st, evs) := CloseFds st in
      (Continue, set_agent_has_socket st false, chk ++ evs)
    else if memcmp_eq (kAcceptMessage M) buf then
      (Continue, set_sent_agent_fds (set_agent_has_socket st true) false, chk)
    else
      (Continue, st, chk ++ [ EvLog ERROR "Unknown message received from debugger!" ])
  end.

(** Branch 2: slot D has POLLIN. *)
Definition control_pollin_branch (st : AdbConnectionState) (env : PollEnv)
  : Flow * AdbConnectionState * list Event :=
  let lk := adb_write_event_fd_ st in
  let (new_fd, read_evs) := ReadFdFromAdb env in
  if new_fd =? -1 then
    (Break, set_control_sock st (-1),
     [ EvLockAcquire lk ] ++ read_evs
     ++ [ EvLog ERROR "Something went wrong getting fds from adb. Retry!" ]
     ++ unique_fd_release (control_sock_ st)
     ++ [ EvLockRelease lk ])
  else if negb (adb_connection_socket_ st =? -1) then
    (* We already have a connection: if (new_fd >= 0) new_fd.reset(); and
       whatever new_fd still holds goes when it leaves scope. *)
    let reset_evs := if new_fd >=? 0 then unique_fd_release new_fd else [] in
    let new_fd := if new_fd >=? 0 then -1 else new_fd in
    (Continue, st,
     [ EvLockAcquire lk ] ++ read_evs ++ reset_evs ++ unique_fd_release new_fd
     ++ [ EvLockRelease lk ])
  else
    let move_evs := unique_fd_release (adb_connection_socket_ st) in
    let st := set_adb_connection_socket st new_fd in
    let evs := [ EvLockAcquire lk ] ++ read_evs ++ move_evs ++ [ EvLockRelease lk ] in
    (* maybe_send_fds && agent_loaded_ && agent_listening_ *)
    if agent_loaded_ st && agent_listening_ st then
      let '(flow, st, send_evs) := SendAgentFds st env in (flow, st, evs ++ send_evs)
    else (Continue, st, evs).

(** Branch 3: slot D has POLLRDHUP. *)
Definition control_rdhup_branch (st : AdbConnectionState)
  : Flow * AdbConnectionState * list Event :=
  (Break, set_control_sock st (-1),
   DCHECK (negb (agent_has_socket_ st)) "!agent_has_socket_ on POLLRDHUP"
   ++ unique_fd_release (control_sock_ st)).

(** Branch 4: slot C has POLLIN. *)
Definition adb_socket_branch (st : AdbConnectionState) (env : PollEnv)
  : Flow * AdbConnectionState * list Event :=
  let chk := DCHECK (negb (agent_has_socket_ st)) "!agent_has_socket_" in
  if negb (agent_loaded_ st) then
    let chk := chk ++ DCHECK (negb (agent_listening_ st)) "!agent_listening_" in
    let attach := [ EvAttachAgent (MakeAgentArg st (pe_jdwp_options env)) ] in
    if pe_attach_exception env then
      (Return, st, chk ++ attach ++ [ EvLog ERROR "Failed to load agent" ])
    else
      (Continue, set_agent_loaded st true, chk ++ attach)
  else if agent_listening_ st && negb (sent_agent_fds_ st) then
    let '(flow, st, evs) := SendAgentFds st env in (flow, st, chk ++ evs)
  else (Continue, st, chk).

(** [poll] ignores a slot whose fd is negative and reports no events there. *)
Definition slot_revents (fd raw : Z) : Z := if fd <? 0 then 0 else raw.

(** The pollfds[1..3] of one pass, as the body of the inner loop sets them. *)
Definition agent_slot (st : AdbConnectionState) : Z :=
  if agent_loaded_ st then local_agent_control_sock_ st else -1.
Definition control_slot (st : AdbConnectionState) : Z :=
  if adb_connection_socket_ st =? -1 then control_sock_ st else -1.
Definition adb_slot (st : AdbConnectionState) : Z :=
  if negb (agent_has_socket_ st) && negb (sent_agent_fds_ st)
  then adb_connection_socket_ st else -1.

(** The body of the inner [while] loop of [RunPollLoop]. *)
Definition poll_iteration (st : AdbConnectionState) (env : PollEnv)
  : Flow * AdbConnectionState * list Event :=
  if pe_poll_res env <? 0 then
    (Return, st, [ EvLog ERROR "Failed to poll!" ])
  else
    let agent_control_sock_poll := slot_revents (agent_slot st) (pe_agent_revents env) in
    let control_sock_poll := slot_revents (control_slot st) (pe_control_revents env) in
    let adb_socket_poll := slot_revents (adb_slot st) (pe_adb_revents env) in
    if FlagsSet agent_control_sock_poll POLLIN then agent_branch st env
    else if FlagsSet control_sock_poll POLLIN then control_pollin_branch st env
    else if FlagsSet control_sock_poll POLLRDHUP then control_rdhup_branch st
    else if FlagsSet adb_socket_poll POLLIN then adb_socket_branch st env
    else (Continue, st, []).

(** *** The worker as a transition system

    Both [while] tests of [RunPollLoop] and the call of [SetupAdbConnection]
    between them are taken together: from either loop head the worker leaves
    when [shutting_down_] is set, connects when it has no control socket, and
    runs the inner body otherwise. *)

Inductive WorkerStatus := Running | Connecting | Exited | Aborted | Faulted.

Record LoopEnv := {
  le_socket : Z;                         (* socket() in SetupAdbConnection *)
  le_attempts : list ConnectAttempt;
  le_poll : PollEnv
}.

Definition loop_step (st : AdbConnectionState) (env : LoopEnv)
  : WorkerStatus * AdbConnectionState * list Event :=
  if shutting_down_ st then (Exited, st, [])
  else if control_sock_ st =? -1 then
    match SetupAdbConnection st (le_socket env) (le_attempts env) with
    | SetupReturned true st evs => (Running, st, evs)
    | SetupReturned false st evs =>
      (Exited, st, evs ++ [ EvLog ERROR "Failed to setup adb connection." ])
    | SetupRetrying st evs _ => (Connecting, st, evs)
    end
  else
    match poll_iteration st (le_poll env) with
    | (Continue, st, evs) | (Break, st, evs) => (Running, st, evs)
    | (Return, st, evs) => (Exited, st, evs)
    | (Abort, st, evs) => (Aborted, st, evs)
    | (Undefined, st, evs) => (Faulted, st, evs)
    end.

(** What happens to the broker: the worker passes a loop head, another thread
    publishes a DDM chunk, or the runtime asks the broker to stop. *)
Inductive Input :=
| InLoop (env : LoopEnv)
| InPublish (type : Z) (data : list Z) (stale : list Z) (writev_res : Z)
| InStop.

Record Config := {
  worker : WorkerStatus;
  broker : AdbConnectionState
}.

(** [void StopDebuggerThreads()] *)
Definition StopDebuggerThreads (st : AdbConnectionState) : AdbConnectionState * list Event :=
  (set_shutting_down st true, [ EvWake (sleep_event_fd_ st) ]).

Definition step (c : Config) (i : Input) : Config * list Event :=
  match i with
  | InLoop env =>
    match worker c with
    | Running =>
      let '(w, st, evs) := loop_step (broker c) env in
      ({| worker := w; broker := st |}, evs)
    | _ => (c, [])
    end
  | InPublish type data stale writev_res =>
    match PublishDdmData (broker c) type data stale writev_res with
    | PublishReturned st evs => ({| worker := worker c; broker := st |}, evs)
    | PublishUndefined => ({| worker := Faulted; broker := broker c |}, [])
    end
  | InStop =>
    let (st, evs) := StopDebuggerThreads (broker c) in
    ({| worker := worker c; broker := st |}, evs)
  end.

Fixpoint run (c : Config) (inputs : list Input) : Config * list Event :=
  match inputs with
  | [] => (c, [])
  | i :: inputs =>
    let (c1, evs1) := step c i in
    let (c2, evs2) := run c1 inputs in
    (c2, evs1 ++ evs2)
  end.

End PollLoop.

(** [void StartDebuggerThreads()], as far as the broker state goes: the two
    eventfds and the agent socketpair are created and the worker is started.
    [None] stands for the fatal [CHECK]s; [local_sock] and [remote_sock] are
    the pair that [Socketpair] returned. *)
Definition StartDebuggerThreads (st : AdbConnectionState)
           (sleep_fd write_fd local_sock remote_sock : Z) : option AdbConnectionState :=
  if (adb_write_event_fd_ st =? -1) && (sleep_event_fd_ st =? -1)
     && (local_agent_control_sock_ st =? -1) && (remote_agent_control_sock_ st =? -1)
     && negb (sleep_fd =? -1) && negb (write_fd =? -1)
  then Some (mkState (agent_name_ st) sleep_fd (control_sock_ st)
                     local_sock remote_sock
                     (adb_connection_socket_ st) write_fd
                     (shutting_down_ st) (agent_loaded_ st) (agent_listening_ st)
                     (agent_has_socket_ st) (sent_agent_fds_ st) (next_ddm_id_ st))
  else None.

(** The broker as the worker finds it on entering [RunPollLoop]. *)
Definition initial (c : Config) : Prop :=
  exists agent_name sleep_fd write_fd local_sock remote_sock,
    StartDebuggerThreads (AdbConnectionState_new agent_name)
                         sleep_fd write_fd local_sock remote_sock = Some (broker c)
    /\ worker c = Running.

(** ** Derived notions used by the statements *)

(** The ids returned by [n] successive calls of [NextDdmId]. *)
Fixpoint ddm_ids (n : nat) (st : AdbConnectionState) : list Z :=
  match n with
  | O => []
  | S n => let (id, st) := NextDdmId st in id :: ddm_ids n st
  end.

(** A broker that has been started and holds control socket 8 and debugger
    connection 9. *)
Definition connected_broker : AdbConnectionState :=
  {| agent_name_ := "libjdwp.so";
     sleep_event_fd_ := 3;
     control_sock_ := 8;
     local_agent_control_sock_ := 5;
     remote_agent_control_sock_ := 6;
     adb_connection_socket_ := 9;
     adb_write_event_fd_ := 4;
     shutting_down_ := false;
     agent_loaded_ := false;
     agent_listening_ := false;
     agent_has_socket_ := false;
     sent_agent_fds_ := false;
     next_ddm_id_ := 1 |}.

(** The agent load string in the words of the interface description:
    [<agent_name>=<jdwp_options>[,]transport=fd_forward,address=<fd>]. *)
Definition described_agent_arg (agent_name opts : string) (fd : Z) : string :=
  (agent_name ++ "=" ++ opts ++ (if (String.length opts =? 0)%nat then "" else ",")
   ++ "transport=fd_forward,address=" ++ to_string fd)%string.

(** The first [n] sleeps of a back-off that starts at [sleep_ms]. *)
Fixpoint backoff_from (sleep_ms : Z) (n : nat) : list Z :=
  match n with
  | O => []
  | S n => sleep_ms :: backoff_from (next_sleep_ms sleep_ms) n
  end.

(** An attempt that fails while nobody has asked the broker to stop. *)
Definition failed_attempt (a : ConnectAttempt) : Prop :=
  ca_stop_requested a = false /\ ca_connect_ret a <> 0.

(** Two byte patterns that differ somewhere within their common length, so
    that no buffer starts with both. *)
Definition differ (a b : list Z) : bool :=
  let n := Nat.min (List.length a) (List.length b) in
  negb (bytes_eqb (firstn n a) (firstn n b)).

Definition distinct_messages (M : fd_transport) : bool :=
  differ (kListenStartMessage M) (kListenEndMessage M)
  && differ (kListenStartMessage M) (kCloseMessage M)
  && differ (kListenStartMessage M) (kAcceptMessage M)
  && differ (kListenEndMessage M) (kCloseMessage M)
  && differ (kListenEndMessage M) (kAcceptMessage M)
  && differ (kCloseMessage M) (kAcceptMessage M).

(** [msg] starts with the whole array [tok]. *)
Definition starts_with (tok msg : list Z) : Prop :=
  firstn (List.length tok) msg = tok.




Definition unconstrained (st : AdbConnectionState) (i : Input) : Prop := True.

(** The configurations the broker can reach when every input respects [G]. *)
Inductive reachable_under (M : fd_transport)
          (G : AdbConnectionState -> Input -> Prop) : Config -> Prop :=
| reach_initial c : initial c -> reachable_under M G c
| reach_step c i :
    reachable_under M G c -> G (broker c) i -> reachable_under M G (fst (step M c i)).


(** What the worker is handed when the agent sends [datagram] and nothing
    else is ready. *)
Definition agent_datagram (datagram : list Z) (stack : list Z) : PollEnv :=
  {| pe_poll_res := 1;
     pe_agent_revents := POLLIN;
     pe_control_revents := 0;
     pe_adb_revents := 0;
     pe_recv := Some datagram;
     pe_stack_buf := stack;
     pe_recvmsg_rc := 0;
     pe_cmsg_fd := -1;
     pe_dup_read := 10;
     pe_dup_write := 11;
     pe_dup_write_lock := 12;
     pe_sendmsg_res := 1;
     pe_jdwp_options := "";
     pe_attach_exception := false |}.

(** The receive buffer matches none of the four messages. *)
Definition matches_none (M : fd_transport) (buf : list Z) : Prop :=
  memcmp_eq (kListenStartMessage M) buf = false
  /\ memcmp_eq (kListenEndMessage M) buf = false
  /\ memcmp_eq (kCloseMessage M) buf = false
  /\ memcmp_eq (kAcceptMessage M) buf = false.

(** Every input of a run respects [G] in the state it meets. *)
Fixpoint guards_hold (M : fd_transport) (G : AdbConnectionState -> Input -> Prop)
         (c : Config) (inputs : list Input) : Prop :=
  match inputs with
  | [] => True
  | i :: inputs => G (broker c) i /\ guards_hold M G (fst (step M c i)) inputs
  end.

(** *** A session, input by input *)

Definition quiet_poll : PollEnv :=
  {| pe_poll_res := 1;
     pe_agent_revents := 0;
     pe_control_revents := 0;
     pe_adb_revents := 0;
     pe_recv := None;
     pe_stack_buf := [];
     pe_recvmsg_rc := 0;
     pe_cmsg_fd := -1;
     pe_dup_read := 10;
     pe_dup_write := 11;
     pe_dup_write_lock := 12;
     pe_sendmsg_res := 1;
     pe_jdwp_options := "";
     pe_attach_exception := false |}.

(** The daemon accepts the connection and the pid on the first attempt. *)
Definition in_connect : Input :=
  InLoop {| le_socket := 8;
            le_attempts := [ {| ca_stop_requested := false; ca_connect_ret := 0;
                                ca_peer_trusted := true; ca_shutdown_ret := 0;
                                ca_send_ret := 4 |} ];
            le_poll := quiet_poll |}.

(** The daemon passes debugger descriptor [fd]. *)
Definition in_debugger_fd (fd : Z) : Input :=
  InLoop {| le_socket := -1; le_attempts := [];
            le_poll := {| pe_poll_res := 1;
                          pe_agent_revents := 0;
                          pe_control_revents := POLLIN;
                          pe_adb_revents := 0;
                          pe_recv := None;
                          pe_stack_buf := [];
                          pe_recvmsg_rc := 1;
                          pe_cmsg_fd := fd;
                          pe_dup_read := 10;
                          pe_dup_write := 11;
                          pe_dup_write_lock := 12;
                          pe_sendmsg_res := 1;
                          pe_jdwp_options := "";
                          pe_attach_exception := false |} |}.

(** The debugger starts talking on the connection. *)
Definition in_debugger_data : Input :=
  InLoop {| le_socket := -1; le_attempts := [];
            le_poll := {| pe_poll_res := 1;
                          pe_agent_revents := 0;
                          pe_control_revents := 0;
                          pe_adb_revents := POLLIN;
                          pe_recv := None;
                          pe_stack_buf := [];
                          pe_recvmsg_rc := 0;
                          pe_cmsg_fd := -1;
                          pe_dup_read := 10;
                          pe_dup_write := 11;
                          pe_dup_write_lock := 12;
                          pe_sendmsg_res := 1;
                          pe_jdwp_options := "";
                          pe_attach_exception := false |} |}.

(** The agent sends the character array [name] as one datagram. *)
Definition in_agent (name : string) : Input :=
  InLoop {| le_socket := -1; le_attempts := [];
            le_poll := agent_datagram (char_array name) [] |}.

(** The daemon hangs up. *)
Definition daemon_hangup : PollEnv :=
  {| pe_poll_res := 1;
     pe_agent_revents := 0;
     pe_control_revents := POLLRDHUP;
     pe_adb_revents := 0;
     pe_recv := None;
     pe_stack_buf := [];
     pe_recvmsg_rc := 0;
     pe_cmsg_fd := -1;
     pe_dup_read := 10;
     pe_dup_write := 11;
     pe_dup_write_lock := 12;
     pe_sendmsg_res := 1;
     pe_jdwp_options := "";
     pe_attach_exception := false |}.

Definition started_broker : AdbConnectionState :=
  {| agent_name_ := "libjdwp.so";
     sleep_event_fd_ := 3;
     control_sock_ := -1;
     local_agent_control_sock_ := 5;
     remote_agent_control_sock_ := 6;
     adb_connection_socket_ := -1;
     adb_write_event_fd_ := 4;
     shutting_down_ := false;
     agent_loaded_ := false;
     agent_listening_ := false;
     agent_has_socket_ := false;
     sent_agent_fds_ := false;
     next_ddm_id_ := 1 |}.

Definition started : Config := {| worker := Running; broker := started_broker |}.

(** Connect, receive a debugger, load the agent. *)
Definition agent_loaded_run : list Input :=
  [ in_connect; in_debugger_fd 9; in_debugger_data ].

(** The fields that describe the debugger session. *)
Definition same_session (st st' : AdbConnectionState) : Prop :=
  adb_connection_socket_ st' = adb_connection_socket_ st
  /\ agent_has_socket_ st' = agent_has_socket_ st
  /\ sent_agent_fds_ st' = sent_agent_fds_ st.



(** The agent starts listening while a debugger is attached and closes the
    session before it has accepted the descriptors. *)
Definition close_before_accept_run : list Input :=
  agent_loaded_run ++ [ in_agent "ds-listen-start"; in_agent "ds-close" ].

(** The agent reports a session it was never handed. *)
Definition accept_after_close_run : list Input :=
  agent_loaded_run ++ [ in_agent "ds-close"; in_agent "ds-accept" ].

(** The agent listens, is handed the descriptors and accepts them. *)
Definition accepted_run : list Input :=
  agent_loaded_run ++ [ in_agent "ds-listen-start"; in_agent "ds-accept" ].


(** The daemon is not there: [connect] fails. *)
Definition refused : ConnectAttempt :=
  {| ca_stop_requested := false; ca_connect_ret := -1;
     ca_peer_trusted := true; ca_shutdown_ret := 0; ca_send_ret := 4 |}.

(** The daemon offers descriptor [fd] on the control socket. *)
Definition offer_fd (fd : Z) : PollEnv :=
  {| pe_poll_res := 1;
     pe_agent_revents := 0;
     pe_control_revents := POLLIN;
     pe_adb_revents := 0;
     pe_recv := None;
     pe_stack_buf := [];
     pe_recvmsg_rc := 1;
     pe_cmsg_fd := fd;
     pe_dup_read := 10;
     pe_dup_write := 11;
     pe_dup_write_lock := 12;
     pe_sendmsg_res := 1;
     pe_jdwp_options := "";
     pe_attach_exception := false |}.

(** The broker once the descriptors of connection 9 have been handed to a
    listening agent. *)
Definition handed_over_broker : AdbConnectionState :=
  {| agent_name_ := "libjdwp.so";
     sleep_event_fd_ := 3;
     control_sock_ := 8;
     local_agent_control_sock_ := 5;
     remote_agent_control_sock_ := 6;
     adb_connection_socket_ := 9;
     adb_write_event_fd_ := 4;
     shutting_down_ := false;
     agent_loaded_ := true;
     agent_listening_ := true;
     agent_has_socket_ := false;
     sent_agent_fds_ := true;
     next_ddm_id_ := 1 |}.

(** ** The write interlock as an eventfd *)

(** [class ScopedEventFdLock]: the descriptor and the value read from it. *)
Record ScopedEventFdLock := {
  fd_ : Z;
  data_ : Z
}.

(** [read] and [write] on an eventfd made without [EFD_SEMAPHORE]: a read
    returns the counter and leaves zero behind, and blocks ([None]) while the
    counter is zero; a write adds to the counter. *)
Definition eventfd_read (counter : Z) : option (Z * Z) :=
  if counter =? 0 then None else Some (counter, 0).

Definition eventfd_write (counter value : Z) : Z := counter + value.

(** [explicit ScopedEventFdLock(int fd) : fd_(fd), data_(0)
      { read(fd_, &data_, sizeof(data_)); }] *)
Definition ScopedEventFdLock_new (fd counter : Z) : option (ScopedEventFdLock * Z) :=
  match eventfd_read counter with
  | None => None
  | Some (value, counter) => Some ({| fd_ := fd; data_ := value |}, counter)
  end.

(** [~ScopedEventFdLock() { write(fd_, &data_, sizeof(data_)); }] *)
Definition ScopedEventFdLock_delete (lk : ScopedEventFdLock) (counter : Z) : Z :=
  eventfd_write counter (data_ lk).

(** The lock events of a trace played on the eventfd [fd]: its counter and
    the lock object alive, or [None] when a read would block for ever or a
    lock is released that nobody holds. *)
Fixpoint replay_interlock (fd : Z) (evs : list Event) (counter : Z)
         (held : option ScopedEventFdLock) : option (Z * option ScopedEventFdLock) :=
  match evs with
  | [] => Some (counter, held)
  | EvLockAcquire fd' :: evs =>
    if fd' =? fd then
      match ScopedEventFdLock_new fd counter with
      | None => None
      | Some (lk, counter) => replay_interlock fd evs counter (Some lk)
      end
    else replay_interlock fd evs counter held
  | EvLockRelease fd' :: evs =>
    if fd' =? fd then
      match held with
      | None => None
      | Some lk => replay_interlock fd evs (ScopedEventFdLock_delete lk counter) None
      end
    else replay_interlock fd evs counter held
  | _ :: evs => replay_interlock fd evs counter held
  end.

Definition is_lock_event (e : Event) : bool :=
  match e with
  | EvLockAcquire _ | EvLockRelease _ => true
  | _ => false
  end.

Definition lock_free (evs : list Event) : Prop :=
  Forall (fun e => is_lock_event e = false) evs.

(** A trace that takes the interlock [lk] once, does [mid] and releases it. *)
Definition one_critical_section (lk : Z) (evs mid : list Event) : Prop :=
  exists pre post,
    evs = pre ++ EvLockAcquire lk :: mid ++ EvLockRelease lk :: post
    /\ lock_free pre /\ lock_free mid /\ lock_free post.

(** The fields that are set up before the worker starts. *)
Definition same_setup (st st' : AdbConnectionState) : Prop :=
  agent_name_ st' = agent_name_ st
  /\ sleep_event_fd_ st' = sleep_event_fd_ st
  /\ adb_write_event_fd_ st' = adb_write_event_fd_ st
  /\ local_agent_control_sock_ st' = local_agent_control_sock_ st
  /\ remote_agent_control_sock_ st' = remote_agent_control_sock_ st.

Definition is_publish (i : Input) : bool :=
  match i with
  | InPublish _ _ _ _ => true
  | _ => false
  end.

(** The assertions of a trace that did not hold. *)
Fixpoint dcheck_failures (evs : list Event) : list string :=
  match evs with
  | [] => []
  | EvDcheckFailed what :: evs => what :: dcheck_failures evs
  | _ :: evs => dcheck_failures evs
  end.

(** How often a trace calls [Runtime::AttachAgent]. *)
Fixpoint attach_count (evs : list Event) : nat :=
  match evs with
  | [] => O
  | EvAttachAgent _ :: evs => S (attach_count evs)
  | _ :: evs => attach_count evs
  end.

Definition listening_implies_loaded (st : AdbConnectionState) : Prop :=
  agent_listening_ st = true -> agent_loaded_ st = true.

(** The events [SetupAdbConnection] can cause. *)
Definition is_setup_event (e : Event) : bool :=
  match e with
  | EvLog _ _ | EvUsleep _ | EvShutdown _ | EvSendPid _ | EvClose _ => true
  | _ => false
  end.

(** How many calls of [AttachAgent] a configuration can still make. *)
Definition attach_budget (c : Config) : nat :=
  match worker c with
  | Running => if agent_loaded_ (broker c) then 0 else 1
  | _ => 0
  end.

(** ** One debugging session *)

(** A broker whose agent is loaded and listening and which holds no debugger
    connection. *)
Definition idle_listener (st : AdbConnectionState) : Prop :=
  agent_loaded_ st = true /\ agent_listening_ st = true
  /\ agent_has_socket_ st = false /\ sent_agent_fds_ st = false
  /\ adb_connection_socket_ st = -1
  /\ 0 <= control_sock_ st /\ 0 <= local_agent_control_sock_ st.

(** A pass in which only the control socket is readable and adbd hands over
    descriptor [fd]; the three [dup] calls and the [sendmsg] of a hand-off
    succeed. *)
Definition adb_offers (fd : Z) (env : PollEnv) : Prop :=
  0 <= pe_poll_res env
  /\ FlagsSet (pe_agent_revents env) POLLIN = false
  /\ FlagsSet (pe_control_revents env) POLLIN = true
  /\ 0 < pe_recvmsg_rc env /\ pe_cmsg_fd env = fd /\ fd <> -1
  /\ pe_dup_read env <> -1 /\ pe_dup_write env <> -1 /\ pe_dup_write_lock env <> -1
  /\ 0 <= pe_sendmsg_res env.

(** A pass in which the agent's socket is readable and delivers a datagram of
    at most 255 bytes that starts with the array [tok]. *)
Definition agent_says (tok : list Z) (env : PollEnv) : Prop :=
  0 <= pe_poll_res env
  /\ FlagsSet (pe_agent_revents env) POLLIN = true
  /\ exists msg, pe_recv env = Some msg /\ (List.length msg <= 255)%nat
                 /\ starts_with tok msg.

(** ** Passes that differ in one answer *)

(** The same pass with another datagram on the agent's socket. *)
Definition with_datagram (env : PollEnv) (datagram : list Z) : PollEnv :=
  {| pe_poll_res := pe_poll_res env;
     pe_agent_revents := pe_agent_revents env;
     pe_control_revents := pe_control_revents env;
     pe_adb_revents := pe_adb_revents env;
     pe_recv := Some datagram;
     pe_stack_buf := pe_stack_buf env;
     pe_recvmsg_rc := pe_recvmsg_rc env;
     pe_cmsg_fd := pe_cmsg_fd env;
     pe_dup_read := pe_dup_read env;
     pe_dup_write := pe_dup_write env;
     pe_dup_write_lock := pe_dup_write_lock env;
     pe_sendmsg_res := pe_sendmsg_res env;
     pe_jdwp_options := pe_jdwp_options env;
     pe_attach_exception := pe_attach_exception env |}.

(** The four message arrays, in the order in which they are tried. *)
Definition messages (M : fd_transport) : list (list Z) :=
  [ kListenStartMessage M; kListenEndMessage M; kCloseMessage M; kAcceptMessage M ].

(** The same pass with other answers from the daemon's socket: the events
    [poll] reports on slot D and what [ReadFdFromAdb] would receive. *)
Definition with_control_answers (env : PollEnv) (revents recvmsg_rc fd : Z) : PollEnv :=
  {| pe_poll_res := pe_poll_res env;
     pe_agent_revents := pe_agent_revents env;
     pe_control_revents := revents;
     pe_adb_revents := pe_adb_revents env;
     pe_recv := pe_recv env;
     pe_stack_buf := pe_stack_buf env;
     pe_recvmsg_rc := recvmsg_rc;
     pe_cmsg_fd := fd;
     pe_dup_read := pe_dup_read env;
     pe_dup_write := pe_dup_write env;
     pe_dup_write_lock := pe_dup_write_lock env;
     pe_sendmsg_res := pe_sendmsg_res env;
     pe_jdwp_options := pe_jdwp_options env;
     pe_attach_exception := pe_attach_exception env |}.

(** The broker while the agent holds connection 9. *)
Definition in_session_broker : AdbConnectionState :=
  set_sent_agent_fds (set_agent_has_socket handed_over_broker true) false.

(** The debugger sends data on the connection. *)
Definition data_on_connection : LoopEnv :=
  {| le_socket := -1; le_attempts := [];
     le_poll := {| pe_poll_res := 1;
                   pe_agent_revents := 0;
                   pe_control_revents := 0;
                   pe_adb_revents := POLLIN;
                   pe_recv := None;
                   pe_stack_buf := [];
                   pe_recvmsg_rc := 0;
                   pe_cmsg_fd := -1;
                   pe_dup_read := 10;
                   pe_dup_write := 11;
                   pe_dup_write_lock := 12;
                   pe_sendmsg_res := 1;
                   pe_jdwp_options := "";
                   pe_attach_exception := false |} |}.

(** A pass of the inner loop during which another thread calls
    [StopDebuggerThreads]: the loop head was passed with the flag clear, the
    request comes while the worker waits in [poll], and the body runs on. *)
Definition pass_with_stop (M : fd_transport) (st : AdbConnectionState) (env : PollEnv)
  : Flow * AdbConnectionState * list Event :=
  let (st, wake) := StopDebuggerThreads st in
  let '(flow, st, evs) := poll_iteration M st env in
  (flow, st, wake ++ evs).

(** * Properties *)

(** ** DDM packets *)

Lemma some_inj {A} (a b : A) : Some a = Some b -> a = b.
Proof. intros H. injection H as H. exact H. Qed.

Lemma uint8_mod z : uint8 z = z mod 256.
Proof. unfold uint8. change 255 with (Z.ones 8). rewrite Z.land_ones by lia. reflexivity. Qed.

Lemma nth_app_skip {A} (pre l : list A) (k : nat) (d : A) :
  nth (List.length pre + k) (pre ++ l) d = nth k l d.
Proof. rewrite app_nth2 by lia. f_equal. lia. Qed.

Lemma be32_htonl (v : Z) (pre post : list Z) :
  0 <= v < 2 ^ 32 ->
  be32_at (List.length pre) (pre ++ htonl_bytes v ++ post) = v.
Proof.
  intros Hv. unfold be32_at.
  rewrite <- (Nat.add_0_r (List.length pre)) at 1.
  rewrite !nth_app_skip.
  unfold htonl_bytes. cbn [nth app].
  rewrite !uint8_mod, !Z.shiftr_div_pow2 by lia.
  change (2 ^ 24) with 16777216. change (2 ^ 16) with 65536. change (2 ^ 8) with 256.
  change (2 ^ 32) with 4294967296 in Hv.
  pose proof (Z.div_mod v 16777216 ltac:(lia)).
  pose proof (Z.div_mod v 65536 ltac:(lia)).
  pose proof (Z.div_mod v 256 ltac:(lia)).
  pose proof (Z.mod_pos_bound v 16777216 ltac:(lia)).
  pose proof (Z.mod_pos_bound v 65536 ltac:(lia)).
  pose proof (Z.mod_pos_bound v 256 ltac:(lia)).
  assert (v / 16777216 < 256) by (apply Z.div_lt_upper_bound; lia).
  assert (0 <= v / 16777216) by (apply Z.div_pos; lia).
  rewrite (Z.mod_small (v / 16777216) 256) by lia.
  pose proof (Z.div_mod (v / 65536) 256 ltac:(lia)).
  pose proof (Z.div_mod (v / 256) 256 ltac:(lia)).
  replace (v / 65536 / 256) with (v / 16777216) in * by (rewrite Z.div_div by lia; reflexivity).
  replace (v / 256 / 256) with (v / 65536) in * by (rewrite Z.div_div by lia; reflexivity).
  lia.
Qed.

Lemma uint32_range z : 0 <= uint32 z < 2 ^ 32.
Proof. unfold uint32. apply Z.mod_pos_bound. lia. Qed.

Lemma uint32_size_t z : uint32 (size_t z) = uint32 z.
Proof.
  unfold uint32, size_t.
  apply Z.mod_mod_divide. exists (2 ^ 32). reflexivity.
Qed.

Lemma array_of_length n stale : (0 <= n) -> List.length (array_of n stale) = Z.to_nat n.
Proof.
  intros Hn. unfold array_of.
  rewrite length_firstn, length_app, repeat_length. lia.
Qed.

Lemma ddm_header_bytes pkt0 id type data_size :
  List.length pkt0 = 19%nat ->
  ddm_header pkt0 id type data_size =
  Some (htonl_bytes (uint32 (kDdmPacketHeaderSize + data_size)) ++ htonl_bytes id
        ++ [0; kJDWPDdmCmdSet; kJDWPDdmCmd]
        ++ htonl_bytes (uint32 type) ++ htonl_bytes (uint32 data_size)).
Proof.
  intros Hlen. unfold ddm_header. rewrite uint32_size_t.
  generalize (uint32 (kDdmPacketHeaderSize + data_size)) (uint32 type) (uint32 data_size).
  intros a t n.
  do 20 (destruct pkt0 as [| ? pkt0]; try discriminate Hlen).
  reflexivity.
Qed.

Lemma be32_field (off : nat) (v : Z) (pre post : list Z) :
  List.length pre = off -> 0 <= v < 2 ^ 32 ->
  be32_at off (pre ++ htonl_bytes v ++ post) = v.
Proof. intros <- Hv. apply be32_htonl. exact Hv. Qed.

Lemma publish_connected st type data stale writev_res :
  adb_connection_socket_ st <> -1 ->
  exists evs,
    PublishDdmData st type data stale writev_res
    = PublishReturned (snd (NextDdmId st)) evs
    /\ emitted_packet (PublishDdmData st type data stale writev_res)
       = Some (htonl_bytes (uint32 (kDdmPacketHeaderSize + zlen data))
               ++ htonl_bytes (fst (NextDdmId st))
               ++ [0; kJDWPDdmCmdSet; kJDWPDdmCmd]
               ++ htonl_bytes (uint32 type) ++ htonl_bytes (uint32 (zlen data))
               ++ data).
Proof.
  intros Hconn. unfold PublishDdmData.
  destruct (adb_connection_socket_ st =? -1) eqn:E; [ apply Z.eqb_eq in E; contradiction |].
  unfold NextDdmId.
  rewrite ddm_header_bytes by (rewrite array_of_length; [ reflexivity | unfold kDdmPacketHeaderSize, kJDWPHeaderLen; lia ]).
  eexists. split; [ reflexivity |].
  cbn [emitted_packet app List.concat fst]. rewrite app_nil_r.
  rewrite <- !app_assoc. reflexivity.
Qed.

(** C1, as amended: every DDM packet that [PublishDdmData] hands to [writev]
    is 19 + len(data) bytes long; its big-endian length field at offset 0 is
    19 + len(data) (as a 32-bit value), the flags byte 0 sits at offset 8, the
    command set 0xC7 at 9, the command 1 at 10, the chunk type at 11 and the
    chunk length len(data) at 15, and the payload follows at offset 19.  An
    empty payload gives a 19-byte packet whose length field is 19. *)
Theorem ddm_packet_layout st type data stale writev_res :
  adb_connection_socket_ st <> -1 ->
  exists pkt,
    emitted_packet (PublishDdmData st type data stale writev_res) = Some pkt
    /\ List.length pkt = (19 + List.length data)%nat
    /\ be32_at 0 pkt = uint32 (19 + zlen data)
    /\ (19 + zlen data < 2 ^ 32 -> be32_at 0 pkt = 19 + zlen data)
    /\ nth 8 pkt 0 = 0 /\ nth 9 pkt 0 = 0xC7 /\ nth 10 pkt 0 = 1
    /\ be32_at 11 pkt = uint32 type
    /\ be32_at 15 pkt = uint32 (zlen data)
    /\ skipn 19 pkt = data
    /\ (data = [] -> List.length pkt = 19%nat /\ be32_at 0 pkt = 19).
Proof.
  intros Hconn.
  destruct (publish_connected st type data stale writev_res Hconn) as (evs & _ & Hpkt).
  eexists. split; [ exact Hpkt |].
  change (kDdmPacketHeaderSize + zlen data) with (19 + zlen data).
  assert (H0 : be32_at 0
      (htonl_bytes (uint32 (19 + zlen data)) ++ htonl_bytes (fst (NextDdmId st)) ++
       [0; kJDWPDdmCmdSet; kJDWPDdmCmd] ++ htonl_bytes (uint32 type) ++
       htonl_bytes (uint32 (zlen data)) ++ data) = uint32 (19 + zlen data)).
  { apply (be32_field 0 _ []); [ reflexivity | apply uint32_range ]. }
  repeat apply conj.
  - reflexivity.
  - exact H0.
  - intros Hsmall. rewrite H0. unfold uint32. apply Z.mod_small. unfold zlen in *. lia.
  - reflexivity.
  - reflexivity.
  - reflexivity.
  - apply (be32_field 11 (uint32 type)
             (htonl_bytes (uint32 (19 + zlen data)) ++ htonl_bytes (fst (NextDdmId st))
              ++ [0; kJDWPDdmCmdSet; kJDWPDdmCmd])
             (htonl_bytes (uint32 (zlen data)) ++ data));
      [ reflexivity | apply uint32_range ].
  - apply (be32_field 15 (uint32 (zlen data))
             (htonl_bytes (uint32 (19 + zlen data)) ++ htonl_bytes (fst (NextDdmId st))
              ++ [0; kJDWPDdmCmdSet; kJDWPDdmCmd] ++ htonl_bytes (uint32 type))
             data);
      [ reflexivity | apply uint32_range ].
  - reflexivity.
  - intros ->. split; [ reflexivity | rewrite H0; reflexivity ].
Qed.

Lemma uint32_land z : uint32 z = Z.land z (Z.ones 32).
Proof. unfold uint32. rewrite Z.land_ones by lia. reflexivity. Qed.

Lemma uint32_lor a b : uint32 (Z.lor a b) = Z.lor (uint32 a) (uint32 b).
Proof. rewrite !uint32_land. apply Z.land_lor_distr_l. Qed.

Lemma uint32_idem z : uint32 (uint32 z) = uint32 z.
Proof. unfold uint32. apply Z.mod_mod. lia. Qed.

Lemma uint32_small z : 0 <= z < 2 ^ 32 -> uint32 z = z.
Proof. intros H. unfold uint32. apply Z.mod_small. exact H. Qed.

Lemma uint32_add_l a b : uint32 (uint32 a + b) = uint32 (a + b).
Proof. unfold uint32. apply Zplus_mod_idemp_l. Qed.

Lemma ddm_id_bit31 c : Z.testbit (uint32 (Z.lor c 0x80000000)) 31 = true.
Proof.
  unfold uint32. rewrite Z.mod_pow2_bits_low by lia.
  rewrite Z.lor_spec. change 0x80000000 with (2 ^ 31).
  rewrite Z.pow2_bits_true by lia. apply orb_true_r.
Qed.

Lemma ddm_ids_from (n : nat) : forall st,
  ddm_ids n st
  = map (fun k => uint32 (Z.lor 0x80000000 (next_ddm_id_ st + Z.of_nat k))) (seq 0 n).
Proof.
  induction n as [| n IH]; intros st; [ reflexivity |].
  cbn [ddm_ids NextDdmId]. rewrite IH. cbn [seq map]. f_equal.
  - rewrite Z.add_0_r, Z.lor_comm. reflexivity.
  - rewrite <- seq_shift, map_map. apply map_ext. intros k.
    cbn [next_ddm_id_ set_next_ddm_id].
    rewrite !uint32_lor. f_equal. rewrite uint32_add_l. f_equal. lia.
Qed.

(** C4: [NextDdmId] returns [(next_ddm_id_++) | 0x80000000] in 32-bit
    arithmetic; counting from the constructor's 1, the k-th call returns
    [0x80000000 | k] (for k below 2^32 literally, beyond that with k reduced
    to 32 bits); every id has bit 31 set, a counter that has itself reached
    bit 31 is returned as it is, and the id field at offset 4 of every emitted
    packet is the id of that call. *)
Theorem ddm_ids_high_bit (agent_name : string) (n : nat) :
  (forall st,
      fst (NextDdmId st) = uint32 (Z.lor (next_ddm_id_ st) 0x80000000)
      /\ next_ddm_id_ (snd (NextDdmId st)) = uint32 (next_ddm_id_ st + 1))
  /\ ddm_ids n (AdbConnectionState_new agent_name)
     = map (fun k => uint32 (Z.lor 0x80000000 (Z.of_nat k))) (seq 1 n)
  /\ (Z.of_nat n < 2 ^ 32 ->
      ddm_ids n (AdbConnectionState_new agent_name)
      = map (fun k => Z.lor 0x80000000 (Z.of_nat k)) (seq 1 n))
  /\ Forall (fun id => Z.testbit id 31 = true /\ 0 <= id < 2 ^ 32)
            (ddm_ids n (AdbConnectionState_new agent_name))
  /\ (forall c, 2 ^ 31 <= c < 2 ^ 32 -> uint32 (Z.lor c 0x80000000) = c)
  /\ (forall st type data stale writev_res pkt,
      emitted_packet (PublishDdmData st type data stale writev_res) = Some pkt ->
      be32_at 4 pkt = fst (NextDdmId st)
      /\ Z.testbit (be32_at 4 pkt) 31 = true
      /\ PublishDdmData st type data stale writev_res
         = PublishReturned (snd (NextDdmId st))
             (match PublishDdmData st type data stale writev_res with
              | PublishReturned _ evs => evs
              | PublishUndefined => []
              end)).
Proof.
  set (st0 := AdbConnectionState_new agent_name).
  assert (Hseq : ddm_ids n st0
                 = map (fun k => uint32 (Z.lor 0x80000000 (Z.of_nat k))) (seq 1 n)).
  { rewrite ddm_ids_from. rewrite <- seq_shift, map_map. apply map_ext.
    intros k. cbn [st0 AdbConnectionState_new next_ddm_id_]. do 2 f_equal. lia. }
  split; [ intros st; split; reflexivity |].
  split; [ exact Hseq |].
  split.
  { intros Hn. rewrite Hseq. apply map_ext_in. intros k Hk.
    apply in_seq in Hk. rewrite uint32_lor.
    rewrite (uint32_small (Z.of_nat k)) by lia. reflexivity. }
  split.
  { rewrite ddm_ids_from. apply Forall_forall. intros id Hid.
    apply in_map_iff in Hid. destruct Hid as (k & <- & _).
    split; [ rewrite Z.lor_comm; apply ddm_id_bit31 | apply uint32_range ]. }
  split.
  { intros c Hc. rewrite uint32_lor, (uint32_small c) by lia.
    change (uint32 0x80000000) with (2 ^ 31).
    apply Z.bits_inj'. intros i Hi. rewrite Z.lor_spec.
    destruct (Z.eq_dec i 31) as [-> | Hne].
    - rewrite Z.pow2_bits_true by lia. rewrite orb_true_r.
      symmetry. apply Z.testbit_true; [ lia |].
      assert (c / 2 ^ 31 = 1) by (symmetry; apply Z.div_unique with (r := c - 2 ^ 31); lia).
      rewrite H. reflexivity.
    - rewrite Z.pow2_bits_false by lia. apply orb_false_r. }
  intros st type data stale writev_res pkt Hpkt.
  destruct (Z.eq_dec (adb_connection_socket_ st) (-1)) as [Heq | Hne].
  { unfold PublishDdmData in Hpkt. rewrite Heq in Hpkt. discriminate Hpkt. }
  destruct (publish_connected st type data stale writev_res Hne) as (evs & Hres & Hpkt').
  rewrite Hpkt in Hpkt'. apply some_inj in Hpkt'. subst pkt.
  assert (Hid : be32_at 4
      (htonl_bytes (uint32 (kDdmPacketHeaderSize + zlen data)) ++
       htonl_bytes (fst (NextDdmId st)) ++
       [0; kJDWPDdmCmdSet; kJDWPDdmCmd] ++
       htonl_bytes (uint32 type) ++ htonl_bytes (uint32 (zlen data)) ++ data)
      = fst (NextDdmId st)).
  { apply be32_field; [ reflexivity | apply uint32_range ]. }
  split; [ exact Hid |]. split.
  - rewrite Hid. apply ddm_id_bit31.
  - rewrite Hres. reflexivity.
Qed.

Lemma ddm_ids_high_bit_witness :
  ddm_ids 3 (AdbConnectionState_new "libjdwp.so") = [ 0x80000001; 0x80000002; 0x80000003 ].
Proof.
  destruct (ddm_ids_high_bit "libjdwp.so" 3) as (_ & _ & H & _).
  rewrite H by (vm_compute; reflexivity). reflexivity.
Defined.

(** C7: while there is no connection, [PublishDdmData] takes the write
    interlock, logs one warning, releases the interlock and returns; nothing
    is handed to [writev] and the broker state, the id counter included, is
    the one it started from. *)
Theorem publish_while_disconnected st type data stale writev_res :
  adb_connection_socket_ st = -1 ->
  exists warning,
    PublishDdmData st type data stale writev_res
    = PublishReturned st [ EvLockAcquire (adb_write_event_fd_ st);
                           EvLog WARNING warning;
                           EvLockRelease (adb_write_event_fd_ st) ]
    /\ emitted_packet (PublishDdmData st type data stale writev_res) = None.
Proof.
  intros Hconn. unfold PublishDdmData. rewrite Hconn. cbn [Z.eqb].
  eexists. split; reflexivity.
Qed.

(** C1 as stated fails: with an empty payload the packet is 19 bytes and its
    length field reads 19, not 23. *)
Lemma ddm_length_field_counterexample :
  emitted_packet (PublishDdmData connected_broker 0x41414141 [] [] 19)
  = Some [ 0; 0; 0; 19;  128; 0; 0; 1;  0; 199; 1;  65; 65; 65; 65;  0; 0; 0; 0 ]
  /\ ~ (forall pkt,
          emitted_packet (PublishDdmData connected_broker 0x41414141 [] [] 19) = Some pkt ->
          be32_at 0 pkt = 23 + zlen (@nil Z) /\ List.length pkt = 23%nat).
Proof.
  split; [ vm_compute; reflexivity |].
  intros H. destruct (H _ eq_refl) as [H0 _]. vm_compute in H0. discriminate H0.
Qed.

(** ** The agent argument string *)

Lemma string_app_assoc (a b c : string) : ((a ++ b) ++ c = a ++ (b ++ c))%string.
Proof. induction a as [| ch a IH]; cbn; [ reflexivity | rewrite IH; reflexivity ]. Qed.

Lemma string_app_length (a b : string) :
  String.length (a ++ b) = (String.length a + String.length b)%nat.
Proof. induction a as [| ch a IH]; cbn; [ reflexivity | rewrite IH; reflexivity ]. Qed.

Lemma string_empty_length (s : string) : (String.length s =? 0)%nat = true <-> s = ""%string.
Proof. destruct s; cbn; split; intros H; try reflexivity; discriminate H. Qed.

Lemma MakeAgentArg_flat st opts :
  MakeAgentArg st opts
  = ((agent_name_ st ++ "=" ++ opts)
     ++ (if (String.length opts =? 0)%nat then "" else ",")
     ++ "transport=dt_fd_forward,address=" ++ to_string (remote_agent_control_sock_ st))%string.
Proof. unfold MakeAgentArg. rewrite !string_app_assoc. reflexivity. Qed.

(** C3, as amended: the agent argument is
    [<agent_name>=<jdwp_options>[,]transport=dt_fd_forward,address=<fd>];
    with empty options nothing stands between [=] and [transport], otherwise
    the options are followed by a comma, and the character right after the
    options is a comma exactly when the options are not empty. *)
Theorem agent_arg_format st opts :
  (opts = ""%string ->
   MakeAgentArg st opts
   = (agent_name_ st ++ "=transport=dt_fd_forward,address="
      ++ to_string (remote_agent_control_sock_ st))%string)
  /\ (opts <> ""%string ->
      MakeAgentArg st opts
      = (agent_name_ st ++ "=" ++ opts ++ ",transport=dt_fd_forward,address="
         ++ to_string (remote_agent_control_sock_ st))%string)
  /\ (String.get (String.length (agent_name_ st) + 1 + String.length opts)
                 (MakeAgentArg st opts) = Some ","%char
      <-> opts <> ""%string).
Proof.
  split; [| split ].
  - intros ->. unfold MakeAgentArg. cbn [String.length Nat.eqb].
    rewrite !string_app_assoc. reflexivity.
  - intros Hne. unfold MakeAgentArg.
    destruct (String.length opts =? 0)%nat eqn:E.
    + apply string_empty_length in E. contradiction.
    + rewrite !string_app_assoc. reflexivity.
  - rewrite MakeAgentArg_flat.
    replace (String.length (agent_name_ st) + 1 + String.length opts)%nat
      with (0 + String.length (agent_name_ st ++ "=" ++ opts))%nat
      by (rewrite !string_app_length; cbn; lia).
    rewrite <- append_correct2.
    destruct (String.length opts =? 0)%nat eqn:E.
    + apply string_empty_length in E. subst opts. cbn.
      split; [ intros H; discriminate H | intros H; contradiction H; reflexivity ].
    + cbn. split; [| reflexivity ].
      intros _ ->. discriminate E.
Qed.

Lemma agent_arg_format_witness :
  MakeAgentArg connected_broker "suspend=n,server=y"
  = "libjdwp.so=suspend=n,server=y,transport=dt_fd_forward,address=6"%string
  /\ MakeAgentArg connected_broker ""
     = "libjdwp.so=transport=dt_fd_forward,address=6"%string.
Proof.
  split.
  - rewrite (proj1 (proj2 (agent_arg_format connected_broker "suspend=n,server=y")));
      [ reflexivity | discriminate ].
  - rewrite (proj1 (agent_arg_format connected_broker "")); reflexivity.
Defined.

(** C3 as stated fails: the transport is named [dt_fd_forward], not
    [fd_forward]. *)
Lemma agent_arg_transport_counterexample :
  MakeAgentArg connected_broker "" = "libjdwp.so=transport=dt_fd_forward,address=6"%string
  /\ described_agent_arg "libjdwp.so" "" 6 = "libjdwp.so=transport=fd_forward,address=6"%string
  /\ ~ (forall st opts,
          MakeAgentArg st opts
          = described_agent_arg (agent_name_ st) opts (remote_agent_control_sock_ st)).
Proof.
  split; [ reflexivity |]. split; [ reflexivity |].
  intros H. specialize (H connected_broker ""%string). discriminate H.
Qed.

(** ** Back-off of the control-socket client *)

Lemma next_sleep_ms_min s : 0 <= s -> next_sleep_ms s = Z.min 2000 (3 * s / 2).
Proof.
  intros Hs. unfold next_sleep_ms, sleep_max_ms.
  rewrite Z.shiftr_div_pow2 by lia. change (2 ^ 1) with 2.
  replace (3 * s) with (s * 2 + s) by lia.
  rewrite Z.div_add_l by lia. change (2 * 1000) with 2000.
  destruct (s + s / 2 >? 2000) eqn:E; lia.
Qed.

Lemma next_sleep_ms_bounds s : 500 <= s <= 2000 -> 500 <= next_sleep_ms s <= 2000.
Proof.
  intros Hs. rewrite next_sleep_ms_min by lia.
  assert (0 <= s / 2) by (apply Z.div_pos; lia).
  replace (3 * s) with (s * 2 + s) by lia.
  rewrite Z.div_add_l by lia. lia.
Qed.

Lemma sleeps_ms_app a b : sleeps_ms (a ++ b) = sleeps_ms a ++ sleeps_ms b.
Proof.
  induction a as [| e a IH]; [ reflexivity |].
  destruct e; cbn; rewrite IH; reflexivity.
Qed.

Lemma sleeps_ms_release fd : sleeps_ms (unique_fd_release fd) = [].
Proof. unfold unique_fd_release. destruct (fd =? -1); reflexivity. Qed.

Lemma connect_loop_failures (fails : list ConnectAttempt) :
  forall rest st sock sleep_ms evs,
    shutting_down_ st = false ->
    Forall failed_attempt fails ->
    exists evs',
      connect_loop (fails ++ rest) st sock sleep_ms evs
      = connect_loop rest st sock
          (nth (List.length fails) (backoff_from sleep_ms (S (List.length fails))) 0)
          (evs ++ evs')
      /\ sleeps_ms evs' = backoff_from sleep_ms (List.length fails).
Proof.
  induction fails as [| a fails IH]; intros rest st sock sleep_ms evs Hrun Hfail.
  - exists []. rewrite app_nil_r. split; reflexivity.
  - inversion Hfail as [| ? ? [Hstop Hret] Hfail' ]; subst.
    cbn [app connect_loop]. rewrite Hstop, Hrun.
    destruct (ca_connect_ret a =? 0) eqn:E; [ apply Z.eqb_eq in E; contradiction |].
    destruct (IH rest st sock (next_sleep_ms sleep_ms)
                 (evs ++ [ EvLog ERROR "Can't connect to ADB control socket. Will retry.";
                           EvUsleep (sleep_ms * 1000) ]) Hrun Hfail') as (evs' & Heq & Hsl).
    eexists. split.
    + rewrite Heq. rewrite <- app_assoc. reflexivity.
    + cbn [app sleeps_ms List.length backoff_from]. rewrite Hsl.
      rewrite Z.div_mul by lia. reflexivity.
Qed.

Lemma connect_loop_sleeps_bounded (attempts : list ConnectAttempt) :
  forall st sock sleep_ms evs,
    500 <= sleep_ms <= 2000 ->
    Forall (fun ms => 500 <= ms <= 2000) (sleeps_ms evs) ->
    Forall (fun ms => 500 <= ms <= 2000)
           (sleeps_ms (setup_events (connect_loop attempts st sock sleep_ms evs))).
Proof.
  induction attempts as [| a attempts IH]; intros st sock sleep_ms evs Hs Hevs.
  - exact Hevs.
  - cbn [connect_loop].
    destruct (shutting_down_ (if ca_stop_requested a then set_shutting_down st true else st)).
    { cbn [setup_events]. rewrite sleeps_ms_app, sleeps_ms_release, app_nil_r. exact Hevs. }
    destruct (ca_connect_ret a =? 0).
    { destruct (negb ((sock >=? 0) && ca_peer_trusted a)).
      - cbn [setup_events]. rewrite !sleeps_ms_app, sleeps_ms_release.
        destruct (sock >=? 0); [ destruct (ca_shutdown_ret a =? 0) |];
          cbn; rewrite app_nil_r; exact Hevs.
      - destruct (ca_send_ret a =? sizeof_pid_t); cbn [setup_events];
          rewrite !sleeps_ms_app, sleeps_ms_release; cbn; rewrite app_nil_r; exact Hevs. }
    apply IH.
    + apply next_sleep_ms_bounds. exact Hs.
    + rewrite sleeps_ms_app. apply Forall_app. split; [ exact Hevs |].
      cbn. constructor; [| constructor ]. rewrite Z.div_mul by lia. exact Hs.
Qed.

Lemma backoff_from_2000 n : backoff_from 2000 n = repeat 2000 n.
Proof. induction n as [| n IH]; [ reflexivity |]. cbn [backoff_from repeat]. f_equal. exact IH. Qed.

(** C8: as long as [connect] fails and nobody has asked the broker to stop,
    [SetupAdbConnection] goes on to the next attempt; it has then slept 500,
    750, 1125, 1687, 2000, 2000, ... ms, each sleep being one and a half times
    the one before (in whole milliseconds) capped at 2000.  A stop request
    seen at the loop test ends the loop with failure, and no run ever sleeps
    less than 500 or more than 2000 ms. *)
Theorem connect_backoff (st : AdbConnectionState) (sock : Z)
        (fails rest : list ConnectAttempt) :
  0 <= sock ->
  shutting_down_ st = false ->
  Forall failed_attempt fails ->
  (exists evs,
      SetupAdbConnection st sock (fails ++ rest)
      = connect_loop rest st sock
          (nth (List.length fails) (backoff_from 500 (S (List.length fails))) 0) evs
      /\ sleeps_ms evs = backoff_from 500 (List.length fails))
  /\ (forall stop more evs sleep_ms,
         ca_stop_requested stop = true ->
         connect_loop (stop :: more) st sock sleep_ms evs
         = SetupReturned false (set_shutting_down st true) (evs ++ unique_fd_release sock))
  /\ (forall n, backoff_from 500 (5 + n) = [ 500; 750; 1125; 1687; 2000 ] ++ repeat 2000 n)
  /\ (forall ms, 0 <= ms -> next_sleep_ms ms = Z.min 2000 (3 * ms / 2))
  /\ (forall attempts,
         Forall (fun ms => 500 <= ms <= 2000)
                (sleeps_ms (setup_events (SetupAdbConnection st sock attempts)))).
Proof.
  intros Hsock Hrun Hfail.
  assert (Hpos : (sock <? 0) = false) by lia.
  split; [| split; [| split; [| split ]]].
  - unfold SetupAdbConnection. rewrite Hpos.
    destruct (connect_loop_failures fails rest st sock 500 [] Hrun Hfail) as (evs & Heq & Hsl).
    exists evs. split; [ exact Heq | exact Hsl ].
  - intros stop more evs sleep_ms Hstop. cbn [connect_loop]. rewrite Hstop. reflexivity.
  - intros n. change (5 + n)%nat with (S (S (S (S (S n))))).
    cbn [backoff_from]. change (next_sleep_ms 500) with 750.
    change (next_sleep_ms 750) with 1125. change (next_sleep_ms 1125) with 1687.
    change (next_sleep_ms 1687) with 2000. change (next_sleep_ms 2000) with 2000.
    rewrite backoff_from_2000. reflexivity.
  - exact next_sleep_ms_min.
  - intros attempts. unfold SetupAdbConnection. rewrite Hpos.
    apply connect_loop_sleeps_bounded; [ lia | constructor ].
Qed.

(** ** The receive buffer of the agent branch *)

Lemma bytes_eqb_eq (a : list Z) : forall b, bytes_eqb a b = true <-> a = b.
Proof.
  induction a as [| x a IH]; intros [| y b]; cbn; split; intros H;
    try reflexivity; try discriminate H.
  - apply andb_true_iff in H. destruct H as [Hx Hab].
    apply Z.eqb_eq in Hx. apply IH in Hab. subst. reflexivity.
  - injection H as -> ->. rewrite Z.eqb_refl. apply IH. reflexivity.
Qed.

Lemma memcmp_eq_starts_with tok buf : memcmp_eq tok buf = true <-> starts_with tok buf.
Proof.
  unfold memcmp_eq, starts_with. rewrite bytes_eqb_eq. split; intros H; symmetry; exact H.
Qed.

Lemma starts_with_length tok msg : starts_with tok msg -> (List.length tok <= List.length msg)%nat.
Proof.
  unfold starts_with. intros H. apply (f_equal (@List.length Z)) in H.
  rewrite length_firstn in H. lia.
Qed.

Lemma starts_with_extend tok msg buf :
  firstn (List.length msg) buf = msg -> starts_with tok msg -> starts_with tok buf.
Proof.
  intros Hbuf Htok. pose proof (starts_with_length _ _ Htok) as Hlen.
  unfold starts_with in *. rewrite <- Hbuf in Htok.
  rewrite firstn_firstn in Htok. rewrite Nat.min_l in Htok by lia. exact Htok.
Qed.

Lemma differ_exclusive a b buf :
  differ a b = true ->
  firstn (List.length a) buf = a -> firstn (List.length b) buf = b -> False.
Proof.
  unfold differ. intros Hd Ha Hb.
  apply negb_true_iff in Hd.
  assert (Heq : firstn (Nat.min (List.length a) (List.length b)) a
                = firstn (Nat.min (List.length a) (List.length b)) b).
  { rewrite <- Ha at 2. rewrite <- Hb at 3. rewrite !firstn_firstn.
    f_equal; lia. }
  apply bytes_eqb_eq in Heq. rewrite Heq in Hd. discriminate Hd.
Qed.

Lemma differ_memcmp a b buf :
  differ a b = true -> memcmp_eq a buf = true -> memcmp_eq b buf = false.
Proof.
  intros Hd Ha. destruct (memcmp_eq b buf) eqn:Hb; [| reflexivity ].
  apply memcmp_eq_starts_with in Ha, Hb. destruct (differ_exclusive a b buf Hd Ha Hb).
Qed.

Lemma differ_sym a b : differ a b = differ b a.
Proof.
  unfold differ. rewrite (Nat.min_comm (List.length b)). f_equal.
  destruct (bytes_eqb (firstn _ a) (firstn _ b)) eqn:E.
  - apply bytes_eqb_eq in E. symmetry. apply bytes_eqb_eq. symmetry. exact E.
  - destruct (bytes_eqb (firstn _ b) (firstn _ a)) eqn:E'; [| reflexivity ].
    apply bytes_eqb_eq in E'. symmetry in E'. apply bytes_eqb_eq in E'.
    rewrite E' in E. discriminate E.
Qed.

Lemma recv_short env msg :
  pe_recv env = Some msg -> (List.length msg <= 255)%nat ->
  exists buf,
    recv_agent_message env = RecvBuffer buf
    /\ firstn (List.length msg) buf = msg
    /\ nth (List.length msg + 1) buf 1 = 0
    /\ List.length buf = 257%nat.
Proof.
  intros Hrecv Hlen. unfold recv_agent_message. rewrite Hrecv.
  change (Z.to_nat (sizeof_buf - 1)) with 256%nat.
  rewrite firstn_all2 by lia.
  set (arr := array_of sizeof_buf (pe_stack_buf env)).
  assert (Harr : List.length arr = 257%nat) by (apply array_of_length; unfold sizeof_buf; lia).
  assert (Hbuf : List.length (msg ++ skipn (List.length msg) arr) = 257%nat)
    by (rewrite length_app, length_skipn; lia).
  unfold store_bytes, zlen.
  replace (Z.to_nat (Z.of_nat (List.length msg) + 1)) with (List.length msg + 1)%nat by lia.
  rewrite Hbuf. cbn [List.length].
  destruct (List.length msg + 1 + 1 <=? 257)%nat eqn:E; [| apply Nat.leb_gt in E; lia ].
  eexists. split; [ reflexivity |].
  assert (Hpre : List.length (firstn (List.length msg + 1) (msg ++ skipn (List.length msg) arr))
                 = (List.length msg + 1)%nat) by (rewrite length_firstn; lia).
  split; [| split ].
  - rewrite firstn_app, Hpre.
    replace (List.length msg - (List.length msg + 1))%nat with 0%nat by lia.
    cbn [firstn]. rewrite app_nil_r, firstn_firstn, Nat.min_l by lia.
    rewrite firstn_app, Nat.sub_diag. cbn [firstn]. rewrite app_nil_r.
    apply firstn_all.
  - rewrite app_nth2 by lia. rewrite Hpre, Nat.sub_diag. reflexivity.
  - rewrite !length_app, Hpre, length_skipn, Hbuf. cbn [List.length]. lia.
Qed.

Lemma recv_full env msg :
  pe_recv env = Some msg -> (256 <= List.length msg)%nat ->
  recv_agent_message env = RecvOverrun.
Proof.
  intros Hrecv Hlen. unfold recv_agent_message. rewrite Hrecv.
  change (Z.to_nat (sizeof_buf - 1)) with 256%nat.
  set (arr := array_of sizeof_buf (pe_stack_buf env)).
  assert (Harr : List.length arr = 257%nat) by (apply array_of_length; unfold sizeof_buf; lia).
  assert (Hrcv : List.length (firstn 256 msg) = 256%nat) by (rewrite length_firstn; lia).
  unfold store_bytes, zlen. rewrite Hrcv.
  rewrite length_app, length_skipn, Hrcv, Harr. reflexivity.
Qed.

(** C10 fails at the boundary: the store of the terminator at index
    [res + 1] leaves the 257-byte buffer exactly when the datagram fills the
    256 bytes asked for, and the agent branch is then undefined. *)
Theorem terminator_store_bounds (env : PollEnv) (msg : list Z) :
  pe_recv env = Some msg ->
  (recv_agent_message env = RecvOverrun <-> (256 <= List.length msg)%nat)
  /\ (forall M st,
         (256 <= List.length msg)%nat ->
         agent_branch M st env = (Undefined, st, DCHECK (agent_loaded_ st) "agent_loaded_")).
Proof.
  intros Hrecv. split; [ split |].
  - intros Hover. destruct (Nat.le_gt_cases 256 (List.length msg)) as [H | H]; [ exact H |].
    destruct (recv_short env msg Hrecv ltac:(lia)) as (buf & Hbuf & _).
    rewrite Hbuf in Hover. discriminate Hover.
  - apply recv_full. exact Hrecv.
  - intros M st Hlen. unfold agent_branch. rewrite (recv_full env msg Hrecv Hlen). reflexivity.
Qed.

Lemma terminator_store_bounds_witness :
  recv_agent_message (agent_datagram (repeat 65 256) []) = RecvOverrun.
Proof.
  apply (proj1 (terminator_store_bounds (agent_datagram (repeat 65 256) []) (repeat 65 256)
                                        eq_refl)).
  rewrite repeat_length. apply Nat.le_refl.
Defined.

(** The same store leaves [buf[res]] as the stack had it: a datagram cut one
    byte short of a message is completed by a stale byte and dispatched. *)
Lemma stale_byte_completes_message :
  agent_branch spec_messages handed_over_broker
    (agent_datagram (bytes_of_string "ds-clos") (char_array "ds-close"))
  = (Continue, set_agent_has_socket (set_adb_connection_socket handed_over_broker (-1)) false,
     [ EvLockAcquire 4; EvClose 9; EvLockRelease 4 ]).
Proof. vm_compute. reflexivity. Qed.

(** The buffer after a datagram that leaves room for the store. *)
Lemma skipn_cons_nth {A} (d : A) (l : list A) : forall n,
  (n < List.length l)%nat -> skipn n l = nth n l d :: skipn (S n) l.
Proof.
  induction l as [| x l IH]; intros n Hn; [ cbn in Hn; lia |].
  destruct n as [| n]; [ reflexivity |].
  cbn [skipn nth]. apply IH. cbn in Hn. lia.
Qed.

Lemma recv_buffer_layout (env : PollEnv) (msg : list Z) :
  pe_recv env = Some msg ->
  (List.length msg <= 255)%nat ->
  recv_agent_message env
  = RecvBuffer (msg ++ nth (List.length msg) (array_of sizeof_buf (pe_stack_buf env)) 0
                    :: 0 :: skipn (List.length msg + 2) (array_of sizeof_buf (pe_stack_buf env))).
Proof.
  intros Hrecv Hlen.
  set (n := List.length msg). set (stack := array_of sizeof_buf (pe_stack_buf env)).
  assert (Hstack : List.length stack = 257%nat)
    by (apply array_of_length; unfold sizeof_buf; lia).
  unfold recv_agent_message. rewrite Hrecv.
  change (Z.to_nat (sizeof_buf - 1)) with 256%nat.
  rewrite firstn_all2 by lia. fold stack. fold n.
  unfold store_bytes, zlen. fold n.
  replace (Z.to_nat (Z.of_nat n + 1)) with (n + 1)%nat by lia.
  rewrite length_app, length_skipn, Hstack. cbn [List.length].
  rewrite firstn_app, skipn_app. fold n.
  rewrite firstn_all2 by (fold n; lia).
  rewrite (@skipn_all2 _ (n + 1 + 1) msg) by (fold n; lia).
  replace (n + 1 - n)%nat with 1%nat by lia.
  replace (n + 1 + 1 - n)%nat with 2%nat by lia.
  rewrite skipn_skipn.
  rewrite (skipn_cons_nth 0 stack n) by lia.
  cbn [firstn app]. rewrite <- app_assoc. cbn [app].
  replace (n + 1 + 1 <=? n + (257 - n))%nat with true by (symmetry; apply Nat.leb_le; lia).
  replace (2 + n)%nat with (n + 2)%nat by lia. reflexivity.
Qed.

(** ** Dispatch of agent messages *)

Lemma distinct_messages_split M :
  distinct_messages M = true ->
  differ (kListenStartMessage M) (kListenEndMessage M) = true
  /\ differ (kListenStartMessage M) (kCloseMessage M) = true
  /\ differ (kListenStartMessage M) (kAcceptMessage M) = true
  /\ differ (kListenEndMessage M) (kCloseMessage M) = true
  /\ differ (kListenEndMessage M) (kAcceptMessage M) = true
  /\ differ (kCloseMessage M) (kAcceptMessage M) = true.
Proof.
  unfold distinct_messages. intros H.
  repeat (apply andb_true_iff in H; destruct H as [H ?]). auto 10.
Qed.

(** Complete messages: a datagram of at most 255 bytes that starts with one
    of the four message arrays is dispatched to that message's effect:
    listen-start sets [agent_listening_] and, with a connection in hand, calls
    [SendAgentFds]; listen-end clears [agent_listening_]; accept sets
    [agent_has_socket_] and clears [sent_agent_fds_]; close resets
    [adb_connection_socket_] between taking and releasing the write interlock
    and clears [agent_has_socket_].  When the buffer matches none of the
    four, which is so whenever the datagram differs from each of them inside
    their common length, the state is left as it is and an error is logged.
    This is what the loop runs when slot A has POLLIN. *)
Theorem agent_message_dispatch (M : fd_transport) (st : AdbConnectionState)
        (env : PollEnv) (msg : list Z) :
  pe_recv env = Some msg ->
  (List.length msg <= 255)%nat ->
  distinct_messages M = true ->
  (starts_with (kListenStartMessage M) msg ->
   agent_branch M st env
   = if adb_connection_socket_ st =? -1
     then (Continue, set_agent_listening st true, DCHECK (agent_loaded_ st) "agent_loaded_")
     else let '(flow, st', evs) := SendAgentFds (set_agent_listening st true) env in
          (flow, st', DCHECK (agent_loaded_ st) "agent_loaded_" ++ evs))
  /\ (starts_with (kListenEndMessage M) msg ->
      agent_branch M st env
      = (Continue, set_agent_listening st false, DCHECK (agent_loaded_ st) "agent_loaded_"))
  /\ (starts_with (kAcceptMessage M) msg ->
      agent_branch M st env
      = (Continue, set_sent_agent_fds (set_agent_has_socket st true) false,
         DCHECK (agent_loaded_ st) "agent_loaded_"))
  /\ (starts_with (kCloseMessage M) msg ->
      agent_branch M st env
      = (Continue, set_agent_has_socket (set_adb_connection_socket st (-1)) false,
         DCHECK (agent_loaded_ st) "agent_loaded_"
         ++ [ EvLockAcquire (adb_write_event_fd_ st) ]
         ++ unique_fd_release (adb_connection_socket_ st)
         ++ [ EvLockRelease (adb_write_event_fd_ st) ]))
  /\ ((forall buf, recv_agent_message env = RecvBuffer buf -> matches_none M buf) ->
      agent_branch M st env
      = (Continue, st,
         DCHECK (agent_loaded_ st) "agent_loaded_"
         ++ [ EvLog ERROR "Unknown message received from debugger!" ]))
  /\ (differ (kListenStartMessage M) msg = true ->
      differ (kListenEndMessage M) msg = true ->
      differ (kCloseMessage M) msg = true ->
      differ (kAcceptMessage M) msg = true ->
      forall buf, recv_agent_message env = RecvBuffer buf -> matches_none M buf)
  /\ (0 <= pe_poll_res env ->
      FlagsSet (slot_revents (agent_slot st) (pe_agent_revents env)) POLLIN = true ->
      poll_iteration M st env = agent_branch M st env).
Proof.
  intros Hrecv Hlen Hdist.
  destruct (distinct_messages_split M Hdist) as (Hse & Hsc & Hsa & Hec & Hea & Hca).
  destruct (recv_short env msg Hrecv Hlen) as (buf & Hbuf & Hpre & _ & _).
  assert (Hm : forall tok, starts_with tok msg -> memcmp_eq tok buf = true).
  { intros tok Htok. apply memcmp_eq_starts_with. apply (starts_with_extend tok msg buf Hpre Htok). }
  unfold agent_branch. rewrite Hbuf.
  repeat apply conj.
  - intros Htok. rewrite (Hm _ Htok). cbn [adb_connection_socket_ set_agent_listening].
    destruct (adb_connection_socket_ st =? -1); reflexivity.
  - intros Htok. pose proof (Hm _ Htok) as He.
    rewrite differ_sym in Hse. rewrite (differ_memcmp _ _ buf Hse He), He. reflexivity.
  - intros Htok. pose proof (Hm _ Htok) as Ha.
    rewrite differ_sym in Hsa, Hea, Hca.
    rewrite (differ_memcmp _ _ buf Hsa Ha), (differ_memcmp _ _ buf Hea Ha),
            (differ_memcmp _ _ buf Hca Ha), Ha. reflexivity.
  - intros Htok. pose proof (Hm _ Htok) as Hc.
    rewrite differ_sym in Hsc, Hec.
    rewrite (differ_memcmp _ _ buf Hsc Hc), (differ_memcmp _ _ buf Hec Hc), Hc.
    cbn [CloseFds]. reflexivity.
  - intros Hnone. destruct (Hnone buf eq_refl) as (H1 & H2 & H3 & H4).
    rewrite H1, H2, H3, H4. reflexivity.
  - intros D1 D2 D3 D4 buf' Hbuf'. injection Hbuf' as <-.
    assert (Hno : forall tok, differ tok msg = true -> memcmp_eq tok buf = false).
    { intros tok Hd. destruct (memcmp_eq tok buf) eqn:E; [| reflexivity ].
      apply memcmp_eq_starts_with in E.
      destruct (differ_exclusive tok msg buf Hd E Hpre). }
    repeat split; apply Hno; assumption.
  - intros Hpoll Hflag. unfold poll_iteration.
    destruct (pe_poll_res env <? 0) eqn:E; [ lia |].
    rewrite Hflag. unfold agent_branch. rewrite Hbuf. reflexivity.
Qed.

(** ** Messages cut short *)

Lemma messages_differ M a b :
  distinct_messages M = true -> In a (messages M) -> In b (messages M) ->
  a = b \/ differ a b = true.
Proof.
  intros HM Ha Hb.
  destruct (distinct_messages_split M HM) as (D1 & D2 & D3 & D4 & D5 & D6).
  unfold messages in Ha, Hb. cbn [In] in Ha, Hb.
  destruct Ha as [<- | [<- | [<- | [<- | []]]]];
    destruct Hb as [<- | [<- | [<- | [<- | []]]]];
    first [ left; reflexivity
          | right; assumption
          | right; rewrite differ_sym; assumption ].
Qed.

Lemma same_dispatch M st env env' buf buf' tok :
  distinct_messages M = true -> In tok (messages M) ->
  recv_agent_message env = RecvBuffer buf ->
  recv_agent_message (with_datagram env env') = RecvBuffer buf' ->
  memcmp_eq tok buf = true -> memcmp_eq tok buf' = true ->
  agent_branch M st env = agent_branch M st (with_datagram env env').
Proof.
  intros HM Htok Hbuf Hbuf' Hm Hm'.
  assert (Hsame : forall t, In t (messages M) -> memcmp_eq t buf = memcmp_eq t buf').
  { intros t Ht. destruct (messages_differ M tok t HM Htok Ht) as [<- | Hd].
    - rewrite Hm, Hm'. reflexivity.
    - rewrite (differ_memcmp tok t buf Hd Hm), (differ_memcmp tok t buf' Hd Hm').
      reflexivity. }
  unfold agent_branch. rewrite Hbuf, Hbuf'.
  rewrite (Hsame (kListenStartMessage M)) by (unfold messages; cbn; auto).
  rewrite (Hsame (kListenEndMessage M)) by (unfold messages; cbn; auto).
  rewrite (Hsame (kCloseMessage M)) by (unfold messages; cbn; auto).
  rewrite (Hsame (kAcceptMessage M)) by (unfold messages; cbn; auto).
  reflexivity.
Qed.

Lemma SendAgentFds_listening st env :
  agent_listening_ (snd (fst (SendAgentFds st env))) = agent_listening_ st.
Proof.
  unfold SendAgentFds.
  repeat match goal with
         | |- context [ if ?b then _ else _ ] => destruct b
         end; reflexivity.
Qed.

(** C5, where the code leaves it: a datagram that is one of the four message
    arrays without its last character and its terminator is none of the four
    messages, yet when the byte that the stack holds behind the datagram is
    the missing character the receive buffer reads as the whole array, and
    the datagram is dispatched exactly as that message would be: the broker
    state changes where it should have been left alone.  The terminator is
    stored one place too far to cut the stale byte off. *)
Theorem cut_short_message_dispatched (M : fd_transport) (st : AdbConnectionState)
        (env : PollEnv) (msg tok : list Z) (c : Z) :
  pe_recv env = Some msg ->
  (List.length msg <= 253)%nat ->
  distinct_messages M = true ->
  In tok (messages M) ->
  tok = msg ++ [ c; 0 ] ->
  nth (List.length msg) (array_of sizeof_buf (pe_stack_buf env)) 0 = c ->
  (forall t, In t (messages M) -> ~ starts_with t msg)
  /\ agent_branch M st env = agent_branch M st (with_datagram env tok)
  /\ (tok = kListenStartMessage M ->
      agent_listening_ (snd (fst (agent_branch M st env))) = true)
  /\ (tok = kListenEndMessage M ->
      snd (fst (agent_branch M st env)) = set_agent_listening st false)
  /\ (tok = kAcceptMessage M ->
      snd (fst (agent_branch M st env))
      = set_sent_agent_fds (set_agent_has_socket st true) false)
  /\ (tok = kCloseMessage M ->
      snd (fst (agent_branch M st env))
      = set_agent_has_socket (set_adb_connection_socket st (-1)) false).
Proof.
  intros Hrecv Hlen HM Htok Hcut Hstale.
  destruct (distinct_messages_split M HM) as (D1 & D2 & D3 & D4 & D5 & D6).
  pose proof (recv_buffer_layout env msg Hrecv ltac:(lia)) as Hbuf.
  rewrite Hstale in Hbuf.
  set (rest := skipn (List.length msg + 2) (array_of sizeof_buf (pe_stack_buf env))) in Hbuf.
  assert (Hlt : List.length tok = (List.length msg + 2)%nat)
    by (rewrite Hcut, length_app; cbn; lia).
  assert (Hm : memcmp_eq tok (msg ++ c :: 0 :: rest) = true).
  { apply memcmp_eq_starts_with. unfold starts_with.
    replace (msg ++ c :: 0 :: rest) with (tok ++ rest)
      by (rewrite Hcut, <- app_assoc; reflexivity).
    rewrite firstn_app, Nat.sub_diag, firstn_all. cbn [firstn]. apply app_nil_r. }
  split; [| split ].
  - intros t Ht Hst. pose proof (starts_with_length _ _ Hst) as Hle.
    destruct (messages_differ M t tok HM Ht Htok) as [-> | Hd]; [ lia |].
    apply (differ_exclusive t tok tok Hd); [| apply firstn_all ].
    unfold starts_with in Hst. rewrite <- Hst at 2. rewrite Hcut.
    rewrite firstn_app.
    replace (List.length t - List.length msg)%nat with 0%nat by lia.
    cbn [firstn]. apply app_nil_r.
  - destruct (recv_short (with_datagram env tok) tok eq_refl ltac:(lia))
      as (buf' & Hbuf' & Hpre & _).
    apply (same_dispatch M st env tok _ buf' tok HM Htok Hbuf Hbuf' Hm).
    apply memcmp_eq_starts_with. exact Hpre.
  - unfold agent_branch. rewrite Hbuf. repeat apply conj; intros ->.
    + rewrite Hm. cbn [adb_connection_socket_ set_agent_listening].
      destruct (negb (adb_connection_socket_ st =? -1)); [| reflexivity ].
      pose proof (SendAgentFds_listening (set_agent_listening st true) env) as Hl.
      destruct (SendAgentFds (set_agent_listening st true) env) as [[flow st'] evs].
      exact Hl.
    + rewrite differ_sym in D1. rewrite (differ_memcmp _ _ _ D1 Hm), Hm. reflexivity.
    + rewrite differ_sym in D3, D5, D6.
      rewrite (differ_memcmp _ _ _ D3 Hm), (differ_memcmp _ _ _ D5 Hm),
              (differ_memcmp _ _ _ D6 Hm), Hm. reflexivity.
    + rewrite differ_sym in D2, D4.
      rewrite (differ_memcmp _ _ _ D2 Hm), (differ_memcmp _ _ _ D4 Hm), Hm. reflexivity.
Qed.

(** ** Session invariants *)

(** ** What each part of the loop leaves alone *)






Ltac break_ifs :=
  repeat match goal with
         | |- context [ if ?b then _ else _ ] => destruct b eqn:?
         end.

Lemma flags_need_fd fd raw flag :
  0 < flag -> FlagsSet (slot_revents fd raw) flag = true -> 0 <= fd.
Proof.
  unfold FlagsSet, slot_revents. intros Hflag H.
  destruct (fd <? 0) eqn:E; [| lia ].
  rewrite Z.land_0_l in H. apply Z.eqb_eq in H. lia.
Qed.

(** ** [sent_agent_fds_] needs a connection *)



Lemma SendAgentFds_session st env :
  adb_connection_socket_ (snd (fst (SendAgentFds st env))) = adb_connection_socket_ st
  /\ agent_has_socket_ (snd (fst (SendAgentFds st env))) = agent_has_socket_ st.
Proof. unfold SendAgentFds. break_ifs; cbn; split; reflexivity. Qed.



Lemma adb_socket_branch_session st env :
  let st' := snd (fst (adb_socket_branch st env)) in
  adb_connection_socket_ st' = adb_connection_socket_ st
  /\ agent_has_socket_ st' = agent_has_socket_ st.
Proof.
  unfold adb_socket_branch.
  destruct (negb (agent_loaded_ st)).
  { destruct (pe_attach_exception env); cbn; split; reflexivity. }
  destruct (agent_listening_ st && negb (sent_agent_fds_ st)); [| cbn; split; reflexivity ].
  pose proof (SendAgentFds_session st env) as Hs.
  destruct (SendAgentFds st env) as [[flow st'] evs]. exact Hs.
Qed.


Lemma control_slot_no_connection st raw flag :
  0 < flag ->
  FlagsSet (slot_revents (control_slot st) raw) flag = true ->
  adb_connection_socket_ st = -1.
Proof.
  intros Hflag H. apply flags_need_fd in H; [| exact Hflag ].
  unfold control_slot in H. destruct (adb_connection_socket_ st =? -1) eqn:E; lia.
Qed.


(** ** [agent_has_socket_] needs a connection *)




(** ** From one loop pass to every reachable configuration *)








Lemma run_reachable_under M G (inputs : list Input) :
  forall c, reachable_under M G c -> guards_hold M G c inputs ->
            reachable_under M G (fst (run M c inputs)).
Proof.
  induction inputs as [| i inputs IH]; intros c Hreach Hg; [ exact Hreach |].
  destruct Hg as [Hi Hrest]. cbn [run].
  specialize (IH (fst (step M c i)) (reach_step M G c i Hreach Hi) Hrest).
  destruct (step M c i) as [c1 evs1]. cbn [fst] in IH.
  destruct (run M c1 inputs) as [c2 evs2]. exact IH.
Qed.

Lemma started_initial : initial started.
Proof. exists "libjdwp.so"%string, 3, 4, 5, 6. split; reflexivity. Qed.

Lemma agent_branch_connection M st env :
  adb_connection_socket_ (snd (fst (agent_branch M st env))) = adb_connection_socket_ st
  \/ adb_connection_socket_ (snd (fst (agent_branch M st env))) = -1.
Proof.
  unfold agent_branch.
  destruct (recv_agent_message env) as [| | buf]; try (left; reflexivity).
  destruct (memcmp_eq (kListenStartMessage M) buf).
  { cbn [adb_connection_socket_ set_agent_listening].
    destruct (negb (adb_connection_socket_ st =? -1)); [| left; reflexivity ].
    pose proof (SendAgentFds_session (set_agent_listening st true) env) as [Hc _].
    destruct (SendAgentFds (set_agent_listening st true) env) as [[flow st'] evs].
    left. exact Hc. }
  destruct (memcmp_eq (kListenEndMessage M) buf); [ left; reflexivity |].
  destruct (memcmp_eq (kCloseMessage M) buf); [ right; reflexivity |].
  destruct (memcmp_eq (kAcceptMessage M) buf); left; reflexivity.
Qed.

Lemma control_slot_unwatched st raw flag :
  adb_connection_socket_ st <> -1 -> 0 < flag ->
  FlagsSet (slot_revents (control_slot st) raw) flag = false.
Proof.
  intros Hconn Hflag.
  destruct (FlagsSet (slot_revents (control_slot st) raw) flag) eqn:E; [| reflexivity ].
  apply control_slot_no_connection in E; [ contradiction | exact Hflag ].
Qed.

(** C6, as amended: at most one connection is held.  While there is one the
    daemon's socket is not watched, so what the daemon offers is not
    received: the pass is the one that would run without the offer, and it
    keeps the connection or drops it.  A descriptor is received and adopted
    only on a pass that starts without a connection.  The branch that closes
    a second descriptor at once, between taking and releasing the write
    interlock and with the state as it was, is in the code but is not reached
    from the loop. *)
Theorem offer_waits_for_connection_end (M : fd_transport) (st : AdbConnectionState)
        (env : PollEnv) :
  (adb_connection_socket_ st <> -1 ->
   control_slot st = -1
   /\ (forall revents recvmsg_rc fd,
          poll_iteration M st (with_control_answers env revents recvmsg_rc fd)
          = poll_iteration M st env)
   /\ (adb_connection_socket_ (snd (fst (poll_iteration M st env))) = adb_connection_socket_ st
       \/ adb_connection_socket_ (snd (fst (poll_iteration M st env))) = -1))
  /\ (adb_connection_socket_ st = -1 ->
      0 <= control_sock_ st -> 0 <= pe_poll_res env ->
      FlagsSet (slot_revents (agent_slot st) (pe_agent_revents env)) POLLIN = false ->
      FlagsSet (pe_control_revents env) POLLIN = true ->
      0 < pe_recvmsg_rc env -> pe_cmsg_fd env <> -1 ->
      adb_connection_socket_ (snd (fst (poll_iteration M st env))) = pe_cmsg_fd env)
  /\ (adb_connection_socket_ st <> -1 ->
      0 < pe_recvmsg_rc env -> pe_cmsg_fd env <> -1 ->
      control_pollin_branch st env
      = (Continue, st, [ EvLockAcquire (adb_write_event_fd_ st);
                         EvClose (pe_cmsg_fd env);
                         EvLockRelease (adb_write_event_fd_ st) ])).
Proof.
  split; [| split ].
  - intros Hconn. split; [| split ].
    + unfold control_slot.
      destruct (adb_connection_socket_ st =? -1) eqn:E; [ lia | reflexivity ].
    + intros revents rc fd. unfold poll_iteration.
      cbn [pe_poll_res pe_agent_revents pe_control_revents pe_adb_revents
           with_control_answers].
      rewrite !(control_slot_unwatched st _ _ Hconn) by reflexivity.
      reflexivity.
    + unfold poll_iteration.
      destruct (pe_poll_res env <? 0); [ left; reflexivity |].
      destruct (FlagsSet (slot_revents (agent_slot st) _) POLLIN);
        [ apply agent_branch_connection |].
      rewrite !(control_slot_unwatched st _ _ Hconn) by reflexivity.
      destruct (FlagsSet (slot_revents (adb_slot st) _) POLLIN); [| left; reflexivity ].
      left. apply adb_socket_branch_session.
  - intros Hconn Hcs Hp Ha Hd Hrc Hfd. unfold poll_iteration.
    destruct (pe_poll_res env <? 0) eqn:E; [ lia |].
    rewrite Ha. unfold slot_revents at 1, control_slot. rewrite Hconn, Z.eqb_refl.
    destruct (control_sock_ st <? 0) eqn:E1; [ lia |].
    rewrite Hd. unfold control_pollin_branch, ReadFdFromAdb.
    destruct (pe_recvmsg_rc env <=? 0) eqn:E2; [ lia |].
    destruct (pe_cmsg_fd env =? -1) eqn:E3; [ lia |].
    rewrite Hconn, Z.eqb_refl. cbn [negb].
    destruct (agent_loaded_ _ && agent_listening_ _); [| reflexivity ].
    pose proof (SendAgentFds_session
                  (set_adb_connection_socket st (pe_cmsg_fd env)) env) as [Hk _].
    destruct (SendAgentFds (set_adb_connection_socket st (pe_cmsg_fd env)) env)
      as [[flow st'] evs].
    exact Hk.
  - intros Hconn Hrc Hfd. unfold control_pollin_branch, ReadFdFromAdb.
    destruct (pe_recvmsg_rc env <=? 0) eqn:E; [ lia |].
    destruct (pe_cmsg_fd env =? -1) eqn:E1; [ lia |].
    destruct (adb_connection_socket_ st =? -1) eqn:E2; [ lia |].
    cbn [negb]. unfold unique_fd_release.
    destruct (pe_cmsg_fd env >=? 0) eqn:E3; rewrite E1; reflexivity.
Qed.

(** C6 as it was claimed fails: while connection 9 is held the descriptor 13
    that the daemon offers is neither received nor closed, the pass does
    nothing at all; once the agent has closed the session the same offer is
    adopted as the next connection. *)
Lemma second_offer_counterexample :
  adb_connection_socket_ in_session_broker = 9
  /\ poll_iteration spec_messages in_session_broker (offer_fd 13)
     = (Continue, in_session_broker, [])
  /\ ~ In (EvClose 13) (snd (poll_iteration spec_messages in_session_broker (offer_fd 13)))
  /\ poll_iteration spec_messages connected_broker (offer_fd 13)
     = (Continue, connected_broker, [])
  /\ adb_connection_socket_
       (snd (fst (poll_iteration spec_messages
                    (snd (fst (poll_iteration spec_messages in_session_broker
                                 (agent_datagram (char_array "ds-close") []))))
                    (offer_fd 13))))
     = 13.
Proof.
  split; [ reflexivity |]. split; [ vm_compute; reflexivity |].
  split; [ vm_compute; intros [] |]. split; vm_compute; reflexivity.
Qed.







(** ** Instances *)

Lemma ddm_packet_layout_witness :
  exists pkt,
    emitted_packet (PublishDdmData connected_broker 0x41414141 [0; 0; 0; 0] [] 23) = Some pkt
    /\ List.length pkt = 23%nat
    /\ be32_at 0 pkt = 23
    /\ be32_at 11 pkt = 0x41414141
    /\ be32_at 15 pkt = 4.
Proof.
  destruct (ddm_packet_layout connected_broker 0x41414141 [0; 0; 0; 0] [] 23)
    as (pkt & Hpkt & Hlen & _ & Hfield & _ & _ & _ & Htype & Hsize & _).
  - cbn. lia.
  - exists pkt. split; [ exact Hpkt |]. split; [ exact Hlen |].
    split; [ apply Hfield; vm_compute; reflexivity |].
    split; [ exact Htype | exact Hsize ].
Defined.

Lemma publish_while_disconnected_witness :
  exists warning,
    PublishDdmData started_broker 0x41414141 [0; 0; 0; 0] [] 0
    = PublishReturned started_broker
        [ EvLockAcquire 4; EvLog WARNING warning; EvLockRelease 4 ]
    /\ emitted_packet (PublishDdmData started_broker 0x41414141 [0; 0; 0; 0] [] 0) = None.
Proof.
  apply (publish_while_disconnected started_broker 0x41414141 [0; 0; 0; 0] [] 0).
  reflexivity.
Defined.

Lemma connect_backoff_witness :
  exists evs,
    SetupAdbConnection started_broker 8 ([ refused; refused; refused; refused ] ++ [])
    = connect_loop [] started_broker 8 2000 evs
    /\ sleeps_ms evs = [ 500; 750; 1125; 1687 ].
Proof.
  apply (connect_backoff started_broker 8 [ refused; refused; refused; refused ] []).
  - lia.
  - reflexivity.
  - repeat constructor; cbn; lia.
Defined.

Lemma agent_message_dispatch_witness :
  agent_branch spec_messages handed_over_broker (agent_datagram (char_array "ds-accept") [])
  = (Continue, set_sent_agent_fds (set_agent_has_socket handed_over_broker true) false, []).
Proof.
  assert (Hlen : (List.length (char_array "ds-accept") <= 255)%nat) by (cbn; lia).
  assert (Hdist : distinct_messages spec_messages = true) by (vm_compute; reflexivity).
  destruct (agent_message_dispatch spec_messages handed_over_broker
              (agent_datagram (char_array "ds-accept") []) (char_array "ds-accept")
              eq_refl Hlen Hdist) as (_ & _ & Haccept & _).
  apply Haccept. reflexivity.
Defined.

Lemma offer_waits_for_connection_end_witness :
  poll_iteration spec_messages in_session_broker
                 (with_control_answers (offer_fd 13) POLLIN 1 13)
  = poll_iteration spec_messages in_session_broker (offer_fd 13)
  /\ adb_connection_socket_
       (snd (fst (poll_iteration spec_messages
                    (set_adb_connection_socket in_session_broker (-1)) (offer_fd 13))))
     = 13.
Proof.
  destruct (offer_waits_for_connection_end spec_messages in_session_broker (offer_fd 13))
    as ((_ & Hsame & _) & _ & _); [ cbn; lia |].
  destruct (offer_waits_for_connection_end spec_messages
              (set_adb_connection_socket in_session_broker (-1)) (offer_fd 13))
    as (_ & Hadopt & _).
  split; [ apply Hsame |].
  apply Hadopt; cbn; try reflexivity; lia.
Defined.

Lemma cut_short_message_dispatched_witness :
  ~ starts_with (kCloseMessage spec_messages) (bytes_of_string "ds-clos")
  /\ adb_connection_socket_ in_session_broker = 9
  /\ snd (fst (agent_branch spec_messages in_session_broker
                 (agent_datagram (bytes_of_string "ds-clos") (char_array "ds-close"))))
     = set_agent_has_socket (set_adb_connection_socket in_session_broker (-1)) false.
Proof.
  destruct (cut_short_message_dispatched spec_messages in_session_broker
              (agent_datagram (bytes_of_string "ds-clos") (char_array "ds-close"))
              (bytes_of_string "ds-clos") (char_array "ds-close") 101)
    as (Hnone & _ & _ & _ & _ & Hclose);
    try reflexivity.
  - cbn. lia.
  - unfold messages. cbn. auto.
  - split; [ apply Hnone; unfold messages; cbn; auto |].
    split; [ reflexivity |]. apply Hclose. reflexivity.
Defined.

(** * Further properties *)

(** ** Poll flags *)

(** X1: [FlagsSet(data, flags)] holds exactly when every bit of [flags] is set
    in [data]; asking for two sets of flags at once is asking for each. *)
Theorem FlagsSet_bits (data flags other : Z) :
  (FlagsSet data flags = true
   <-> forall i, 0 <= i -> Z.testbit flags i = true -> Z.testbit data i = true)
  /\ FlagsSet data (Z.lor flags other) = FlagsSet data flags && FlagsSet data other.
Proof.
  assert (Hbits : forall d f,
             FlagsSet d f = true
             <-> forall i, 0 <= i -> Z.testbit f i = true -> Z.testbit d i = true).
  { intros d f. unfold FlagsSet. rewrite Z.eqb_eq. split.
    - intros H i Hi Hf. rewrite <- H in Hf. rewrite Z.land_spec in Hf.
      apply andb_true_iff in Hf. apply Hf.
    - intros H. apply Z.bits_inj'. intros i Hi. rewrite Z.land_spec.
      destruct (Z.testbit f i) eqn:Hf; [| apply andb_false_r ].
      rewrite (H i Hi Hf). reflexivity. }
  split; [ apply Hbits |].
  apply eq_true_iff_eq. rewrite andb_true_iff, !Hbits. split.
  - intros H. split; intros i Hi Hf; apply (H i Hi); rewrite Z.lor_spec, Hf;
      [ reflexivity | apply orb_true_r ].
  - intros [Hf Ho] i Hi H. rewrite Z.lor_spec in H. apply orb_true_iff in H.
    destruct H as [H | H]; [ apply (Hf i Hi H) | apply (Ho i Hi H) ].
Qed.

(** ** What the loop and the publisher leave alone *)

Ltac break_match :=
  repeat match goal with
         | |- context [ if ?b then _ else _ ] => destruct b eqn:?
         | |- context [ match ?x with _ => _ end ] => destruct x eqn:?
         end.

Lemma same_setup_refl st : same_setup st st.
Proof. repeat split. Qed.

Lemma same_setup_trans a b c : same_setup a b -> same_setup b c -> same_setup a c.
Proof.
  intros (A1 & A2 & A3 & A4 & A5) (B1 & B2 & B3 & B4 & B5). repeat split; congruence.
Qed.

Lemma SendAgentFds_frame st env :
  snd (fst (SendAgentFds st env)) = st
  \/ snd (fst (SendAgentFds st env)) = set_sent_agent_fds st true.
Proof. unfold SendAgentFds. break_ifs; cbn; auto. Qed.

Lemma poll_iteration_setup M st env :
  same_setup st (snd (fst (poll_iteration M st env)))
  /\ next_ddm_id_ (snd (fst (poll_iteration M st env))) = next_ddm_id_ st
  /\ shutting_down_ (snd (fst (poll_iteration M st env))) = shutting_down_ st.
Proof.
  unfold poll_iteration, agent_branch, control_pollin_branch, control_rdhup_branch,
    adb_socket_branch, CloseFds, ReadFdFromAdb, SendAgentFds.
  break_match; cbn; repeat split.
Qed.

Lemma connect_loop_setup (attempts : list ConnectAttempt) :
  forall st sock sleep_ms evs,
    match connect_loop attempts st sock sleep_ms evs with
    | SetupReturned _ st' _ | SetupRetrying st' _ _ =>
      same_setup st st' /\ next_ddm_id_ st' = next_ddm_id_ st
      /\ (shutting_down_ st = true -> shutting_down_ st' = true)
    end.
Proof.
  induction attempts as [| a attempts IH]; intros st sock sleep_ms evs.
  - repeat split. auto.
  - cbn [connect_loop].
    remember (if ca_stop_requested a then set_shutting_down st true else st) as st1 eqn:Est1.
    assert (H1 : same_setup st st1 /\ next_ddm_id_ st1 = next_ddm_id_ st
                 /\ (shutting_down_ st = true -> shutting_down_ st1 = true))
      by (rewrite Est1; destruct (ca_stop_requested a); repeat split; auto).
    clear Est1.
    destruct (shutting_down_ st1) eqn:Hsd1; [ rewrite Hsd1; exact H1 |].
    destruct (ca_connect_ret a =? 0).
    + destruct (negb _); [ rewrite Hsd1; exact H1 |].
      destruct (ca_send_ret a =? sizeof_pid_t); [| rewrite Hsd1; exact H1 ].
      destruct H1 as ((A1 & A2 & A3 & A4 & A5) & B & C). cbn. rewrite Hsd1.
      repeat split; assumption.
    + specialize (IH st1 sock (next_sleep_ms sleep_ms)
                     (evs ++ [ EvLog ERROR "Can't connect to ADB control socket. Will retry.";
                               EvUsleep (sleep_ms * 1000) ])).
      destruct (connect_loop attempts st1 sock _ _);
        destruct H1 as (A & B & C), IH as (A' & B' & C');
        (split; [ apply (same_setup_trans _ _ _ A A')
                | split; [ congruence | intros Hs; discriminate (C Hs) ] ]).
Qed.

Lemma setup_setup st sock attempts :
  match SetupAdbConnection st sock attempts with
  | SetupReturned _ st' _ | SetupRetrying st' _ _ =>
    same_setup st st' /\ next_ddm_id_ st' = next_ddm_id_ st
    /\ (shutting_down_ st = true -> shutting_down_ st' = true)
  end.
Proof.
  unfold SetupAdbConnection. destruct (sock <? 0); [ repeat split; auto |].
  apply connect_loop_setup.
Qed.

Lemma publish_returned_inj a b c d :
  PublishReturned a b = PublishReturned c d -> a = c /\ b = d.
Proof. intros H. injection H as Hs He. split; assumption. Qed.

Lemma publish_frame st type data stale writev_res st' evs :
  PublishDdmData st type data stale writev_res = PublishReturned st' evs ->
  st' = set_next_ddm_id st (next_ddm_id_ st').
Proof.
  unfold PublishDdmData. destruct (adb_connection_socket_ st =? -1).
  - intros H. apply publish_returned_inj in H. destruct H as [<- _].
    destruct st. reflexivity.
  - cbn [NextDdmId]. destruct (ddm_header _ _ _ _); [| discriminate ].
    intros H. apply publish_returned_inj in H. destruct H as [<- _]. reflexivity.
Qed.

Lemma step_setup M c i :
  same_setup (broker c) (broker (fst (step M c i)))
  /\ (is_publish i = false ->
      next_ddm_id_ (broker (fst (step M c i))) = next_ddm_id_ (broker c))
  /\ (shutting_down_ (broker c) = true -> shutting_down_ (broker (fst (step M c i))) = true).
Proof.
  destruct i as [env | type data stale writev_res |].
  - cbn [step]. destruct (worker c); try solve [ repeat split; auto ].
    unfold loop_step. destruct (shutting_down_ (broker c)) eqn:Hsd; [ repeat split; auto |].
    destruct (control_sock_ (broker c) =? -1).
    + pose proof (setup_setup (broker c) (le_socket env) (le_attempts env)) as Hs.
      destruct (SetupAdbConnection (broker c) (le_socket env) (le_attempts env))
        as [[|] st' evs | st' evs ms]; cbn; destruct Hs as (A & B & C);
        repeat split; try apply A; auto; discriminate.
    + pose proof (poll_iteration_setup M (broker c) (le_poll env)) as (A & B & C).
      destruct (poll_iteration M (broker c) (le_poll env)) as [[flow st'] evs].
      cbn in A, B, C. destruct flow; cbn; repeat split; try apply A; auto; discriminate.
  - cbn [step].
    destruct (PublishDdmData (broker c) type data stale writev_res) as [st' evs |] eqn:E.
    + apply publish_frame in E. cbn. rewrite E. repeat split; auto. discriminate.
    + cbn. repeat split; auto.
  - cbn. repeat split; auto.
Qed.

Lemma run_step M c i inputs :
  run M c (i :: inputs) = (fst (run M (fst (step M c i)) inputs),
                           snd (step M c i) ++ snd (run M (fst (step M c i)) inputs)).
Proof.
  cbn [run]. destruct (step M c i) as [c1 evs1]. cbn [fst snd].
  destruct (run M c1 inputs) as [c2 evs2]. reflexivity.
Qed.

(** X2: no run changes the agent name or the descriptors made at start-up;
    the id counter moves only through publishes, a publish changes nothing but
    the id counter, and [shutting_down_], once set, stays set. *)
Theorem run_frame (M : fd_transport) (inputs : list Input) (c : Config) :
  same_setup (broker c) (broker (fst (run M c inputs)))
  /\ (forallb (fun i => negb (is_publish i)) inputs = true ->
      next_ddm_id_ (broker (fst (run M c inputs))) = next_ddm_id_ (broker c))
  /\ (shutting_down_ (broker c) = true ->
      shutting_down_ (broker (fst (run M c inputs))) = true)
  /\ (forall type data stale writev_res st' evs,
         PublishDdmData (broker c) type data stale writev_res = PublishReturned st' evs ->
         st' = set_next_ddm_id (broker c) (next_ddm_id_ st')).
Proof.
  split; [| split; [| split ]].
  - revert c. induction inputs as [| i inputs IH]; intros c; [ apply same_setup_refl |].
    rewrite run_step. cbn [fst].
    apply (same_setup_trans _ (broker (fst (step M c i)))); [ apply step_setup | apply IH ].
  - revert c. induction inputs as [| i inputs IH]; intros c Hall; [ reflexivity |].
    cbn [forallb] in Hall. apply andb_true_iff in Hall. destruct Hall as [Hi Hall].
    rewrite run_step. cbn [fst]. rewrite (IH _ Hall).
    apply step_setup. apply negb_true_iff. exact Hi.
  - revert c. induction inputs as [| i inputs IH]; intros c Hsd; [ exact Hsd |].
    rewrite run_step. cbn [fst]. apply IH. apply step_setup. exact Hsd.
  - intros type data stale writev_res st' evs. apply publish_frame.
Qed.

Lemma run_frame_witness :
  next_ddm_id_ (broker (fst (run spec_messages started accepted_run))) = 1.
Proof.
  apply (run_frame spec_messages accepted_run started). reflexivity.
Defined.

(** ** The write interlock *)

Lemma lock_free_app a b : lock_free a -> lock_free b -> lock_free (a ++ b).
Proof. intros Ha Hb. apply Forall_app. split; assumption. Qed.

Lemma lock_free_DCHECK cond what : lock_free (DCHECK cond what).
Proof. unfold DCHECK. destruct cond; repeat constructor. Qed.

Lemma lock_free_release fd : lock_free (unique_fd_release fd).
Proof. unfold unique_fd_release. destruct (fd =? -1); repeat constructor. Qed.

Lemma lock_free_ReadFdFromAdb env : lock_free (snd (ReadFdFromAdb env)).
Proof. unfold ReadFdFromAdb. destruct (_ <=? 0); repeat constructor. Qed.

Lemma lock_free_SendAgentFds st env : lock_free (snd (SendAgentFds st env)).
Proof.
  unfold SendAgentFds. break_ifs; cbn [snd];
    repeat apply lock_free_app; try apply lock_free_DCHECK; repeat constructor.
Qed.

Lemma one_critical_section_intro lk evs pre mid post :
  evs = pre ++ EvLockAcquire lk :: mid ++ EvLockRelease lk :: post ->
  lock_free pre -> lock_free mid -> lock_free post ->
  one_critical_section lk evs mid.
Proof. intros E Hpre Hmid Hpost. exists pre, post. auto. Qed.

Lemma agent_branch_lock M st env :
  (adb_connection_socket_ (snd (fst (agent_branch M st env))) = adb_connection_socket_ st
   /\ lock_free (snd (agent_branch M st env)))
  \/ one_critical_section (adb_write_event_fd_ st) (snd (agent_branch M st env))
       (unique_fd_release (adb_connection_socket_ st)).
Proof.
  unfold agent_branch.
  pose proof (lock_free_DCHECK (agent_loaded_ st) "agent_loaded_") as Hchk.
  destruct (recv_agent_message env) as [| | buf].
  - left. split; [ reflexivity |]. apply lock_free_app; [ exact Hchk | repeat constructor ].
  - left. split; [ reflexivity | exact Hchk ].
  - destruct (memcmp_eq (kListenStartMessage M) buf).
    { left. cbn [adb_connection_socket_ set_agent_listening].
      destruct (negb (adb_connection_socket_ st =? -1)); [| split; [ reflexivity | exact Hchk ] ].
      pose proof (lock_free_SendAgentFds (set_agent_listening st true) env) as Hs.
      pose proof (SendAgentFds_frame (set_agent_listening st true) env) as Hf.
      destruct (SendAgentFds (set_agent_listening st true) env) as [[flow st'] evs].
      cbn [fst snd] in *. split.
      - destruct Hf as [-> | ->]; reflexivity.
      - apply lock_free_app; assumption. }
    destruct (memcmp_eq (kListenEndMessage M) buf);
      [ left; split; [ reflexivity | exact Hchk ] |].
    destruct (memcmp_eq (kCloseMessage M) buf).
    { right. cbn [CloseFds snd].
      apply (one_critical_section_intro _ _ (DCHECK (agent_loaded_ st) "agent_loaded_") _ []);
        [ reflexivity | exact Hchk | apply lock_free_release | constructor ]. }
    destruct (memcmp_eq (kAcceptMessage M) buf).
    + left. split; [ reflexivity | exact Hchk ].
    + left. split; [ reflexivity |]. apply lock_free_app; [ exact Hchk | repeat constructor ].
Qed.

Lemma control_pollin_branch_lock st env :
  exists mid,
    one_critical_section (adb_write_event_fd_ st) (snd (control_pollin_branch st env)) mid
    /\ (adb_connection_socket_ (snd (fst (control_pollin_branch st env)))
        <> adb_connection_socket_ st -> adb_connection_socket_ st = -1).
Proof.
  unfold control_pollin_branch.
  pose proof (lock_free_ReadFdFromAdb env) as Hread.
  destruct (ReadFdFromAdb env) as [new_fd read_evs]. cbn [snd] in Hread.
  destruct (new_fd =? -1).
  { exists (read_evs
            ++ [ EvLog ERROR "Something went wrong getting fds from adb. Retry!" ]
            ++ unique_fd_release (control_sock_ st)).
    split.
    - apply (one_critical_section_intro _ _ [] _ []); [ | constructor | | constructor ].
      + cbn [snd app]. rewrite <- !app_assoc. reflexivity.
      + apply lock_free_app; [ exact Hread |].
        apply lock_free_app; [ repeat constructor | apply lock_free_release ].
    - cbn. intros H. contradiction H. reflexivity. }
  destruct (negb (adb_connection_socket_ st =? -1)) eqn:Econn.
  { exists (read_evs
            ++ (if new_fd >=? 0 then unique_fd_release new_fd else [])
            ++ unique_fd_release (if new_fd >=? 0 then -1 else new_fd)).
    split.
    - apply (one_critical_section_intro _ _ [] _ []); [ | constructor | | constructor ].
      + cbn [snd app]. rewrite <- !app_assoc. reflexivity.
      + apply lock_free_app; [ exact Hread |].
        apply lock_free_app; [ destruct (new_fd >=? 0); [ apply lock_free_release | constructor ]
                             | apply lock_free_release ].
    - cbn. intros H. contradiction H. reflexivity. }
  apply negb_false_iff in Econn. apply Z.eqb_eq in Econn.
  cbn [agent_loaded_ agent_listening_ set_adb_connection_socket].
  exists (read_evs ++ unique_fd_release (adb_connection_socket_ st)).
  destruct (agent_loaded_ st && agent_listening_ st).
  - pose proof (lock_free_SendAgentFds (set_adb_connection_socket st new_fd) env) as Hs.
    destruct (SendAgentFds (set_adb_connection_socket st new_fd) env) as [[flow st'] evs].
    cbn [fst snd] in *. split; [| intros _; exact Econn ].
    apply (one_critical_section_intro _ _ [] _ evs); [ | constructor | | exact Hs ].
    + cbn [app]. rewrite <- !app_assoc. reflexivity.
    + apply lock_free_app; [ exact Hread | apply lock_free_release ].
  - cbn [fst snd]. split; [| intros _; exact Econn ].
    apply (one_critical_section_intro _ _ [] _ []); [ | constructor | | constructor ].
    + cbn [app]. rewrite <- !app_assoc. reflexivity.
    + apply lock_free_app; [ exact Hread | apply lock_free_release ].
Qed.

Lemma adb_socket_branch_lock st env : lock_free (snd (adb_socket_branch st env)).
Proof.
  unfold adb_socket_branch.
  pose proof (lock_free_DCHECK (negb (agent_has_socket_ st)) "!agent_has_socket_") as Hchk.
  destruct (negb (agent_loaded_ st)).
  { destruct (pe_attach_exception env); cbn [snd];
      repeat apply lock_free_app; try apply lock_free_DCHECK; repeat constructor. }
  destruct (agent_listening_ st && negb (sent_agent_fds_ st)); [| exact Hchk ].
  pose proof (lock_free_SendAgentFds st env) as Hs.
  destruct (SendAgentFds st env) as [[flow st'] evs]. cbn [snd] in *.
  apply lock_free_app; assumption.
Qed.

Lemma poll_iteration_lock M st env :
  (adb_connection_socket_ (snd (fst (poll_iteration M st env))) = adb_connection_socket_ st
   /\ lock_free (snd (poll_iteration M st env)))
  \/ exists mid,
      one_critical_section (adb_write_event_fd_ st) (snd (poll_iteration M st env)) mid
      /\ (adb_connection_socket_ (snd (fst (poll_iteration M st env)))
          <> adb_connection_socket_ st ->
          adb_connection_socket_ st <> -1 -> In (EvClose (adb_connection_socket_ st)) mid).
Proof.
  unfold poll_iteration.
  destruct (pe_poll_res env <? 0); [ left; split; [ reflexivity | repeat constructor ] |].
  destruct (FlagsSet (slot_revents (agent_slot st) _) POLLIN).
  { destruct (agent_branch_lock M st env) as [H | H]; [ left; exact H |].
    right. eexists. split; [ exact H |]. intros _ Hconn.
    unfold unique_fd_release. destruct (adb_connection_socket_ st =? -1) eqn:E; [ lia |].
    left. reflexivity. }
  destruct (FlagsSet (slot_revents (control_slot st) _) POLLIN).
  { right. destruct (control_pollin_branch_lock st env) as (mid & Hmid & Hc).
    exists mid. split; [ exact Hmid |]. intros Hch Hconn. contradiction (Hconn (Hc Hch)). }
  destruct (FlagsSet (slot_revents (control_slot st) _) POLLRDHUP).
  { left. split; [ reflexivity |]. cbn [control_rdhup_branch snd].
    apply lock_free_app; [ apply lock_free_DCHECK | apply lock_free_release ]. }
  destruct (FlagsSet (slot_revents (adb_slot st) _) POLLIN).
  { left. split; [ apply adb_socket_branch_session | apply adb_socket_branch_lock ]. }
  left. split; [ reflexivity | constructor ].
Qed.

Lemma replay_lock_free fd evs :
  lock_free evs -> forall counter held,
  replay_interlock fd evs counter held = Some (counter, held).
Proof.
  induction 1 as [| e evs He _ IH]; intros counter held; [ reflexivity |].
  destruct e; try discriminate He; cbn [replay_interlock]; apply IH.
Qed.

Lemma replay_app fd a : forall b counter held,
  replay_interlock fd (a ++ b) counter held
  = match replay_interlock fd a counter held with
    | Some (counter, held) => replay_interlock fd b counter held
    | None => None
    end.
Proof.
  induction a as [| e a IH]; intros b counter held; [ reflexivity |].
  destruct e; cbn [app replay_interlock]; try apply IH.
  - destruct (fd0 =? fd); [| apply IH ].
    destruct (ScopedEventFdLock_new fd counter) as [[lk c] |]; [ apply IH | reflexivity ].
  - destruct (fd0 =? fd); [| apply IH ].
    destruct held; [ apply IH | reflexivity ].
Qed.

Lemma replay_critical_section lk evs mid counter :
  one_critical_section lk evs mid -> counter <> 0 ->
  replay_interlock lk evs counter None = Some (counter, None).
Proof.
  intros (pre & post & -> & Hpre & Hmid & Hpost) Hc.
  rewrite replay_app, (replay_lock_free lk pre Hpre).
  cbn [replay_interlock]. rewrite Z.eqb_refl.
  unfold ScopedEventFdLock_new, eventfd_read.
  destruct (counter =? 0) eqn:E; [ lia |].
  rewrite replay_app, (replay_lock_free lk mid Hmid).
  cbn [replay_interlock]. rewrite Z.eqb_refl.
  unfold ScopedEventFdLock_delete, eventfd_write. cbn [data_].
  rewrite (replay_lock_free lk post Hpost). reflexivity.
Qed.

Lemma sleeps_lock_free_release fd evs : lock_free evs -> lock_free (evs ++ unique_fd_release fd).
Proof. intros H. apply lock_free_app; [ exact H | apply lock_free_release ]. Qed.

Lemma connect_loop_lock_free (attempts : list ConnectAttempt) :
  forall st sock sleep_ms evs,
    lock_free evs ->
    lock_free (setup_events (connect_loop attempts st sock sleep_ms evs)).
Proof.
  induction attempts as [| a attempts IH]; intros st sock sleep_ms evs Hevs; [ exact Hevs |].
  cbn [connect_loop].
  destruct (shutting_down_ _); [ apply sleeps_lock_free_release; exact Hevs |].
  destruct (ca_connect_ret a =? 0).
  - destruct (negb _).
    + cbn [setup_events]. apply lock_free_app; [ exact Hevs |].
      apply lock_free_app; [ repeat constructor |].
      apply lock_free_app; [| apply lock_free_release ].
      destruct (sock >=? 0); [ destruct (ca_shutdown_ret a =? 0) |]; repeat constructor.
    + destruct (ca_send_ret a =? sizeof_pid_t); cbn [setup_events];
        (apply lock_free_app; [ exact Hevs |]);
        (apply lock_free_app; [ repeat constructor | apply lock_free_release ]).
  - apply IH. apply lock_free_app; [ exact Hevs | repeat constructor ].
Qed.

Lemma publish_critical_section st type data stale writev_res st' evs :
  PublishDdmData st type data stale writev_res = PublishReturned st' evs ->
  exists mid,
    one_critical_section (adb_write_event_fd_ st) evs mid
    /\ (forall fd iovs, In (EvWritev fd iovs) evs ->
                        In (EvWritev fd iovs) mid /\ fd = adb_connection_socket_ st
                        /\ adb_connection_socket_ st <> -1)
    /\ (forall fd, ~ In (EvClose fd) evs).
Proof.
  unfold PublishDdmData. destruct (adb_connection_socket_ st =? -1) eqn:Econn.
  - intros H. apply publish_returned_inj in H. destruct H as [_ <-].
    exists [ EvLog WARNING ("Not sending ddms data of type " ++ type_chars type
                            ++ " due to no connection!")%string ].
    split; [| split ].
    + apply (one_critical_section_intro _ _ [] _ []);
        [ reflexivity | constructor | repeat constructor | constructor ].
    + intros fd iovs [H | [H | [H | []]]]; discriminate H.
    + intros fd [H | [H | [H | []]]]; discriminate H.
  - cbn [NextDdmId]. destruct (ddm_header _ _ _ _) as [pkt |]; [| discriminate ].
    intros H. apply publish_returned_inj in H. destruct H as [_ <-].
    set (log := if size_t writev_res =? size_t (kDdmPacketHeaderSize + zlen data)
                then []
                else [ EvLog ERROR ("Failed to send DDMS packet " ++ type_chars type
                                    ++ " to debugger")%string ]).
    assert (Hlog : lock_free log /\ (forall e, In e log -> exists m, e = EvLog ERROR m)).
    { unfold log.
      destruct (size_t writev_res =? size_t (kDdmPacketHeaderSize + zlen data)); split.
      - constructor.
      - intros e [].
      - repeat constructor.
      - intros e [<- | []]. eexists. reflexivity. }
    destruct Hlog as [Hfree Hlog].
    exists (EvWritev (adb_connection_socket_ st) [ pkt; data ] :: log).
    split; [| split ].
    + apply (one_critical_section_intro _ _ [] _ []);
        [ reflexivity | constructor | | constructor ].
      constructor; [ reflexivity | exact Hfree ].
    + intros fd iovs Hin. cbn [app] in Hin.
      destruct Hin as [Hin | [Hin | Hin]]; [ discriminate Hin | |].
      * injection Hin as <- <-. split; [ left; reflexivity |].
        split; [ reflexivity | apply Z.eqb_neq; exact Econn ].
      * apply in_app_or in Hin. destruct Hin as [Hin | [Hin | []]]; [| discriminate Hin ].
        destruct (Hlog _ Hin) as [m Hm]. discriminate Hm.
    + intros fd Hin. cbn [app] in Hin.
      destruct Hin as [Hin | [Hin | Hin]]; [ discriminate Hin | discriminate Hin |].
      apply in_app_or in Hin. destruct Hin as [Hin | [Hin | []]]; [| discriminate Hin ].
      destruct (Hlog _ Hin) as [m Hm]. discriminate Hm.
Qed.

Lemma step_replay M c i counter :
  counter <> 0 ->
  replay_interlock (adb_write_event_fd_ (broker c)) (snd (step M c i)) counter None
  = Some (counter, None).
Proof.
  intros Hc. destruct i as [env | type data stale writev_res |].
  - cbn [step]. destruct (worker c); try reflexivity.
    unfold loop_step. destruct (shutting_down_ (broker c)); [ reflexivity |].
    destruct (control_sock_ (broker c) =? -1).
    + assert (Hs : lock_free (setup_events
                      (SetupAdbConnection (broker c) (le_socket env) (le_attempts env)))).
      { unfold SetupAdbConnection. destruct (le_socket env <? 0).
        - cbn [setup_events]. apply lock_free_app; [ repeat constructor | apply lock_free_release ].
        - apply connect_loop_lock_free. constructor. }
      destruct (SetupAdbConnection (broker c) (le_socket env) (le_attempts env))
        as [[|] st' evs | st' evs ms]; cbn [setup_events snd] in *;
        apply replay_lock_free; try exact Hs.
      apply lock_free_app; [ exact Hs | repeat constructor ].
    + pose proof (poll_iteration_lock M (broker c) (le_poll env)) as Hp.
      destruct (poll_iteration M (broker c) (le_poll env)) as [[flow st'] evs].
      cbn [fst snd] in Hp.
      assert (Hr : replay_interlock (adb_write_event_fd_ (broker c)) evs counter None
                   = Some (counter, None)).
      { destruct Hp as [[_ Hfree] | (mid & Hmid & _)].
        - apply replay_lock_free. exact Hfree.
        - apply (replay_critical_section _ _ mid); assumption. }
      destruct flow; exact Hr.
  - cbn [step].
    destruct (PublishDdmData (broker c) type data stale writev_res) as [st' evs |] eqn:E;
      [| reflexivity ].
    destruct (publish_critical_section _ _ _ _ _ _ _ E) as (mid & Hmid & _).
    apply (replay_critical_section _ _ mid); assumption.
  - reflexivity.
Qed.

(** X3: played on the write-lock eventfd, the trace of any run never blocks
    on a lock the broker itself holds and leaves the eventfd at the value it
    had: every [ScopedEventFdLock] that is taken is given back, on every
    path. *)
Theorem interlock_always_released (M : fd_transport) (inputs : list Input)
        (c : Config) (counter : Z) :
  counter <> 0 ->
  replay_interlock (adb_write_event_fd_ (broker c)) (snd (run M c inputs)) counter None
  = Some (counter, None).
Proof.
  intros Hc. revert c. induction inputs as [| i inputs IH]; intros c; [ reflexivity |].
  rewrite run_step. cbn [snd]. rewrite replay_app, (step_replay M c i counter Hc).
  destruct (step_setup M c i) as ((_ & _ & Hfd & _) & _).
  rewrite <- Hfd. apply IH.
Qed.

Lemma interlock_always_released_witness :
  replay_interlock 4 (snd (run spec_messages started
                             (close_before_accept_run
                              ++ [ InPublish 0x41414141 [] [] 0; in_debugger_fd 13 ])))
                   kEventfdUnlocked None
  = Some (kEventfdUnlocked, None).
Proof.
  apply (interlock_always_released spec_messages
           (close_before_accept_run ++ [ InPublish 0x41414141 [] [] 0; in_debugger_fd 13 ])
           started kEventfdUnlocked).
  discriminate.
Defined.

(** X4: a pass of the loop changes [adb_connection_socket_] only between
    taking and releasing the write interlock, and a connection it gives up is
    closed in between; a publish writes only in between, only to the
    connection, and closes nothing. *)
Theorem connection_guarded_by_interlock (M : fd_transport) (st : AdbConnectionState) :
  (forall env,
      adb_connection_socket_ (snd (fst (poll_iteration M st env)))
      <> adb_connection_socket_ st ->
      exists mid,
        one_critical_section (adb_write_event_fd_ st) (snd (poll_iteration M st env)) mid
        /\ (adb_connection_socket_ st <> -1 -> In (EvClose (adb_connection_socket_ st)) mid))
  /\ (forall type data stale writev_res st' evs,
         PublishDdmData st type data stale writev_res = PublishReturned st' evs ->
         exists mid,
           one_critical_section (adb_write_event_fd_ st) evs mid
           /\ (forall fd iovs, In (EvWritev fd iovs) evs ->
                               In (EvWritev fd iovs) mid /\ fd = adb_connection_socket_ st
                               /\ adb_connection_socket_ st <> -1)
           /\ (forall fd, ~ In (EvClose fd) evs)).
Proof.
  split.
  - intros env Hch.
    destruct (poll_iteration_lock M st env) as [[Hsame _] | (mid & Hmid & Hclose)];
      [ contradiction |].
    exists mid. split; [ exact Hmid | exact (Hclose Hch) ].
  - intros type data stale writev_res st' evs. apply publish_critical_section.
Qed.

Lemma connection_guarded_by_interlock_witness :
  exists mid,
    one_critical_section 4
      (snd (poll_iteration spec_messages handed_over_broker
              (agent_datagram (char_array "ds-close") []))) mid
    /\ In (EvClose 9) mid.
Proof.
  destruct (proj1 (connection_guarded_by_interlock spec_messages handed_over_broker)
                  (agent_datagram (char_array "ds-close") [])) as (mid & Hmid & Hclose).
  - vm_compute. discriminate.
  - exists mid. split; [ exact Hmid |]. apply Hclose. vm_compute. discriminate.
Defined.

(** ** Assertions of the loop *)

Ltac state_simpl :=
  cbn [agent_name_ sleep_event_fd_ control_sock_ local_agent_control_sock_
       remote_agent_control_sock_ adb_connection_socket_ adb_write_event_fd_
       shutting_down_ agent_loaded_ agent_listening_ agent_has_socket_ sent_agent_fds_
       next_ddm_id_ set_control_sock set_adb_connection_socket set_shutting_down
       set_agent_loaded set_agent_listening set_agent_has_socket set_sent_agent_fds
       set_next_ddm_id fst snd] in *.

Lemma dcheck_failures_app a b :
  dcheck_failures (a ++ b) = dcheck_failures a ++ dcheck_failures b.
Proof.
  induction a as [| e a IH]; [ reflexivity |].
  destruct e; cbn; rewrite IH; reflexivity.
Qed.

Lemma SendAgentFds_dchecks st env what :
  In what (dcheck_failures (snd (SendAgentFds st env))) ->
  what = "!sent_agent_fds_"%string /\ sent_agent_fds_ st = true.
Proof.
  unfold SendAgentFds, DCHECK. break_match; cbn; intros H;
    repeat match goal with
           | H : _ \/ _ |- _ => destruct H
           | H : False |- _ => destruct H
           end; subst; split; try reflexivity;
    match goal with H : negb _ = false |- _ => apply negb_false_iff in H; exact H end.
Qed.

Lemma agent_branch_dchecks M st env what :
  In what (dcheck_failures (snd (agent_branch M st env))) ->
  (what = "agent_loaded_"%string /\ agent_loaded_ st = false)
  \/ (what = "!sent_agent_fds_"%string /\ sent_agent_fds_ st = true
      /\ exists buf, recv_agent_message env = RecvBuffer buf
                     /\ memcmp_eq (kListenStartMessage M) buf = true).
Proof.
  unfold agent_branch.
  assert (Hchk : forall w, In w (dcheck_failures (DCHECK (agent_loaded_ st) "agent_loaded_")) ->
                           w = "agent_loaded_"%string /\ agent_loaded_ st = false).
  { intros w. unfold DCHECK. destruct (agent_loaded_ st); cbn; [ intros [] |].
    intros [<- | []]. split; reflexivity. }
  destruct (recv_agent_message env) as [| | buf] eqn:Hrecv; cbn [snd].
  - rewrite dcheck_failures_app, app_nil_r. intros H. left. apply Hchk. exact H.
  - intros H. left. apply Hchk. exact H.
  - destruct (memcmp_eq (kListenStartMessage M) buf) eqn:Hstart.
    { state_simpl. destruct (negb (adb_connection_socket_ st =? -1)).
      - pose proof (SendAgentFds_dchecks (set_agent_listening st true) env what) as Hs.
        destruct (SendAgentFds (set_agent_listening st true) env) as [[flow st'] evs].
        state_simpl. rewrite dcheck_failures_app. intros H. apply in_app_or in H.
        destruct H as [H | H]; [ left; apply Hchk; exact H |].
        right. destruct (Hs H) as [-> Hsent]. split; [ reflexivity |].
        split; [ exact Hsent |]. exists buf. split; reflexivity || assumption.
      - state_simpl. intros H. left. apply Hchk. exact H. }
    destruct (memcmp_eq (kListenEndMessage M) buf);
      [ state_simpl; intros H; left; apply Hchk; exact H |].
    destruct (memcmp_eq (kCloseMessage M) buf).
    { unfold CloseFds, unique_fd_release. state_simpl. rewrite dcheck_failures_app.
      intros H. apply in_app_or in H. destruct H as [H | H]; [ left; apply Hchk; exact H |].
      destruct (adb_connection_socket_ st =? -1); cbn in H; destruct H. }
    destruct (memcmp_eq (kAcceptMessage M) buf); state_simpl.
    + intros H. left. apply Hchk. exact H.
    + rewrite dcheck_failures_app, app_nil_r. intros H. left. apply Hchk. exact H.
Qed.

Lemma control_pollin_branch_dchecks st env what :
  In what (dcheck_failures (snd (control_pollin_branch st env))) ->
  what = "!sent_agent_fds_"%string /\ sent_agent_fds_ st = true
  /\ adb_connection_socket_ st = -1.
Proof.
  unfold control_pollin_branch, ReadFdFromAdb, unique_fd_release.
  destruct (pe_recvmsg_rc env <=? 0).
  { cbn. break_match; cbn; intros H;
      repeat match goal with H : _ \/ _ |- _ => destruct H | H : False |- _ => destruct H end. }
  destruct (pe_cmsg_fd env =? -1).
  { break_match; cbn; intros H;
      repeat match goal with H : _ \/ _ |- _ => destruct H | H : False |- _ => destruct H end. }
  destruct (negb (adb_connection_socket_ st =? -1)) eqn:Econn.
  { break_match; cbn; intros H;
      repeat match goal with H : _ \/ _ |- _ => destruct H | H : False |- _ => destruct H end. }
  apply negb_false_iff in Econn. apply Z.eqb_eq in Econn. rewrite Econn. cbn [Z.eqb].
  state_simpl. destruct (agent_loaded_ st && agent_listening_ st); [| cbn; intros [] ].
  pose proof (SendAgentFds_dchecks (set_adb_connection_socket st (pe_cmsg_fd env)) env what) as Hs.
  destruct (SendAgentFds (set_adb_connection_socket st (pe_cmsg_fd env)) env)
    as [[flow st'] evs].
  state_simpl. cbn [app dcheck_failures]. intros H. destruct (Hs H) as [-> Hsent].
  repeat split; assumption.
Qed.

Lemma control_rdhup_branch_dchecks st what :
  In what (dcheck_failures (snd (control_rdhup_branch st))) ->
  what = "!agent_has_socket_ on POLLRDHUP"%string /\ agent_has_socket_ st = true.
Proof.
  unfold control_rdhup_branch, DCHECK, unique_fd_release.
  destruct (agent_has_socket_ st); destruct (control_sock_ st =? -1); cbn;
    intros H; repeat match goal with H : _ \/ _ |- _ => destruct H | H : False |- _ => destruct H end;
    subst; split; reflexivity.
Qed.

Lemma adb_socket_branch_dchecks st env what :
  In what (dcheck_failures (snd (adb_socket_branch st env))) ->
  (what = "!agent_has_socket_"%string /\ agent_has_socket_ st = true)
  \/ (what = "!agent_listening_"%string /\ agent_loaded_ st = false
      /\ agent_listening_ st = true).
Proof.
  unfold adb_socket_branch.
  assert (Hchk : forall w,
             In w (dcheck_failures (DCHECK (negb (agent_has_socket_ st)) "!agent_has_socket_")) ->
             w = "!agent_has_socket_"%string /\ agent_has_socket_ st = true).
  { intros w. unfold DCHECK. destruct (agent_has_socket_ st); cbn; [| intros [] ].
    intros [<- | []]. split; reflexivity. }
  destruct (agent_loaded_ st) eqn:Hloaded; cbn [negb].
  - destruct (agent_listening_ st && negb (sent_agent_fds_ st)) eqn:Hsend.
    + pose proof (SendAgentFds_dchecks st env what) as Hs.
      destruct (SendAgentFds st env) as [[flow st'] evs]. state_simpl.
      rewrite dcheck_failures_app. intros H. apply in_app_or in H.
      destruct H as [H | H]; [ left; apply Hchk; exact H |].
      destruct (Hs H) as [_ Hsent]. rewrite Hsent in Hsend.
      rewrite andb_false_r in Hsend. discriminate Hsend.
    + state_simpl. intros H. left. apply Hchk. exact H.
  - assert (Hl : forall w,
               In w (dcheck_failures (DCHECK (negb (agent_listening_ st)) "!agent_listening_")) ->
               w = "!agent_listening_"%string /\ agent_listening_ st = true).
    { intros w. unfold DCHECK. destruct (agent_listening_ st); cbn; [| intros [] ].
      intros [<- | []]. split; reflexivity. }
    destruct (pe_attach_exception env); state_simpl;
      rewrite !dcheck_failures_app; cbn [dcheck_failures]; rewrite ?app_nil_r;
      intros H; apply in_app_or in H;
      (destruct H as [H | H]; [ left; apply Hchk; exact H |]);
      right; destruct (Hl _ H) as [-> Hlis]; repeat split; assumption.
Qed.

Lemma agent_slot_loaded st raw :
  FlagsSet (slot_revents (agent_slot st) raw) POLLIN = true -> agent_loaded_ st = true.
Proof.
  intros H. apply flags_need_fd in H; [| reflexivity ].
  unfold agent_slot in H. destruct (agent_loaded_ st); [ reflexivity | lia ].
Qed.

Lemma adb_slot_free st raw :
  FlagsSet (slot_revents (adb_slot st) raw) POLLIN = true ->
  agent_has_socket_ st = false /\ sent_agent_fds_ st = false.
Proof.
  intros H. apply flags_need_fd in H; [| reflexivity ].
  unfold adb_slot in H.
  destruct (agent_has_socket_ st); destruct (sent_agent_fds_ st); cbn in H;
    split; try reflexivity; lia.
Qed.

Lemma poll_iteration_dchecks M st env what :
  In what (dcheck_failures (snd (poll_iteration M st env))) ->
  (what = "!sent_agent_fds_"%string /\ sent_agent_fds_ st = true
   /\ (adb_connection_socket_ st = -1
       \/ exists buf, recv_agent_message env = RecvBuffer buf
                      /\ memcmp_eq (kListenStartMessage M) buf = true))
  \/ (what = "!agent_has_socket_ on POLLRDHUP"%string /\ agent_has_socket_ st = true
      /\ adb_connection_socket_ st = -1)
  \/ (what = "!agent_listening_"%string /\ agent_loaded_ st = false
      /\ agent_listening_ st = true).
Proof.
  unfold poll_iteration.
  destruct (pe_poll_res env <? 0); [ cbn; intros [] |].
  destruct (FlagsSet (slot_revents (agent_slot st) _) POLLIN) eqn:Ea.
  { apply agent_slot_loaded in Ea. intros H.
    destruct (agent_branch_dchecks M st env what H) as [[_ Hl] | (-> & Hs & Hbuf)].
    - rewrite Ea in Hl. discriminate Hl.
    - left. repeat split; auto. }
  destruct (FlagsSet (slot_revents (control_slot st) _) POLLIN).
  { intros H. destruct (control_pollin_branch_dchecks st env what H) as (-> & Hs & Hc).
    left. repeat split; auto. }
  destruct (FlagsSet (slot_revents (control_slot st) _) POLLRDHUP) eqn:Er.
  { apply control_slot_no_connection in Er; [| reflexivity ].
    intros H. destruct (control_rdhup_branch_dchecks st what H) as [-> Hh].
    right. left. repeat split; auto. }
  destruct (FlagsSet (slot_revents (adb_slot st) _) POLLIN) eqn:Ec; [| cbn; intros [] ].
  apply adb_slot_free in Ec. destruct Ec as [Hh _].
  intros H. destruct (adb_socket_branch_dchecks st env what H) as [[_ Hh'] | H'].
  - rewrite Hh in Hh'. discriminate Hh'.
  - right. right. exact H'.
Qed.

Lemma connect_loop_events (attempts : list ConnectAttempt) :
  forall st sock sleep_ms evs e,
    In e (setup_events (connect_loop attempts st sock sleep_ms evs)) ->
    In e evs \/ is_setup_event e = true.
Proof.
  assert (Hrel : forall fd e, In e (unique_fd_release fd) -> is_setup_event e = true).
  { intros fd e. unfold unique_fd_release. destruct (fd =? -1); [ intros [] |].
    intros [<- | []]. reflexivity. }
  induction attempts as [| a attempts IH]; intros st sock sleep_ms evs e; [ auto |].
  cbn [connect_loop].
  destruct (shutting_down_ _).
  { cbn [setup_events]. intros H. apply in_app_or in H. destruct H as [H | H]; eauto. }
  destruct (ca_connect_ret a =? 0).
  - destruct (negb _).
    + cbn [setup_events]. intros H.
      apply in_app_or in H. destruct H as [H | H]; [ auto |].
      apply in_app_or in H. destruct H as [[<- | []] | H]; [ auto |].
      apply in_app_or in H. destruct H as [H | H]; [| eauto ].
      destruct (sock >=? 0); [| destruct H ].
      destruct H as [<- | H]; [ auto |].
      destruct (ca_shutdown_ret a =? 0); [ destruct H | destruct H as [<- | []]; auto ].
    + destruct (ca_send_ret a =? sizeof_pid_t); cbn [setup_events]; intros H;
        (apply in_app_or in H; destruct H as [H | H]; [ auto |]);
        (apply in_app_or in H; destruct H as [[<- | [<- | []]] | H]; eauto).
  - intros H. apply IH in H. destruct H as [H | H]; [| auto ].
    apply in_app_or in H. destruct H as [H | [<- | [<- | []]]]; auto.
Qed.

Lemma setup_events_only st sock attempts e :
  In e (setup_events (SetupAdbConnection st sock attempts)) -> is_setup_event e = true.
Proof.
  unfold SetupAdbConnection. destruct (sock <? 0).
  - cbn [setup_events]. intros H. apply in_app_or in H. destruct H as [[<- | []] | H]; [ reflexivity |].
    unfold unique_fd_release in H. destruct (sock =? -1); [ destruct H |].
    destruct H as [<- | []]. reflexivity.
  - intros H. apply connect_loop_events in H. destruct H as [[] | H]. exact H.
Qed.

Lemma setup_events_quiet evs :
  (forall e, In e evs -> is_setup_event e = true) ->
  dcheck_failures evs = [] /\ attach_count evs = 0%nat.
Proof.
  induction evs as [| e evs IH]; intros H; [ split; reflexivity |].
  pose proof (H e (or_introl eq_refl)) as He.
  destruct (IH (fun x Hx => H x (or_intror Hx))) as [Hd Ha].
  destruct e; try discriminate He; cbn; auto.
Qed.

Lemma connect_loop_only_control (attempts : list ConnectAttempt) :
  forall st sock sleep_ms evs,
    match connect_loop attempts st sock sleep_ms evs with
    | SetupReturned _ st' _ | SetupRetrying st' _ _ =>
      set_shutting_down (set_control_sock st' (control_sock_ st)) (shutting_down_ st) = st
    end.
Proof.
  induction attempts as [| a attempts IH]; intros st sock sleep_ms evs.
  - destruct st. reflexivity.
  - cbn [connect_loop].
    remember (if ca_stop_requested a then set_shutting_down st true else st) as st1 eqn:Est1.
    assert (H1 : set_shutting_down (set_control_sock st1 (control_sock_ st)) (shutting_down_ st)
                 = st)
      by (rewrite Est1; destruct (ca_stop_requested a); destruct st; reflexivity).
    assert (Hc : control_sock_ st1 = control_sock_ st)
      by (rewrite Est1; destruct (ca_stop_requested a); reflexivity).
    clear Est1.
    destruct (shutting_down_ st1) eqn:Hsd1; [ exact H1 |].
    destruct (ca_connect_ret a =? 0).
    + destruct (negb _); [ exact H1 |].
      destruct (ca_send_ret a =? sizeof_pid_t); [| exact H1 ].
      rewrite <- H1 at 3. destruct st1. reflexivity.
    + specialize (IH st1 sock (next_sleep_ms sleep_ms)
                     (evs ++ [ EvLog ERROR "Can't connect to ADB control socket. Will retry.";
                               EvUsleep (sleep_ms * 1000) ])).
      destruct (connect_loop attempts st1 sock _ _) as [ok st' evs' | st' evs' ms];
        rewrite <- H1 at 3; rewrite <- IH; rewrite Hc; destruct st'; reflexivity.
Qed.

Lemma setup_only_control st sock attempts :
  match SetupAdbConnection st sock attempts with
  | SetupReturned _ st' _ | SetupRetrying st' _ _ =>
    agent_loaded_ st' = agent_loaded_ st /\ agent_listening_ st' = agent_listening_ st
  end.
Proof.
  unfold SetupAdbConnection. destruct (sock <? 0); [ split; reflexivity |].
  pose proof (connect_loop_only_control attempts st sock 500 []) as H.
  destruct (connect_loop attempts st sock 500 []) as [ok st' evs | st' evs ms];
    rewrite <- H; split; reflexivity.
Qed.

Lemma poll_iteration_loaded M st env :
  (agent_loaded_ st = true -> agent_loaded_ (snd (fst (poll_iteration M st env))) = true)
  /\ (listening_implies_loaded st ->
      listening_implies_loaded (snd (fst (poll_iteration M st env)))).
Proof.
  unfold poll_iteration, listening_implies_loaded.
  destruct (pe_poll_res env <? 0); [ split; auto |].
  destruct (FlagsSet (slot_revents (agent_slot st) _) POLLIN) eqn:Ea.
  { apply agent_slot_loaded in Ea.
    unfold agent_branch, CloseFds, SendAgentFds. break_match; state_simpl; split; auto. }
  destruct (FlagsSet (slot_revents (control_slot st) _) POLLIN).
  { unfold control_pollin_branch, ReadFdFromAdb, SendAgentFds.
    break_match; state_simpl; split; auto. }
  destruct (FlagsSet (slot_revents (control_slot st) _) POLLRDHUP); [ split; auto |].
  destruct (FlagsSet (slot_revents (adb_slot st) _) POLLIN); [| split; auto ].
  unfold adb_socket_branch, SendAgentFds. break_match; state_simpl; split; auto.
Qed.

Lemma publish_events_quiet st type data stale writev_res st' evs :
  PublishDdmData st type data stale writev_res = PublishReturned st' evs ->
  dcheck_failures evs = [] /\ attach_count evs = 0%nat.
Proof.
  unfold PublishDdmData. destruct (adb_connection_socket_ st =? -1).
  - intros H. apply publish_returned_inj in H. destruct H as [_ <-]. split; reflexivity.
  - cbn [NextDdmId]. destruct (ddm_header _ _ _ _) as [pkt |]; [| discriminate ].
    intros H. apply publish_returned_inj in H. destruct H as [_ <-].
    destruct (size_t writev_res =? size_t (kDdmPacketHeaderSize + zlen data));
      split; reflexivity.
Qed.

Lemma step_listening M c i :
  (agent_loaded_ (broker c) = true -> agent_loaded_ (broker (fst (step M c i))) = true)
  /\ (listening_implies_loaded (broker c) ->
      listening_implies_loaded (broker (fst (step M c i)))).
Proof.
  destruct i as [env | type data stale writev_res |].
  - cbn [step]. destruct (worker c); try solve [ split; auto ].
    unfold loop_step. destruct (shutting_down_ (broker c)); [ split; auto |].
    destruct (control_sock_ (broker c) =? -1).
    + pose proof (setup_only_control (broker c) (le_socket env) (le_attempts env)) as Hs.
      unfold listening_implies_loaded.
      destruct (SetupAdbConnection (broker c) (le_socket env) (le_attempts env))
        as [[|] st' evs | st' evs ms]; cbn; destruct Hs as [-> ->]; split; auto.
    + pose proof (poll_iteration_loaded M (broker c) (le_poll env)) as Hp.
      destruct (poll_iteration M (broker c) (le_poll env)) as [[flow st'] evs].
      destruct flow; exact Hp.
  - cbn [step].
    destruct (PublishDdmData (broker c) type data stale writev_res) as [st' evs |] eqn:E;
      [| split; auto ].
    apply publish_frame in E. cbn. rewrite E. split; auto.
  - cbn. split; auto.
Qed.

Lemma reachable_listening M G c :
  reachable_under M G c -> listening_implies_loaded (broker c).
Proof.
  induction 1 as [c Hinit | c i Hreach IH Hguard].
  - destruct Hinit as (name & a & b & l & r & Hstart & _).
    unfold StartDebuggerThreads in Hstart.
    destruct (_ && _) in Hstart; [| discriminate Hstart ].
    injection Hstart as <-. intros H. discriminate H.
  - apply step_listening. exact IH.
Qed.

Lemma step_dchecks M c i what :
  In what (dcheck_failures (snd (step M c i))) ->
  exists env, i = InLoop env
              /\ In what (dcheck_failures (snd (poll_iteration M (broker c) (le_poll env)))).
Proof.
  destruct i as [env | type data stale writev_res |].
  - cbn [step]. destruct (worker c); try solve [ cbn; intros [] ].
    unfold loop_step. destruct (shutting_down_ (broker c)); [ cbn; intros [] |].
    destruct (control_sock_ (broker c) =? -1).
    + pose proof (setup_events_only (broker c) (le_socket env) (le_attempts env)) as Hs.
      destruct (SetupAdbConnection (broker c) (le_socket env) (le_attempts env))
        as [[|] st' evs | st' evs ms]; cbn [setup_events snd] in *;
        rewrite ?dcheck_failures_app, (proj1 (setup_events_quiet _ Hs)); cbn; intros [].
    + intros H. exists env. split; [ reflexivity |].
      destruct (poll_iteration M (broker c) (le_poll env)) as [[flow st'] evs].
      destruct flow; exact H.
  - cbn [step].
    destruct (PublishDdmData (broker c) type data stale writev_res) as [st' evs |] eqn:E;
      [| cbn; intros [] ].
    cbn [snd]. rewrite (proj1 (publish_events_quiet _ _ _ _ _ _ _ E)). intros [].
  - cbn. intros [].
Qed.

(** X5: whatever the daemon and the agent do, three of the loop's five
    assertions hold in every reachable state: the agent is loaded when its
    socket is read, it does not hold the connection when the connection is
    read, and it is not listening before it is loaded ([agent_listening_]
    implies [agent_loaded_] throughout).  Only the assertion of
    [SendAgentFds] and the one of the hang-up branch can fail. *)
Theorem assertions_that_always_hold (M : fd_transport)
        (G : AdbConnectionState -> Input -> Prop) (c : Config) :
  reachable_under M G c ->
  (agent_listening_ (broker c) = true -> agent_loaded_ (broker c) = true)
  /\ (forall i what,
         In what (dcheck_failures (snd (step M c i))) ->
         what = "!sent_agent_fds_"%string
         \/ what = "!agent_has_socket_ on POLLRDHUP"%string).
Proof.
  intros Hreach. pose proof (reachable_listening M G c Hreach) as HJ.
  split; [ exact HJ |].
  intros i what H. destruct (step_dchecks M c i what H) as (env & _ & Hin).
  destruct (poll_iteration_dchecks M (broker c) (le_poll env) what Hin)
    as [(-> & _) | [(-> & _) | (_ & Hl & Hlis)]]; auto.
  rewrite (HJ Hlis) in Hl. discriminate Hl.
Qed.

Lemma assertions_that_always_hold_witness :
  agent_loaded_ (broker (fst (run spec_messages started accept_after_close_run))) = true
  /\ dcheck_failures
       (snd (step spec_messages (fst (run spec_messages started accept_after_close_run))
                  (InLoop {| le_socket := -1; le_attempts := []; le_poll := daemon_hangup |})))
     = [ "!agent_has_socket_ on POLLRDHUP"%string ].
Proof.
  assert (Hreach : reachable_under spec_messages unconstrained
                     (fst (run spec_messages started accept_after_close_run))).
  { apply run_reachable_under; [ apply reach_initial; exact started_initial |].
    cbn [accept_after_close_run agent_loaded_run app guards_hold]. repeat split. }
  destruct (assertions_that_always_hold spec_messages unconstrained _ Hreach) as [_ Hd].
  split; [ reflexivity |].
  destruct (Hd (InLoop {| le_socket := -1; le_attempts := []; le_poll := daemon_hangup |})
               "!agent_has_socket_ on POLLRDHUP"%string) as [H | H].
  - left. reflexivity.
  - discriminate H.
  - reflexivity.
Defined.



Lemma attach_count_app a b : attach_count (a ++ b) = (attach_count a + attach_count b)%nat.
Proof.
  induction a as [| e a IH]; [ reflexivity |].
  destruct e; cbn; rewrite IH; reflexivity.
Qed.

Lemma attach_count_DCHECK cond what : attach_count (DCHECK cond what) = 0%nat.
Proof. unfold DCHECK. destruct cond; reflexivity. Qed.

Lemma attach_count_release fd : attach_count (unique_fd_release fd) = 0%nat.
Proof. unfold unique_fd_release. destruct (fd =? -1); reflexivity. Qed.

Lemma attach_count_SendAgentFds st env : attach_count (snd (SendAgentFds st env)) = 0%nat.
Proof.
  unfold SendAgentFds. break_ifs; cbn [snd];
    rewrite ?attach_count_app, ?attach_count_DCHECK; reflexivity.
Qed.

Ltac attach_simpl :=
  state_simpl; cbn [app attach_count];
  rewrite ?attach_count_app, ?attach_count_DCHECK, ?attach_count_release;
  cbn [app attach_count Nat.add].

Lemma poll_iteration_attach M st env :
  (attach_count (snd (poll_iteration M st env)) = 0%nat
   /\ agent_loaded_ (snd (fst (poll_iteration M st env))) = agent_loaded_ st)
  \/ (attach_count (snd (poll_iteration M st env)) = 1%nat
      /\ agent_loaded_ st = false
      /\ (fst (fst (poll_iteration M st env)) = Return
          \/ agent_loaded_ (snd (fst (poll_iteration M st env))) = true)).
Proof.
  unfold poll_iteration.
  destruct (pe_poll_res env <? 0); [ left; split; reflexivity |].
  destruct (FlagsSet (slot_revents (agent_slot st) _) POLLIN).
  { left. unfold agent_branch.
    destruct (recv_agent_message env) as [| | buf]; cbn [fst snd];
      rewrite ?attach_count_app, ?attach_count_DCHECK; try (split; reflexivity).
    destruct (memcmp_eq (kListenStartMessage M) buf).
    { state_simpl. destruct (negb (adb_connection_socket_ st =? -1)).
      - pose proof (attach_count_SendAgentFds (set_agent_listening st true) env) as Ha.
        pose proof (SendAgentFds_frame (set_agent_listening st true) env) as Hf.
        destruct (SendAgentFds (set_agent_listening st true) env) as [[flow st'] evs].
        state_simpl. rewrite attach_count_app, attach_count_DCHECK, Ha.
        split; [ reflexivity |]. destruct Hf as [-> | ->]; reflexivity.
      - state_simpl. rewrite attach_count_DCHECK. split; reflexivity. }
    destruct (memcmp_eq (kListenEndMessage M) buf);
      [ state_simpl; rewrite attach_count_DCHECK; split; reflexivity |].
    destruct (memcmp_eq (kCloseMessage M) buf).
    { unfold CloseFds. state_simpl.
      rewrite !attach_count_app, attach_count_DCHECK, attach_count_release.
      split; reflexivity. }
    destruct (memcmp_eq (kAcceptMessage M) buf); state_simpl;
      rewrite ?attach_count_app, attach_count_DCHECK; split; reflexivity. }
  destruct (FlagsSet (slot_revents (control_slot st) _) POLLIN).
  { left. unfold control_pollin_branch, ReadFdFromAdb.
    destruct (pe_recvmsg_rc env <=? 0).
    { rewrite Z.eqb_refl. attach_simpl. split; reflexivity. }
    destruct (pe_cmsg_fd env =? -1).
    { attach_simpl. split; reflexivity. }
    destruct (negb (adb_connection_socket_ st =? -1)).
    { destruct (pe_cmsg_fd env >=? 0); attach_simpl; split; reflexivity. }
    state_simpl. destruct (agent_loaded_ st && agent_listening_ st).
    - pose proof (attach_count_SendAgentFds
                    (set_adb_connection_socket st (pe_cmsg_fd env)) env) as Ha.
      pose proof (SendAgentFds_frame (set_adb_connection_socket st (pe_cmsg_fd env)) env) as Hf.
      destruct (SendAgentFds (set_adb_connection_socket st (pe_cmsg_fd env)) env)
        as [[flow st'] evs].
      attach_simpl. rewrite Ha.
      split; [ reflexivity |]. destruct Hf as [-> | ->]; reflexivity.
    - attach_simpl. split; reflexivity. }
  destruct (FlagsSet (slot_revents (control_slot st) _) POLLRDHUP).
  { left. cbn [control_rdhup_branch fst snd].
    rewrite attach_count_app, attach_count_DCHECK, attach_count_release. split; reflexivity. }
  destruct (FlagsSet (slot_revents (adb_slot st) _) POLLIN); [| left; split; reflexivity ].
  unfold adb_socket_branch. destruct (agent_loaded_ st) eqn:Hloaded; cbn [negb].
  - left. destruct (agent_listening_ st && negb (sent_agent_fds_ st)).
    + pose proof (attach_count_SendAgentFds st env) as Ha.
      pose proof (SendAgentFds_frame st env) as Hf.
      destruct (SendAgentFds st env) as [[flow st'] evs]. state_simpl.
      rewrite attach_count_app, attach_count_DCHECK, Ha. split; [ reflexivity |].
      destruct Hf as [-> | ->]; cbn; exact Hloaded.
    + state_simpl. rewrite attach_count_DCHECK. split; [ reflexivity | exact Hloaded ].
  - right. destruct (pe_attach_exception env); state_simpl;
      rewrite !attach_count_app, !attach_count_DCHECK; cbn [attach_count app Nat.add];
      repeat split; auto.
Qed.

Lemma step_attach M c i :
  (attach_count (snd (step M c i)) + attach_budget (fst (step M c i)) <= attach_budget c)%nat.
Proof.
  unfold attach_budget. destruct i as [env | type data stale writev_res |].
  - cbn [step]. destruct (worker c) eqn:Hw; cbn [fst snd attach_count]; rewrite ?Hw; try lia.
    unfold loop_step. destruct (shutting_down_ (broker c)); [ cbn; lia |].
    destruct (control_sock_ (broker c) =? -1).
    + pose proof (setup_events_only (broker c) (le_socket env) (le_attempts env)) as He.
      pose proof (setup_only_control (broker c) (le_socket env) (le_attempts env)) as Hs.
      destruct (SetupAdbConnection (broker c) (le_socket env) (le_attempts env))
        as [[|] st' evs | st' evs ms]; cbn [setup_events fst snd worker broker] in *;
        rewrite ?attach_count_app, (proj2 (setup_events_quiet _ He));
        destruct Hs as [Hs _]; cbn; rewrite ?Hs; destruct (agent_loaded_ (broker c)); lia.
    + pose proof (poll_iteration_attach M (broker c) (le_poll env)) as Hp.
      destruct (poll_iteration M (broker c) (le_poll env)) as [[flow st'] evs].
      cbn [fst snd] in Hp.
      destruct Hp as [[Ha Hl] | (Ha & Hl & Hr)].
      * destruct flow; cbn [fst snd worker broker]; rewrite Ha, ?Hl;
          destruct (agent_loaded_ (broker c)); lia.
      * rewrite Hl.
        destruct flow; cbn [fst snd worker broker]; rewrite Ha;
          try lia; destruct Hr as [Hr | Hr]; try discriminate Hr; rewrite Hr; lia.
  - cbn [step].
    destruct (PublishDdmData (broker c) type data stale writev_res) as [st' evs |] eqn:E.
    + cbn [fst snd worker broker].
      rewrite (proj2 (publish_events_quiet _ _ _ _ _ _ _ E)).
      apply publish_frame in E. rewrite E. cbn. lia.
    + cbn. destruct (worker c); try destruct (agent_loaded_ (broker c)); lia.
  - cbn. lia.
Qed.

(** X7: the agent is attached at most once.  [AttachAgent] is called only
    while [agent_loaded_] is false; a successful call sets the flag, which
    nothing clears, and a failed one ends the worker. *)
Theorem agent_attached_once (M : fd_transport) (inputs : list Input) (c : Config) :
  (attach_count (snd (run M c inputs)) <= 1)%nat
  /\ (agent_loaded_ (broker c) = true ->
      attach_count (snd (run M c inputs)) = 0%nat
      /\ agent_loaded_ (broker (fst (run M c inputs))) = true).
Proof.
  assert (Hb : forall inputs c,
             (attach_count (snd (run M c inputs)) <= attach_budget c)%nat).
  { clear. induction inputs as [| i inputs IH]; intros c; [ cbn; lia |].
    rewrite run_step. cbn [snd]. rewrite attach_count_app.
    pose proof (step_attach M c i). pose proof (IH (fst (step M c i))). lia. }
  split.
  - pose proof (Hb inputs c) as H. unfold attach_budget in H.
    destruct (worker c); try destruct (agent_loaded_ (broker c)); lia.
  - intros Hl. split.
    + pose proof (Hb inputs c) as H. unfold attach_budget in H. rewrite Hl in H.
      destruct (worker c); lia.
    + revert c Hl. induction inputs as [| i inputs IH]; intros c Hl; [ exact Hl |].
      rewrite run_step. cbn [fst]. apply IH. apply (proj1 (step_listening M c i)). exact Hl.
Qed.

Lemma agent_attached_once_witness :
  attach_count (snd (run spec_messages
                       {| worker := Running; broker := handed_over_broker |}
                       [ in_debugger_data; in_agent "ds-accept"; in_agent "ds-close";
                         in_debugger_fd 13; in_debugger_data ])) = 0%nat.
Proof.
  apply (agent_attached_once spec_messages
           [ in_debugger_data; in_agent "ds-accept"; in_agent "ds-close";
             in_debugger_fd 13; in_debugger_data ]
           {| worker := Running; broker := handed_over_broker |}).
  reflexivity.
Defined.

(** ** Outcomes of [SetupAdbConnection] *)

Lemma release_closes fd e : In e (unique_fd_release fd) -> e = EvClose fd /\ fd <> -1.
Proof.
  unfold unique_fd_release. destruct (fd =? -1) eqn:E; [ intros [] |].
  intros [<- | []]. split; [ reflexivity | apply Z.eqb_neq; exact E ].
Qed.

Lemma release_In fd : fd <> -1 -> In (EvClose fd) (unique_fd_release fd).
Proof.
  intros H. unfold unique_fd_release. destruct (fd =? -1) eqn:E; [ lia | left; reflexivity ].
Qed.

Lemma connect_loop_outcomes (attempts : list ConnectAttempt) :
  forall st sock sleep_ms evs,
    match connect_loop attempts st sock sleep_ms evs with
    | SetupReturned true st' evs' =>
      control_sock_ st' = sock /\ 0 <= sock /\ shutting_down_ st' = false
      /\ (exists a, In a attempts /\ ca_connect_ret a = 0 /\ ca_peer_trusted a = true
                    /\ ca_send_ret a = sizeof_pid_t)
      /\ In (EvSendPid sock) evs'
      /\ (forall fd, In (EvClose fd) evs' ->
                     In (EvClose fd) evs \/ (fd = control_sock_ st /\ fd <> -1))
    | SetupReturned false st' evs' =>
      control_sock_ st' = control_sock_ st /\ (sock <> -1 -> In (EvClose sock) evs')
    | SetupRetrying st' evs' _ =>
      control_sock_ st' = control_sock_ st
      /\ Forall (fun a => ca_connect_ret a <> 0) attempts
      /\ (forall fd, In (EvClose fd) evs' -> In (EvClose fd) evs)
    end.
Proof.
  induction attempts as [| a attempts IH]; intros st sock sleep_ms evs.
  - cbn. repeat split; auto.
  - cbn [connect_loop].
    remember (if ca_stop_requested a then set_shutting_down st true else st) as st1 eqn:Est1.
    assert (Hc : control_sock_ st1 = control_sock_ st)
      by (rewrite Est1; destruct (ca_stop_requested a); reflexivity).
    clear Est1.
    destruct (shutting_down_ st1) eqn:Hsd.
    { split; [ exact Hc |]. intros Hs. apply in_or_app. right. apply release_In. exact Hs. }
    destruct (ca_connect_ret a =? 0) eqn:Eret.
    + apply Z.eqb_eq in Eret.
      destruct ((sock >=? 0) && ca_peer_trusted a) eqn:Etr; cbn [negb].
      * apply andb_true_iff in Etr. destruct Etr as [Hsock Htr].
        destruct (ca_send_ret a =? sizeof_pid_t) eqn:Esend.
        -- apply Z.eqb_eq in Esend. cbn [control_sock_ set_control_sock shutting_down_].
           split; [ reflexivity |]. split; [ lia |]. split; [ exact Hsd |].
           split; [ exists a; repeat split; auto; left; reflexivity |].
           split; [ apply in_or_app; right; left; reflexivity |].
           intros fd Hin. apply in_app_or in Hin. destruct Hin as [Hin | Hin]; [ auto |].
           destruct Hin as [Hin | [Hin | Hin]]; try discriminate Hin.
           apply release_closes in Hin. destruct Hin as [Hin Hne].
           injection Hin as ->. right. rewrite Hc in *. split; [ reflexivity | exact Hne ].
        -- split; [ exact Hc |]. intros Hs.
           rewrite !in_app_iff. cbn [In]. auto 10 using release_In.
      * split; [ exact Hc |]. intros Hs.
        rewrite !in_app_iff. cbn [In]. auto 10 using release_In.
    + apply Z.eqb_neq in Eret.
      specialize (IH st1 sock (next_sleep_ms sleep_ms)
                     (evs ++ [ EvLog ERROR "Can't connect to ADB control socket. Will retry.";
                               EvUsleep (sleep_ms * 1000) ])).
      assert (Hold : forall fd,
                 In (EvClose fd)
                    (evs ++ [ EvLog ERROR "Can't connect to ADB control socket. Will retry.";
                              EvUsleep (sleep_ms * 1000) ]) -> In (EvClose fd) evs).
      { intros fd Hin. apply in_app_or in Hin.
        destruct Hin as [Hin | [Hin | [Hin | []]]]; [ exact Hin | |]; discriminate Hin. }
      destruct (connect_loop attempts st1 sock _ _) as [[|] st' evs' | st' evs' ms].
      * destruct IH as (H1 & H2 & H3 & (a' & Ha' & Hrest) & H5 & H6).
        split; [ exact H1 |]. split; [ exact H2 |]. split; [ exact H3 |].
        split; [ exists a'; split; [ right; exact Ha' | exact Hrest ] |].
        split; [ exact H5 |].
        intros fd Hin. destruct (H6 fd Hin) as [H | H]; [ left; apply Hold; exact H |].
        right. rewrite <- Hc. exact H.
      * destruct IH as [H1 H2]. split; [ congruence | exact H2 ].
      * destruct IH as (H1 & H2 & H3). split; [ congruence |].
        split; [ constructor; assumption |]. intros fd Hin. apply Hold, H3, Hin.
Qed.

(** X8: [SetupAdbConnection] succeeds only when some attempt connected to a
    trusted peer and sent all four bytes of the pid; the socket is then
    installed as [control_sock_] and left open.  On every failure
    [control_sock_] is as before and the socket made for the attempt is
    closed.  While it is still retrying every attempt so far has failed to
    connect and nothing has been closed. *)
Theorem setup_outcomes (st : AdbConnectionState) (sock : Z)
        (attempts : list ConnectAttempt) :
  match SetupAdbConnection st sock attempts with
  | SetupReturned true st' evs =>
    control_sock_ st' = sock /\ 0 <= sock /\ shutting_down_ st' = false
    /\ (exists a, In a attempts /\ ca_connect_ret a = 0 /\ ca_peer_trusted a = true
                  /\ ca_send_ret a = sizeof_pid_t)
    /\ In (EvSendPid sock) evs
    /\ (forall fd, In (EvClose fd) evs -> fd = control_sock_ st /\ fd <> -1)
  | SetupReturned false st' evs =>
    control_sock_ st' = control_sock_ st /\ (sock <> -1 -> In (EvClose sock) evs)
  | SetupRetrying st' evs _ =>
    control_sock_ st' = control_sock_ st
    /\ Forall (fun a => ca_connect_ret a <> 0) attempts
    /\ (forall fd, ~ In (EvClose fd) evs)
  end.
Proof.
  unfold SetupAdbConnection. destruct (sock <? 0) eqn:E.
  - split; [ reflexivity |]. intros Hs. apply in_or_app. right. apply release_In. exact Hs.
  - pose proof (connect_loop_outcomes attempts st sock 500 []) as H.
    destruct (connect_loop attempts st sock 500 []) as [[|] st' evs | st' evs ms].
    + destruct H as (H1 & H2 & H3 & H4 & H5 & H6).
      split; [ exact H1 |]. split; [ exact H2 |]. split; [ exact H3 |].
      split; [ exact H4 |]. split; [ exact H5 |].
      intros fd Hin. destruct (H6 fd Hin) as [[] | H]. exact H.
    + exact H.
    + destruct H as (H1 & H2 & H3). split; [ exact H1 |]. split; [ exact H2 |].
      intros fd Hin. exact (H3 fd Hin).
Qed.

(** ** A stop request during a pass *)

Lemma poll_iteration_stop M st env :
  poll_iteration M (set_shutting_down st true) env
  = (fst (fst (poll_iteration M st env)),
     set_shutting_down (snd (fst (poll_iteration M st env))) true,
     snd (poll_iteration M st env)).
Proof.
  unfold poll_iteration, agent_branch, control_pollin_branch, control_rdhup_branch,
    adb_socket_branch, CloseFds, ReadFdFromAdb, SendAgentFds, MakeAgentArg,
    agent_slot, control_slot, adb_slot.
  cbn [agent_name_ sleep_event_fd_ control_sock_ local_agent_control_sock_
       remote_agent_control_sock_ adb_connection_socket_ adb_write_event_fd_
       shutting_down_ agent_loaded_ agent_listening_ agent_has_socket_ sent_agent_fds_
       next_ddm_id_ set_shutting_down set_agent_listening set_adb_connection_socket
       set_agent_has_socket set_sent_agent_fds set_control_sock set_agent_loaded].
  break_match; reflexivity.
Qed.

Lemma loop_step_pass M st env :
  shutting_down_ st = false -> control_sock_ st <> -1 ->
  snd (fst (loop_step M st env)) = snd (fst (poll_iteration M st (le_poll env)))
  /\ snd (loop_step M st env) = snd (poll_iteration M st (le_poll env)).
Proof.
  intros Hsd Hcs. unfold loop_step. rewrite Hsd.
  destruct (control_sock_ st =? -1) eqn:E; [ apply Z.eqb_eq in E; contradiction |].
  destruct (poll_iteration M st (le_poll env)) as [[[] st'] evs]; split; reflexivity.
Qed.

(** X9: a stop request that arrives while the worker is inside a pass of the
    inner loop does not cancel or alter the pass.  [shutting_down_] is read
    at the loop heads only, so the pass that is under way (its closes, its
    hand-off, its [AttachAgent]) runs as it would have without the request
    and only leaves the flag set behind; the broker ends as in the run in
    which the request comes right after the pass, with the same events apart
    from the place of the wake-up.  The next loop head then ends the worker
    without another action. *)
Theorem stop_during_pass (M : fd_transport) (c : Config) (env : LoopEnv) :
  worker c = Running ->
  shutting_down_ (broker c) = false ->
  control_sock_ (broker c) <> -1 ->
  let pass := poll_iteration M (broker c) (le_poll env) in
  let wake := EvWake (sleep_event_fd_ (broker c)) in
  let after := run M c [ InLoop env; InStop ] in
  pass_with_stop M (broker c) (le_poll env)
  = (fst (fst pass), set_shutting_down (snd (fst pass)) true, wake :: snd pass)
  /\ broker (fst after) = set_shutting_down (snd (fst pass)) true
  /\ snd after = snd pass ++ [ wake ]
  /\ forall env',
       broker (fst (step M (fst after) (InLoop env'))) = broker (fst after)
       /\ snd (step M (fst after) (InLoop env')) = []
       /\ worker (fst (step M (fst after) (InLoop env'))) <> Running.
Proof.
  intros Hw Hsd Hcs pass wake after.
  assert (Hpass : pass_with_stop M (broker c) (le_poll env)
                  = (fst (fst pass), set_shutting_down (snd (fst pass)) true, wake :: snd pass)).
  { unfold pass_with_stop, StopDebuggerThreads. rewrite poll_iteration_stop. reflexivity. }
  destruct (loop_step_pass M (broker c) env Hsd Hcs) as [Hst Hevs].
  destruct (poll_iteration_setup M (broker c) (le_poll env)) as [(_ & Hfd & _) _].
  assert (Hafter : after
                   = ({| worker := fst (fst (loop_step M (broker c) env));
                         broker := set_shutting_down (snd (fst pass)) true |},
                      snd pass ++ [ wake ])).
  { subst after. cbn [run step]. rewrite Hw.
    destruct (loop_step M (broker c) env) as [[w st'] evs].
    cbn [fst snd] in Hst, Hevs. subst st' evs.
    unfold StopDebuggerThreads. cbn [broker worker fst snd].
    subst wake pass. rewrite Hfd. rewrite app_nil_r. reflexivity. }
  split; [ exact Hpass |]. rewrite Hafter. cbn [fst snd broker].
  split; [ reflexivity |]. split; [ reflexivity |].
  intros env'. cbn [step worker broker].
  destruct (fst (fst (loop_step M (broker c) env)));
    unfold loop_step; cbn [shutting_down_ set_shutting_down fst snd broker worker];
    (split; [ reflexivity | split; [ reflexivity | discriminate ] ]).
Qed.

Lemma stop_during_pass_witness :
  pass_with_stop spec_messages connected_broker (le_poll data_on_connection)
  = (Continue, set_shutting_down (set_agent_loaded connected_broker true) true,
     [ EvWake 3; EvAttachAgent "libjdwp.so=transport=dt_fd_forward,address=6" ]).
Proof.
  refine (proj1 (stop_during_pass spec_messages
                   {| worker := Running; broker := connected_broker |}
                   data_on_connection eq_refl eq_refl _)).
  cbn. lia.
Defined.

(** ** Publishing *)

(** X10: with a connection in hand a publish always consumes an id and keeps
    the connection, whatever [writev] returns; the packet handed to [writev]
    does not depend on it either, and an error is logged exactly when the
    number returned, read as a [size_t], is not the length of header and
    payload. *)
Theorem publish_short_write (st : AdbConnectionState) (type : Z) (data stale : list Z)
        (writev_res : Z) :
  adb_connection_socket_ st <> -1 ->
  exists evs,
    PublishDdmData st type data stale writev_res = PublishReturned (snd (NextDdmId st)) evs
    /\ adb_connection_socket_ (snd (NextDdmId st)) = adb_connection_socket_ st
    /\ emitted_packet (PublishDdmData st type data stale writev_res)
       = emitted_packet (PublishDdmData st type data stale (19 + zlen data))
    /\ ((exists msg, In (EvLog ERROR msg) evs)
        <-> size_t writev_res <> size_t (19 + zlen data)).
Proof.
  intros Hconn. unfold PublishDdmData.
  destruct (adb_connection_socket_ st =? -1) eqn:E; [ lia |].
  cbn [NextDdmId snd].
  assert (Hlen : List.length (array_of kDdmPacketHeaderSize stale) = 19%nat)
    by (rewrite array_of_length; [ reflexivity | unfold kDdmPacketHeaderSize, kJDWPHeaderLen; lia ]).
  rewrite (ddm_header_bytes _ _ _ _ Hlen).
  change (kDdmPacketHeaderSize + zlen data) with (19 + zlen data).
  eexists. split; [ reflexivity |]. split; [ reflexivity |]. split; [ reflexivity |].
  destruct (size_t writev_res =? size_t (19 + zlen data)) eqn:Ew.
  - apply Z.eqb_eq in Ew. split; [| intros H; contradiction ].
    intros [msg Hin]. cbn in Hin.
    destruct Hin as [Hin | [Hin | [Hin | []]]]; discriminate Hin.
  - apply Z.eqb_neq in Ew. split; [ intros _; exact Ew |].
    intros _. eexists. cbn. right. right. left. reflexivity.
Qed.

Lemma publish_short_write_witness :
  exists evs,
    PublishDdmData connected_broker 0x41414141 [1; 2; 3] [] (-1)
    = PublishReturned (snd (NextDdmId connected_broker)) evs
    /\ exists msg, In (EvLog ERROR msg) evs.
Proof.
  destruct (publish_short_write connected_broker 0x41414141 [1; 2; 3] [] (-1))
    as (evs & Hres & _ & _ & Hlog).
  - cbn. lia.
  - exists evs. split; [ exact Hres |]. apply Hlog. vm_compute. discriminate.
Defined.

(** ** Start-up *)

(** X11: with the socket pair made, [StartDebuggerThreads] on a freshly
    constructed broker gets past its [CHECK]s exactly when both eventfds were
    created, and then stores the four descriptors and touches nothing else;
    on a broker that has been started it always trips a [CHECK]. *)
Theorem start_once (st : AdbConnectionState) (sleep_fd write_fd local_sock remote_sock : Z) :
  (forall agent_name,
      (exists st', StartDebuggerThreads (AdbConnectionState_new agent_name)
                                        sleep_fd write_fd local_sock remote_sock = Some st')
      <-> sleep_fd <> -1 /\ write_fd <> -1)
  /\ (forall st',
         StartDebuggerThreads st sleep_fd write_fd local_sock remote_sock = Some st' ->
         sleep_event_fd_ st' = sleep_fd /\ adb_write_event_fd_ st' = write_fd
         /\ local_agent_control_sock_ st' = local_sock
         /\ remote_agent_control_sock_ st' = remote_sock
         /\ same_session st st' /\ control_sock_ st' = control_sock_ st
         /\ next_ddm_id_ st' = next_ddm_id_ st
         /\ forall a b l r, StartDebuggerThreads st' a b l r = None).
Proof.
  split.
  - intros agent_name. unfold StartDebuggerThreads. cbn.
    destruct (sleep_fd =? -1) eqn:E1; destruct (write_fd =? -1) eqn:E2; cbn;
      split; try (intros [st' H]; discriminate H); try (intros [H1 H2]; lia);
      intros _; try (eexists; reflexivity); lia.
  - intros st' H. unfold StartDebuggerThreads in H.
    destruct (_ && _) eqn:E in H; [| discriminate H ].
    injection H as <-.
    repeat (apply andb_true_iff in E; destruct E as [E ?]).
    cbn. repeat split.
    intros a b l r. unfold StartDebuggerThreads. cbn.
    destruct (write_fd =? -1); [ discriminate | reflexivity ].
Qed.

(** ** Handing the descriptors over *)

(** X12: [SendAgentFds] aborts exactly when one of the three [dup] calls
    fails, and then nothing was sent.  Otherwise it sends the three
    duplicates once, in the order read, write, write-lock, over the local
    agent socket and closes each of them afterwards whether or not the send
    succeeded; [sent_agent_fds_] is set exactly on success and nothing else
    changes. *)
Theorem SendAgentFds_outcomes (st : AdbConnectionState) (env : PollEnv) :
  (fst (fst (SendAgentFds st env)) = Abort
   <-> pe_dup_read env = -1 \/ pe_dup_write env = -1 \/ pe_dup_write_lock env = -1)
  /\ (fst (fst (SendAgentFds st env)) = Abort ->
      snd (fst (SendAgentFds st env)) = st
      /\ forall sock r w l, ~ In (EvSendFds sock r w l) (snd (SendAgentFds st env)))
  /\ (fst (fst (SendAgentFds st env)) <> Abort ->
      fst (fst (SendAgentFds st env)) = Continue
      /\ snd (fst (SendAgentFds st env))
         = (if pe_sendmsg_res env <? 0 then st else set_sent_agent_fds st true)
      /\ exists pre post,
          snd (SendAgentFds st env)
          = pre ++ EvSendFds (local_agent_control_sock_ st) (pe_dup_read env)
                             (pe_dup_write env) (pe_dup_write_lock env) :: post
          /\ (forall sock r w l, ~ In (EvSendFds sock r w l) (pre ++ post))
          /\ In (EvClose (pe_dup_read env)) post
          /\ In (EvClose (pe_dup_write env)) post
          /\ In (EvClose (pe_dup_write_lock env)) post).
Proof.
  unfold SendAgentFds, DCHECK.
  destruct (pe_dup_read env =? -1) eqn:E1;
    [| destruct (pe_dup_write env =? -1) eqn:E2;
       [| destruct (pe_dup_write_lock env =? -1) eqn:E3 ] ].
  1-3: split; [ split; [ intros _; lia | reflexivity ] |];
       split; [| intros H; contradiction H; reflexivity ];
       intros _; split; [ reflexivity |];
       intros sock r w l; destruct (negb (sent_agent_fds_ st)); cbn;
       intros H; repeat (destruct H as [H | H]; try discriminate H); exact H.
  split; [ split; [ destruct (pe_sendmsg_res env <? 0); intros H; discriminate H | lia ] |].
  split; [ destruct (pe_sendmsg_res env <? 0); intros H; discriminate H |].
  intros _.
  destruct (pe_sendmsg_res env <? 0); destruct (negb (sent_agent_fds_ st)); cbn.
  all: split; [ reflexivity |]; split; [ reflexivity |].
  1,3: exists [].
  3,4: exists [ EvDcheckFailed "!sent_agent_fds_" ].
  all: eexists; split; [ reflexivity |].
  all: split; [ intros sock r w l H; cbn in H;
                repeat (destruct H as [H | H]; try discriminate H); exact H |].
  all: cbn; auto 10.
Qed.

(** ** The receive buffer *)

Lemma bytes_eqb_app_last (pre : list Z) (x y : Z) :
  bytes_eqb (pre ++ [x]) (pre ++ [y]) = (x =? y).
Proof.
  induction pre as [| b pre IH]; cbn.
  - apply andb_true_r.
  - rewrite Z.eqb_refl. exact IH.
Qed.

Lemma firstn_snoc_nth {A} (d : A) (l : list A) (n : nat) :
  List.length l = S n -> l = firstn n l ++ [nth n l d].
Proof.
  intros Hlen. rewrite <- (firstn_skipn n l) at 1. f_equal.
  rewrite (skipn_cons_nth d) by lia. f_equal.
  apply skipn_all2. lia.
Qed.

(** X13: after a datagram of [n <= 255] bytes the receive buffer holds the
    datagram in its first [n] bytes, at index [n] the byte the stack held
    there, a zero at index [n + 1] and the stack's bytes after that: the
    terminator is stored one place behind the end of the datagram.  So a
    datagram that is a message array short of its last byte is taken for
    that message exactly when the stale byte at index [n] equals the missing
    byte. *)
Theorem receive_buffer_contents (env : PollEnv) (msg : list Z) :
  pe_recv env = Some msg ->
  (List.length msg <= 255)%nat ->
  let n := List.length msg in
  let stack := array_of sizeof_buf (pe_stack_buf env) in
  let buf := msg ++ nth n stack 0 :: 0 :: skipn (n + 2) stack in
  recv_agent_message env = RecvBuffer buf
  /\ forall tok, List.length tok = S n -> firstn n tok = msg ->
       memcmp_eq tok buf = (nth n tok 0 =? nth n stack 0).
Proof.
  intros Hrecv Hlen n stack buf. subst buf.
  assert (Hstack : List.length stack = 257%nat)
    by (apply array_of_length; unfold sizeof_buf; lia).
  split.
  - unfold recv_agent_message. rewrite Hrecv.
    change (Z.to_nat (sizeof_buf - 1)) with 256%nat.
    rewrite firstn_all2 by lia. fold stack. fold n.
    unfold store_bytes, zlen. fold n.
    replace (Z.to_nat (Z.of_nat n + 1)) with (n + 1)%nat by lia.
    rewrite length_app, length_skipn, Hstack. cbn [List.length].
    rewrite firstn_app, skipn_app. fold n.
    rewrite firstn_all2 by (fold n; lia).
    rewrite (@skipn_all2 _ (n + 1 + 1) msg) by (fold n; lia).
    replace (n + 1 - n)%nat with 1%nat by lia.
    replace (n + 1 + 1 - n)%nat with 2%nat by lia.
    rewrite skipn_skipn.
    rewrite (skipn_cons_nth 0 stack n) by lia.
    cbn [firstn app]. rewrite <- app_assoc. cbn [app].
    replace (n + 1 + 1 <=? n + (257 - n))%nat with true by (symmetry; apply Nat.leb_le; lia).
    replace (2 + n)%nat with (n + 2)%nat by lia. reflexivity.
  - intros tok Htok Hpre. unfold memcmp_eq. rewrite Htok.
    replace (S n) with (n + 1)%nat by lia.
    rewrite firstn_app. fold n.
    rewrite firstn_all2 by (fold n; lia).
    replace (n + 1 - n)%nat with 1%nat by lia. cbn [firstn].
    rewrite (firstn_snoc_nth 0 tok n Htok) at 1. rewrite Hpre.
    apply bytes_eqb_app_last.
Qed.

Lemma receive_buffer_contents_witness :
  recv_agent_message (agent_datagram (bytes_of_string "ds-clos") (char_array "ds-close"))
  = RecvBuffer (bytes_of_string "ds-clos"
                ++ 101 :: 0 :: skipn 9 (array_of sizeof_buf (char_array "ds-close")))
  /\ memcmp_eq (bytes_of_string "ds-close")
               (bytes_of_string "ds-clos"
                ++ 101 :: 0 :: skipn 9 (array_of sizeof_buf (char_array "ds-close")))
     = true.
Proof.
  destruct (receive_buffer_contents
              (agent_datagram (bytes_of_string "ds-clos") (char_array "ds-close"))
              (bytes_of_string "ds-clos") eq_refl) as [Hbuf Hcmp];
    [ cbn; lia |].
  split; [ exact Hbuf |].
  exact (Hcmp (bytes_of_string "ds-close") eq_refl eq_refl).
Defined.

(** ** Packet ids *)

Lemma ddm_id_value (x : Z) :
  uint32 (Z.lor 0x80000000 x) = 2 ^ 31 + x mod 2 ^ 31.
Proof.
  assert (Hland : Z.land (2 ^ 31) (x mod 2 ^ 31) = 0).
  { apply Z.bits_inj'. intros i Hi. rewrite Z.land_spec, Z.bits_0.
    destruct (Z.eq_dec i 31) as [-> | Hne].
    - rewrite Z.mod_pow2_bits_high by lia. apply andb_false_r.
    - rewrite Z.pow2_bits_false by lia. reflexivity. }
  rewrite Z.add_nocarry_lxor by exact Hland.
  rewrite Z.lxor_lor by exact Hland.
  unfold uint32. change 0x80000000 with (2 ^ 31).
  apply Z.bits_inj'. intros i Hi.
  rewrite Z.lor_spec.
  destruct (Z.lt_ge_cases i 32) as [Hlt | Hge].
  - rewrite Z.mod_pow2_bits_low by lia. rewrite Z.lor_spec.
    destruct (Z.eq_dec i 31) as [-> | Hne].
    + rewrite Z.pow2_bits_true by lia. reflexivity.
    + rewrite Z.pow2_bits_false by lia. cbn [orb].
      destruct (Z.lt_ge_cases i 31) as [Hlt' | Hge'].
      * rewrite Z.mod_pow2_bits_low by lia. reflexivity.
      * lia.
  - rewrite Z.mod_pow2_bits_high by lia.
    rewrite Z.pow2_bits_false by lia.
    rewrite Z.mod_pow2_bits_high by lia. reflexivity.
Qed.

Lemma NoDup_map_in {A B} (f : A -> B) (l : list A) :
  (forall x y, In x l -> In y l -> f x = f y -> x = y) ->
  NoDup l -> NoDup (map f l).
Proof.
  intros Hinj Hnd. induction Hnd as [| x l Hx Hnd IH]; cbn; constructor.
  - intros Hin. apply in_map_iff in Hin. destruct Hin as (y & Hy & Hyl).
    assert (y = x) by (apply Hinj; cbn; auto). subst y. exact (Hx Hyl).
  - apply IH. intros a b Ha Hb. apply Hinj; cbn; auto.
Qed.

(** X14: from any counter value, the ids of up to 2^31 consecutive calls of
    [NextDdmId] are pairwise different; the id comes back after exactly 2^31
    calls, since bit 31 of the counter is masked by the [| 0x80000000]. *)
Theorem ddm_ids_unique (st : AdbConnectionState) (n : nat) :
  (Z.of_nat n <= 2 ^ 31 -> NoDup (ddm_ids n st))
  /\ fst (NextDdmId (set_next_ddm_id st (uint32 (next_ddm_id_ st + 2 ^ 31))))
     = fst (NextDdmId st).
Proof.
  split.
  - intros Hn. rewrite ddm_ids_from. apply NoDup_map_in; [| apply seq_NoDup ].
    intros j k Hj Hk Heq. apply in_seq in Hj, Hk.
    rewrite !ddm_id_value in Heq.
    assert (Hmod : (next_ddm_id_ st + Z.of_nat j) mod 2 ^ 31
                   = (next_ddm_id_ st + Z.of_nat k) mod 2 ^ 31) by lia.
    pose proof (Z.div_mod (next_ddm_id_ st + Z.of_nat j) (2 ^ 31) ltac:(lia)) as Dj.
    pose proof (Z.div_mod (next_ddm_id_ st + Z.of_nat k) (2 ^ 31) ltac:(lia)) as Dk.
    rewrite Hmod in Dj.
    change (2 ^ 31) with 2147483648 in *. lia.
  - unfold NextDdmId. cbn [fst next_ddm_id_ set_next_ddm_id].
    rewrite !(Z.lor_comm _ 0x80000000), !ddm_id_value. f_equal.
    unfold uint32.
    rewrite (Z.mod_mod_divide (next_ddm_id_ st + 2 ^ 31) (2 ^ 32) (2 ^ 31))
      by (exists 2; reflexivity).
    rewrite <- Z.add_mod_idemp_r by lia.
    rewrite Z.mod_same by lia. rewrite Z.add_0_r. reflexivity.
Qed.

Lemma ddm_ids_unique_witness :
  NoDup (ddm_ids 3 (AdbConnectionState_new "libjdwp.so")).
Proof.
  apply (proj1 (ddm_ids_unique (AdbConnectionState_new "libjdwp.so") 3)).
  vm_compute. discriminate.
Defined.

(** ** A debugging session *)

Lemma agent_pass M st env tok :
  agent_loaded_ st = true -> 0 <= local_agent_control_sock_ st ->
  agent_says tok env ->
  poll_iteration M st env = agent_branch M st env.
Proof.
  intros Hl Hs (Hp & Hr & _). unfold poll_iteration, slot_revents, agent_slot.
  rewrite Hl.
  destruct (pe_poll_res env <? 0) eqn:E; [ apply Z.ltb_lt in E; lia |].
  destruct (local_agent_control_sock_ st <? 0) eqn:E'; [ apply Z.ltb_lt in E'; lia |].
  rewrite Hr. reflexivity.
Qed.

Lemma agent_says_buffer tok env :
  agent_says tok env ->
  exists buf, recv_agent_message env = RecvBuffer buf /\ memcmp_eq tok buf = true.
Proof.
  intros (_ & _ & msg & Hrecv & Hlen & Htok).
  destruct (recv_short env msg Hrecv Hlen) as (buf & Hbuf & Hpre & _).
  exists buf. split; [ exact Hbuf |].
  apply memcmp_eq_starts_with. exact (starts_with_extend _ _ _ Hpre Htok).
Qed.

(** X15: one debugging session brings an idle, listening broker back to the
    state it started from.  When adbd offers a descriptor the broker adopts it
    and hands duplicates to the agent at once; the agent's accept then marks
    the connection as the agent's, and its close closes the descriptor
    between taking and releasing the write interlock, after which every field
    of the broker is as before the offer. *)
Theorem debug_session_round_trip (M : fd_transport) (st : AdbConnectionState)
        (fd : Z) (offer accept close : PollEnv) :
  distinct_messages M = true ->
  idle_listener st ->
  adb_offers fd offer ->
  agent_says (kAcceptMessage M) accept ->
  agent_says (kCloseMessage M) close ->
  let st1 := set_sent_agent_fds (set_adb_connection_socket st fd) true in
  let st2 := set_sent_agent_fds (set_agent_has_socket st1 true) false in
  poll_iteration M st offer
  = (Continue, st1,
     [ EvLockAcquire (adb_write_event_fd_ st); EvLockRelease (adb_write_event_fd_ st);
       EvSendFds (local_agent_control_sock_ st) (pe_dup_read offer)
                 (pe_dup_write offer) (pe_dup_write_lock offer);
       EvClose (pe_dup_write_lock offer); EvClose (pe_dup_write offer);
       EvClose (pe_dup_read offer) ])
  /\ poll_iteration M st1 accept = (Continue, st2, [])
  /\ poll_iteration M st2 close
     = (Continue, st,
        [ EvLockAcquire (adb_write_event_fd_ st); EvClose fd;
          EvLockRelease (adb_write_event_fd_ st) ]).
Proof.
  intros HM (Hl & Hli & Hh & Hs & Hc & Hcs & Hls) Hoffer Hacc Hclo st1 st2.
  destruct (distinct_messages_split M HM) as (D1 & D2 & D3 & D4 & D5 & D6).
  split; [| split ].
  - destruct Hoffer as (Hp & Ha & Hd & Hrc & Hfd & Hne & Hr & Hw & Hk & Hsm).
    unfold poll_iteration, slot_revents, agent_slot, control_slot.
    rewrite Hl, Hc, Z.eqb_refl.
    destruct (pe_poll_res offer <? 0) eqn:E; [ apply Z.ltb_lt in E; lia |].
    destruct (local_agent_control_sock_ st <? 0) eqn:E1; [ apply Z.ltb_lt in E1; lia |].
    destruct (control_sock_ st <? 0) eqn:E2; [ apply Z.ltb_lt in E2; lia |].
    rewrite Ha, Hd.
    unfold control_pollin_branch, ReadFdFromAdb.
    destruct (pe_recvmsg_rc offer <=? 0) eqn:E3; [ apply Z.leb_le in E3; lia |].
    rewrite Hfd.
    destruct (fd =? -1) eqn:E4; [ apply Z.eqb_eq in E4; contradiction |].
    rewrite Hc, Z.eqb_refl. cbn [negb].
    cbn [agent_loaded_ agent_listening_ set_adb_connection_socket].
    rewrite Hl, Hli. cbn [andb].
    unfold SendAgentFds, DCHECK, unique_fd_release.
    cbn [sent_agent_fds_ set_adb_connection_socket local_agent_control_sock_].
    rewrite Hs, Z.eqb_refl. cbn [negb app].
    destruct (pe_dup_read offer =? -1) eqn:E5; [ apply Z.eqb_eq in E5; contradiction |].
    destruct (pe_dup_write offer =? -1) eqn:E6; [ apply Z.eqb_eq in E6; contradiction |].
    destruct (pe_dup_write_lock offer =? -1) eqn:E7; [ apply Z.eqb_eq in E7; contradiction |].
    destruct (pe_sendmsg_res offer <? 0) eqn:E8; [ apply Z.ltb_lt in E8; lia |].
    reflexivity.
  - rewrite (agent_pass M st1 accept _ Hl Hls Hacc).
    destruct (agent_says_buffer _ _ Hacc) as (buf & Hbuf & Hcmp).
    unfold agent_branch. rewrite Hbuf.
    rewrite (differ_memcmp _ _ buf (eq_trans (differ_sym _ _) D3) Hcmp).
    rewrite (differ_memcmp _ _ buf (eq_trans (differ_sym _ _) D5) Hcmp).
    rewrite (differ_memcmp _ _ buf (eq_trans (differ_sym _ _) D6) Hcmp).
    rewrite Hcmp. unfold DCHECK.
    change (agent_loaded_ st1) with (agent_loaded_ st). rewrite Hl. reflexivity.
  - rewrite (agent_pass M st2 close _ Hl Hls Hclo).
    destruct (agent_says_buffer _ _ Hclo) as (buf & Hbuf & Hcmp).
    unfold agent_branch. rewrite Hbuf.
    rewrite (differ_memcmp _ _ buf (eq_trans (differ_sym _ _) D2) Hcmp).
    rewrite (differ_memcmp _ _ buf (eq_trans (differ_sym _ _) D4) Hcmp).
    rewrite Hcmp. unfold DCHECK, CloseFds, unique_fd_release.
    change (agent_loaded_ st2) with (agent_loaded_ st). rewrite Hl.
    change (adb_connection_socket_ st2) with fd.
    change (adb_write_event_fd_ st2) with (adb_write_event_fd_ st).
    destruct Hoffer as (_ & _ & _ & _ & _ & Hne & _).
    destruct (fd =? -1) eqn:E4; [ apply Z.eqb_eq in E4; contradiction |].
    cbn [app]. f_equal. f_equal.
    subst st2 st1. destruct st. cbn in Hh, Hs, Hc |- *. subst. reflexivity.
Qed.

Lemma debug_session_round_trip_witness :
  let idle := set_agent_listening (set_agent_loaded
                (set_adb_connection_socket connected_broker (-1)) true) true in
  poll_iteration spec_messages
    (set_sent_agent_fds (set_agent_has_socket
       (set_sent_agent_fds (set_adb_connection_socket idle 9) true) true) false)
    (agent_datagram (char_array "ds-close") [])
  = (Continue, idle, [ EvLockAcquire 4; EvClose 9; EvLockRelease 4 ]).
Proof.
  intros idle.
  refine (proj2 (proj2 (debug_session_round_trip spec_messages idle 9 (offer_fd 9)
            (agent_datagram (char_array "ds-accept") [])
            (agent_datagram (char_array "ds-close") []) eq_refl _ _ _ _))).
  - unfold idle_listener. cbn. repeat apply conj; try reflexivity; lia.
  - unfold adb_offers. cbn. repeat apply conj; try reflexivity; lia.
  - unfold agent_says. cbn. repeat apply conj; try reflexivity; try lia.
    exists (char_array "ds-accept"). repeat apply conj; try reflexivity. cbn. lia.
  - unfold agent_says. cbn. repeat apply conj; try reflexivity; try lia.
    exists (char_array "ds-close"). repeat apply conj; try reflexivity. cbn. lia.
Defined.
